(** * Vikasit Jharkhand: the client-side logic of the civic-issue application

    A shallow embedding of the TypeScript sources: the vendor filter of
    [VendorManagement], the issue filter and the update handlers of
    [AdminDashboard], the submit handler of [IssueReportForm], the edit
    handlers of [IssueDetailsModal] and [SettingsModal], and the service
    wrappers of [auth.ts], [issues.ts], [firebase.ts] and [location.ts].

    Conventions.
    - A JavaScript string is a [string]: the bytes of its UTF-8 form, in
      which [===] is [String.eqb] and [includes] looks for a run of bytes.
      [toLowerCase] and [trim] are the engine's ([JS.Engine]).
    - A JavaScript [number] is an IEEE-754 binary64 value, [float].
    - An optional field ([x?: T], [T | null | undefined]) is an [option].
    - Truthiness of a string ([!s], [s || d]) is non-emptiness. *)

From Stdlib Require Import String Ascii List Bool Arith NArith ZArith Lia Floats DecimalString
  Sorted Permutation.
From stdpp Require Import base option list gmap strings.
Import ListNotations.
Local Open Scope string_scope.
#[local] Set Warnings "-inexact-float".

(** ** JavaScript primitives used by the sources *)

Module JS.

Definition number := float.

(** [!s] for a string [s]. *)
Definition falsy (s : string) : bool :=
  match s with
  | EmptyString => true
  | String _ _ => false
  end.

Definition truthy (s : string) : bool := negb (falsy s).

(** [!x] for an optional string [x]: undefined and the empty string. *)
Definition falsy_opt (x : option string) : bool :=
  match x with
  | None => true
  | Some s => falsy s
  end.

(** [a || d] for an optional string [a] and a string [d]. *)
Definition or_else (a : option string) (d : string) : string :=
  match a with
  | Some s => if truthy s then s else d
  | None => d
  end.

(** [x === s] for an optional string [x] and a string [s]. *)
Definition opt_eqb (x : option string) (s : string) : bool :=
  match x with
  | Some a => String.eqb a s
  | None => false
  end.

(** [t] starts [s]. *)
Fixpoint startsWith (s t : string) : bool :=
  match t, s with
  | EmptyString, _ => true
  | String _ _, EmptyString => false
  | String b t', String a s' => Ascii.eqb a b && startsWith s' t'
  end.

(** [s.includes(t)]: [t] occurs in [s] at some position. *)
Fixpoint includes (s t : string) : bool :=
  startsWith s t ||
  match s with
  | EmptyString => false
  | String _ s' => includes s' t
  end.

(** The characters of ASCII, and the strings made of them. *)
Definition isAsciiChar (c : ascii) : bool := (nat_of_ascii c <? 128)%nat.

Fixpoint isAscii (s : string) : bool :=
  match s with
  | EmptyString => true
  | String c s' => isAsciiChar c && isAscii s'
  end.

(** Lower case on ASCII: the letters A to Z. *)
Definition toLowerAscii (c : ascii) : ascii :=
  let n := nat_of_ascii c in
  if (65 <=? n)%nat && (n <=? 90)%nat then ascii_of_nat (n + 32) else c.

Fixpoint asciiLowerCase (s : string) : string :=
  match s with
  | EmptyString => EmptyString
  | String c s' => String (toLowerAscii c) (asciiLowerCase s')
  end.

(** White space on ASCII: tab, line feed, vertical tab, form feed,
    carriage return and space. *)
Definition isWhiteSpace (c : ascii) : bool :=
  let n := nat_of_ascii c in
  ((9 <=? n)%nat && (n <=? 13)%nat) || (n =? 32)%nat.

Fixpoint trimStart (s : string) : string :=
  match s with
  | EmptyString => EmptyString
  | String c s' => if isWhiteSpace c then trimStart s' else s
  end.

Fixpoint trimEnd (s : string) : string :=
  match s with
  | EmptyString => EmptyString
  | String c s' =>
      match trimEnd s' with
      | EmptyString => if isWhiteSpace c then EmptyString else String c EmptyString
      | rest => String c rest
      end
  end.

Definition asciiTrim (s : string) : string := trimEnd (trimStart s).

(** [String.prototype.toLowerCase] and [String.prototype.trim] are the
    engine's own and work on all of Unicode. They are taken as given,
    with what the ECMAScript definition says of them: on a string of ASCII
    characters [toLowerCase] changes the letters A to Z only, and [trim]
    removes the ASCII white space from both ends; [trim] returns a part of
    its argument, changes nothing when applied again, and removes a space
    in front. *)
Class Engine := {
  toLowerCase : string -> string;
  trim : string -> string;
  toLowerCase_ascii : forall s, isAscii s = true -> toLowerCase s = asciiLowerCase s;
  trim_ascii : forall s, isAscii s = true -> trim s = asciiTrim s;
  trim_within : forall s, exists pre post, s = pre +:+ trim s +:+ post;
  trim_again : forall s, trim (trim s) = trim s;
  trim_space : forall s, trim (" " +:+ s) = trim s
}.

(** The engine on ASCII alone, for running the definitions on samples. *)
Definition asciiEngine : Engine.
Proof.
  refine {| toLowerCase := asciiLowerCase; trim := asciiTrim |}.
  - reflexivity.
  - reflexivity.
  - assert (Hend : forall s, exists post, s = trimEnd s +:+ post).
    { induction s as [| c s [post IH]]; [now exists "" |]. simpl.
      destruct (trimEnd s) as [| d r].
      - destruct (isWhiteSpace c).
        + now exists (String c s).
        + exists post. rewrite IH at 1. reflexivity.
      - exists post. rewrite IH at 1. reflexivity. }
    assert (Hstart : forall s, exists pre, s = pre +:+ trimStart s).
    { induction s as [| c s [pre IH]]; [now exists "" |]. simpl.
      destruct (isWhiteSpace c).
      - exists (String c pre). rewrite IH at 1. reflexivity.
      - now exists "". }
    intros s. destruct (Hstart s) as [pre Hpre].
    destruct (Hend (trimStart s)) as [post Hpost].
    exists pre, post. unfold asciiTrim. rewrite <- Hpost. exact Hpre.
  - assert (Hend : forall s, trimEnd (trimEnd s) = trimEnd s).
    { induction s as [| c s IH]; [reflexivity |]. simpl.
      destruct (trimEnd s) as [| d r] eqn:Hs.
      - destruct (isWhiteSpace c) eqn:Hc; [reflexivity |]. simpl. now rewrite Hc.
      - simpl in *. rewrite IH. reflexivity. }
    assert (Hhead : forall s, trimStart s = "" \/
              exists c r, trimStart s = String c r /\ isWhiteSpace c = false).
    { induction s as [| c s IH]; [now left |]. simpl.
      destruct (isWhiteSpace c) eqn:Hc; [exact IH |]. right. now exists c, s. }
    intros s. unfold asciiTrim.
    destruct (Hhead s) as [-> | [c [r [-> Hc]]]]; [reflexivity |].
    assert (Hkeep : exists r', trimEnd (String c r) = String c r').
    { simpl. destruct (trimEnd r); [rewrite Hc |]; now eexists. }
    destruct Hkeep as [r' Hr]. rewrite Hr. simpl trimStart. rewrite Hc, <- Hr.
    apply Hend.
  - reflexivity.
Defined.

(** [arr.includes(x)] on an array of strings. *)
Definition array_includes (arr : list string) (x : string) : bool :=
  existsb (String.eqb x) arr.

End JS.

(** ** The data model *)

(** [IssueStatus] of StatusBadge.tsx: a union of four string literals. *)
Inductive IssueStatus := reported | acknowledged | in_progress | resolved.

Definition statusString (s : IssueStatus) : string :=
  match s with
  | reported => "reported"
  | acknowledged => "acknowledged"
  | in_progress => "in-progress"
  | resolved => "resolved"
  end.

(** At run time a status is the string stored in the document. *)
Definition isIssueStatus (s : string) : bool :=
  String.eqb s "reported" || String.eqb s "acknowledged" ||
  String.eqb s "in-progress" || String.eqb s "resolved".

Record Location := {
  address : string;
  lat : JS.number;
  lng : JS.number
}.

(** [Issue] of IssueCard.tsx. *)
Record Issue := {
  id : string;
  title : string;
  description : string;
  category : string;
  status : string;
  location : Location;
  imageUrl : option string;
  reportedBy : string;
  reportedAt : N;
  assignedTo : option string
}.

(** [Vendor] of vendors.ts. *)
Record Vendor := {
  vendor_id : string;
  vendor_name : string;
  vendor_email : string;
  vendor_phone : string;
  specialities : list string;
  vendor_location : string;
  rating : JS.number;
  totalJobs : JS.number;
  baseQuote : JS.number;
  vendor_description : string;
  verified : bool
}.

(** ** VendorManagement.tsx *)

Module VendorManagement.

Definition matchesIssue (issue : option Issue) (vendor : Vendor) : bool :=
  match issue with
  | None => true
  | Some i =>
      (length (specialities vendor) =? 0)%nat ||
      JS.array_includes (specialities vendor) (category i)
  end.

Definition relevantVendors (issue : option Issue) (vendors : list Vendor)
  : list Vendor :=
  List.filter (matchesIssue issue) vendors.

Definition displayVendors (issue : option Issue) (vendors : list Vendor)
  : list Vendor :=
  if (0 <? length (relevantVendors issue vendors))%nat
  then relevantVendors issue vendors
  else vendors.

End VendorManagement.

(** ** AdminDashboard.tsx: the filter *)

Module AdminDashboard.

Record Filters := {
  searchQuery : string;
  filterStatus : string;
  filterCategory : string;
  filterAssignee : string
}.

Section Search.

Context {js : JS.Engine}.

Definition matchesSearch (f : Filters) (issue : Issue) : bool :=
  JS.includes (JS.toLowerCase (title issue)) (JS.toLowerCase (searchQuery f)) ||
  JS.includes (JS.toLowerCase (description issue)) (JS.toLowerCase (searchQuery f)) ||
  JS.includes (JS.toLowerCase (address (location issue)))
              (JS.toLowerCase (searchQuery f)).

Definition matchesStatus (f : Filters) (issue : Issue) : bool :=
  String.eqb (filterStatus f) "all" || String.eqb (status issue) (filterStatus f).

Definition matchesCategory (f : Filters) (issue : Issue) : bool :=
  String.eqb (filterCategory f) "all" ||
  String.eqb (category issue) (filterCategory f).

Definition matchesAssignee (f : Filters) (issue : Issue) : bool :=
  String.eqb (filterAssignee f) "all" ||
  (String.eqb (filterAssignee f) "unassigned" && JS.falsy_opt (assignedTo issue)) ||
  JS.opt_eqb (assignedTo issue) (filterAssignee f).

Definition filteredIssues (f : Filters) (issues : list Issue) : list Issue :=
  List.filter
    (fun issue =>
       matchesSearch f issue && matchesStatus f issue &&
       matchesCategory f issue && matchesAssignee f issue)
    issues.

End Search.

(** The state of the filter controls after "Clear Filters", which is also
    their initial state. *)
Definition clearedFilters : Filters :=
  {| searchQuery := ""; filterStatus := "all";
     filterCategory := "all"; filterAssignee := "all" |}.

End AdminDashboard.

(** ** Errors and effects *)

(** A thrown value as the handlers read it: [error.code], [error.message]. *)
Record JsError := {
  code : option string;
  message : option string
}.

(** [new Error(msg)] *)
Definition Error (msg : string) : JsError :=
  {| code := None; message := Some msg |}.

(** How a call ends: it returns, or throws (an async function resolves, or
    rejects). *)
Inductive Completion (A : Type) : Type :=
| Normal (a : A)
| Abrupt (e : JsError).
Arguments Normal {A} a.
Arguments Abrupt {A} e.

(** Code with effects on a state [S]. A throw keeps the state reached. *)
Definition Eff (S A : Type) : Type := S -> Completion A * S.

Definition ret {S A : Type} (a : A) : Eff S A := fun s => (Normal a, s).

Definition bind {S A C : Type} (m : Eff S A) (k : A -> Eff S C) : Eff S C :=
  fun s =>
    match m s with
    | (Normal a, s') => k a s'
    | (Abrupt e, s') => (Abrupt e, s')
    end.

Definition throw {S A : Type} (e : JsError) : Eff S A := fun s => (Abrupt e, s).

(** [try { body } catch (error) { handler }] *)
Definition tryCatch {S A : Type} (body : Eff S A) (handler : JsError -> Eff S A)
  : Eff S A :=
  fun s =>
    match body s with
    | (Normal a, s') => (Normal a, s')
    | (Abrupt e, s') => handler e s'
    end.

(** [try { body } finally { cleanup }], for a cleanup that does not throw
    by itself; an early [return] in [body] is a normal completion. *)
Definition tryFinally {S A : Type} (body : Eff S A) (cleanup : Eff S unit)
  : Eff S A :=
  fun s =>
    match body s with
    | (r, s') =>
        match cleanup s' with
        | (Normal _, s'') => (r, s'')
        | (Abrupt e, s'') => (Abrupt e, s'')
        end
    end.

Definition gets {S A : Type} (f : S -> A) : Eff S A := fun s => (Normal (f s), s).

Definition modify {S : Type} (f : S -> S) : Eff S unit := fun s => (Normal tt, f s).

Declare Scope eff_scope.
Delimit Scope eff_scope with eff.
Notation "'let*' x := c1 'in' c2" := (bind c1 (fun x => c2))
  (at level 10, x binder, c1 at level 100, c2 at level 200) : eff_scope.
Notation "'run' c1 'then' c2" := (bind c1 (fun _ => c2))
  (at level 10, c1 at level 100, c2 at level 200) : eff_scope.

(** ** firebase.ts *)

Module Firebase.

(** [console.error] writes to the console only and is left out. *)
Definition handleFirebaseError (error : JsError) : string :=
  if JS.opt_eqb (code error) "unavailable" ||
     JS.opt_eqb (code error) "deadline-exceeded"
  then "Service temporarily unavailable. Operating in offline mode."
  else JS.or_else (message error) "An error occurred. Please try again.".

End Firebase.

(** ** Users, documents and the external backend *)

Inductive Role := citizen | admin.

(** [new Date()] read off the clock, or the [serverTimestamp()] sentinel. *)
Inductive Timestamp := DateAt (ms : N) | serverTimestamp.

(** [UserProfile] of auth.ts. *)
Record UserProfile := {
  uid : string;
  name : string;
  email : string;
  phone : string;
  role : Role;
  profileImageUrl : option string;
  createdAt : Timestamp;
  updatedAt : Timestamp
}.

(** [Partial<UserProfile>]: the fields that are present. *)
Record ProfileUpdates := {
  upd_uid : option string;
  upd_name : option string;
  upd_email : option string;
  upd_phone : option string;
  upd_role : option Role;
  upd_profileImageUrl : option string;
  upd_createdAt : option Timestamp;
  upd_updatedAt : option Timestamp
}.

(** [{ ...profile, ...updates }] *)
Definition spreadProfile (profile : UserProfile) (updates : ProfileUpdates)
  : UserProfile :=
  {| uid := default (uid profile) (upd_uid updates);
     name := default (name profile) (upd_name updates);
     email := default (email profile) (upd_email updates);
     phone := default (phone profile) (upd_phone updates);
     role := default (role profile) (upd_role updates);
     profileImageUrl :=
       match upd_profileImageUrl updates with
       | Some u => Some u
       | None => profileImageUrl profile
       end;
     createdAt := default (createdAt profile) (upd_createdAt updates);
     updatedAt := default (updatedAt profile) (upd_updatedAt updates) |}.

(** [{ ...updates, updatedAt: t }] *)
Definition withUpdatedAt (updates : ProfileUpdates) (t : Timestamp)
  : ProfileUpdates :=
  {| upd_uid := upd_uid updates; upd_name := upd_name updates;
     upd_email := upd_email updates; upd_phone := upd_phone updates;
     upd_role := upd_role updates;
     upd_profileImageUrl := upd_profileImageUrl updates;
     upd_createdAt := upd_createdAt updates; upd_updatedAt := Some t |}.

(** [User] of firebase/auth; the sources read its [uid] only. *)
Record User := { user_uid : string }.

(** What the report form hands to [addIssue]. *)
Record IssueData := {
  data_title : string;
  data_description : string;
  data_category : string;
  data_location : Location;
  data_reportedBy : string;
  data_status : string;
  data_imageUrl : option string;
  data_imageUploadFailed : bool;
  data_audioDescription : option string
}.

(** A document of the "issues" collection. *)
Record IssueDoc := {
  doc_title : string;
  doc_description : string;
  doc_category : string;
  doc_location : Location;
  doc_reportedBy : string;
  doc_status : string;
  doc_imageUrl : option string;
  doc_imageUploadFailed : bool;
  doc_audioDescription : option string;
  doc_assignedTo : option string;
  doc_reportedAt : Timestamp;
  doc_createdAt : Timestamp;
  doc_updatedAt : Timestamp
}.

(** [Partial<Issue>], with the fields the handlers set. *)
Record IssueUpdates := {
  set_title : option string;
  set_description : option string;
  set_category : option string;
  set_status : option string;
  set_location : option Location;
  set_assignedTo : option string
}.

(** A file picked in the form: its name. *)
Record File := { file_name : string }.

(** The calls made into the backend SDK, as a trace. *)
Inductive SdkCall :=
| CreateUserWithEmailAndPassword (email password : string)
| SignInWithEmailAndPassword (email password : string)
| UpdateProfile (user : User) (displayName : string)
| SetDoc (collection docId : string)
| GetDoc (collection docId : string)
| UpdateDoc (collection docId : string)
| DeleteDoc (collection docId : string)
| DeleteUser (user : User)
| AddDoc (collection : string) (doc : IssueDoc)
| UpdateIssueDoc (docId : string) (updates : IssueUpdates)
| UploadBytes (path : string)
| GetDownloadURL (path : string).

(** The call that creates an issue. *)
Definition isAddDoc (c : SdkCall) : bool :=
  match c with
  | AddDoc _ _ => true
  | _ => false
  end.

(** The backend SDK (auth, document store, blob store) over a backend
    state [B]: every operation may succeed or reject, and may change the
    backend. Nothing is assumed about it. *)
Class FirebaseSdk (B : Type) := {
  createUserWithEmailAndPassword : string -> string -> B -> Completion User * B;
  signInWithEmailAndPassword : string -> string -> B -> Completion User * B;
  updateProfile : User -> string -> B -> Completion unit * B;
  setDoc_users : string -> UserProfile -> B -> Completion unit * B;
  (** [None]: the snapshot does not exist *)
  getDoc_users : string -> B -> Completion (option UserProfile) * B;
  updateDoc_users : string -> ProfileUpdates -> B -> Completion unit * B;
  deleteDoc_users : string -> B -> Completion unit * B;
  deleteUser : User -> B -> Completion unit * B;
  (** returns the id of the new document *)
  addDoc_issues : IssueDoc -> B -> Completion string * B;
  updateDoc_issues : string -> IssueUpdates -> B -> Completion unit * B;
  uploadBytes : string -> File -> B -> Completion unit * B;
  getDownloadURL : string -> B -> Completion string * B
}.

(** The browser and the backend as one call sees them. Values of
    [localStorage] are kept as the object that [JSON.stringify] writes and
    [JSON.parse] reads back. *)
Record World (B : Type) := mkWorld {
  isFirebaseAvailable : bool;
  now : N;
  localStorage : gmap string UserProfile;
  backend : B;
  calls : list SdkCall
}.
Arguments mkWorld {B}.
Arguments isFirebaseAvailable {B}.
Arguments now {B}.
Arguments localStorage {B}.
Arguments backend {B}.
Arguments calls {B}.

Definition decimal (n : N) : string := NilEmpty.string_of_uint (N.to_uint n).

Section Services.

Context {B : Type} {sdk : FirebaseSdk B}.

(** One SDK call: it is recorded, and the backend moves on. *)
Definition call {A : Type} (tag : SdkCall) (op : B -> Completion A * B)
  : Eff (World B) A :=
  fun w =>
    let (r, b') := op (backend w) in
    (r, mkWorld (isFirebaseAvailable w) (now w) (localStorage w) b'
                (calls w ++ [tag])).

(** The world after the SDK calls [cs], with the backend at [b]. *)
Definition called (w : World B) (b : B) (cs : list SdkCall) : World B :=
  mkWorld (isFirebaseAvailable w) (now w) (localStorage w) b (calls w ++ cs)%list.

Definition localStorage_setItem (key : string) (value : UserProfile)
  : Eff (World B) unit :=
  modify (fun w => mkWorld (isFirebaseAvailable w) (now w)
                           (<[key := value]> (localStorage w))
                           (backend w) (calls w)).

Definition localStorage_getItem (key : string)
  : Eff (World B) (option UserProfile) :=
  gets (fun w => localStorage w !! key).

Definition localStorage_removeItem (key : string) : Eff (World B) unit :=
  modify (fun w => mkWorld (isFirebaseAvailable w) (now w)
                           (delete key (localStorage w))
                           (backend w) (calls w)).

Definition USER_KEY : string := "vikasit_jharkhand_user".

(** *** auth.ts *)

Local Open Scope eff_scope.

Definition registerUser (email password name phone : string)
  : Eff (World B) UserProfile :=
  let* available := gets isFirebaseAvailable in
  if negb available then
    let* t := gets now in
    let mockProfile :=
      {| uid := "offline_" +:+ decimal t; name := name; email := email;
         phone := phone; role := citizen; profileImageUrl := None;
         createdAt := DateAt t; updatedAt := DateAt t |} in
    run localStorage_setItem USER_KEY mockProfile then
    ret mockProfile
  else
    tryCatch
      (let* user := call (CreateUserWithEmailAndPassword email password)
                         (createUserWithEmailAndPassword email password) in
       run call (UpdateProfile user name) (updateProfile user name) then
       let userProfile :=
         {| uid := user_uid user; name := name; email := email;
            phone := phone; role := citizen; profileImageUrl := None;
            createdAt := serverTimestamp; updatedAt := serverTimestamp |} in
       run call (SetDoc "users" (user_uid user))
                (setDoc_users (user_uid user) userProfile) then
       ret userProfile)
      (fun error => throw (Error (Firebase.handleFirebaseError error))).

Definition adminProfile (t : N) : UserProfile :=
  {| uid := "admin"; name := "Administrator";
     email := "admin@vikasitjharkhand.gov.in"; phone := "+91-9999999999";
     role := admin; profileImageUrl := None;
     createdAt := DateAt t; updatedAt := DateAt t |}.

Definition demoUsers (t : N) : list (string * string * UserProfile) :=
  [ ("demo@vikasitjharkhand.gov.in", "demo123",
     {| uid := "demo_user"; name := "Demo Citizen";
        email := "demo@vikasitjharkhand.gov.in"; phone := "+91-9876543210";
        role := citizen; profileImageUrl := None;
        createdAt := DateAt t; updatedAt := DateAt t |}) ].

Definition signInUser (email password : string) : Eff (World B) UserProfile :=
  if String.eqb email "admin" && String.eqb password "admin" then
    let* t := gets now in
    run localStorage_setItem USER_KEY (adminProfile t) then
    ret (adminProfile t)
  else
    let* available := gets isFirebaseAvailable in
    if negb available then
      let* t := gets now in
      match List.find (fun u => String.eqb (fst (fst u)) email &&
                                String.eqb (snd (fst u)) password)
                      (demoUsers t) with
      | Some demoUser =>
          run localStorage_setItem USER_KEY (snd demoUser) then
          ret (snd demoUser)
      | None =>
          throw (Error "Invalid credentials. Try demo@vikasitjharkhand.gov.in / demo123 or register a new account.")
      end
    else
      tryCatch
        (let* user := call (SignInWithEmailAndPassword email password)
                           (signInWithEmailAndPassword email password) in
         let* userDoc := call (GetDoc "users" (user_uid user))
                              (getDoc_users (user_uid user)) in
         match userDoc with
         | None => throw (Error "User profile not found")
         | Some profile =>
             run localStorage_setItem USER_KEY profile then
             ret profile
         end)
        (fun error => throw (Error (Firebase.handleFirebaseError error))).

(** The block that both branches of [updateUserProfile] run on the stored
    profile. *)
Definition updateStoredProfile (updates : ProfileUpdates) : Eff (World B) unit :=
  let* stored := localStorage_getItem USER_KEY in
  match stored with
  | Some profile =>
      let* t := gets now in
      localStorage_setItem USER_KEY
        (spreadProfile profile (withUpdatedAt updates (DateAt t)))
  | None => ret tt
  end.

Definition updateUserProfile (uid : string) (updates : ProfileUpdates)
  : Eff (World B) unit :=
  if String.eqb uid "admin" then
    throw (Error "Cannot update admin profile")
  else
    let* available := gets isFirebaseAvailable in
    if negb available then
      updateStoredProfile updates
    else
      tryCatch
        (run call (UpdateDoc "users" uid)
                  (updateDoc_users uid (withUpdatedAt updates serverTimestamp)) then
         updateStoredProfile updates)
        (fun error => throw (Error (Firebase.handleFirebaseError error))).

Definition deleteUserAccount (user : User) : Eff (World B) unit :=
  if String.eqb (user_uid user) "admin" then
    throw (Error "Cannot delete admin account")
  else
    let* available := gets isFirebaseAvailable in
    if negb available then
      localStorage_removeItem USER_KEY
    else
      tryCatch
        (run call (DeleteDoc "users" (user_uid user))
                  (deleteDoc_users (user_uid user)) then
         run call (DeleteUser user) (deleteUser user) then
         localStorage_removeItem USER_KEY)
        (fun error => throw (Error (Firebase.handleFirebaseError error))).

End Services.

(** ** issues.ts *)

Section IssueService.

Context {B : Type} {sdk : FirebaseSdk B}.

Local Open Scope eff_scope.

(** [{ ...issueData, reportedAt, createdAt, updatedAt: serverTimestamp() }] *)
Definition newIssueDoc (issueData : IssueData) : IssueDoc :=
  {| doc_title := data_title issueData;
     doc_description := data_description issueData;
     doc_category := data_category issueData;
     doc_location := data_location issueData;
     doc_reportedBy := data_reportedBy issueData;
     doc_status := data_status issueData;
     doc_imageUrl := data_imageUrl issueData;
     doc_imageUploadFailed := data_imageUploadFailed issueData;
     doc_audioDescription := data_audioDescription issueData;
     doc_assignedTo := None;
     doc_reportedAt := serverTimestamp;
     doc_createdAt := serverTimestamp;
     doc_updatedAt := serverTimestamp |}.

Definition addIssue (issueData : IssueData) : Eff (World B) string :=
  let* available := gets isFirebaseAvailable in
  if negb available then throw (Error "Firebase not available")
  else
    tryCatch
      (call (AddDoc "issues" (newIssueDoc issueData))
            (addDoc_issues (newIssueDoc issueData)))
      (fun error => throw error).

(** [updateDoc(issueRef, { ...updates, updatedAt: serverTimestamp() })];
    the time stamp is set by the store. *)
Definition updateIssue (issueId : string) (updates : IssueUpdates)
  : Eff (World B) unit :=
  let* available := gets isFirebaseAvailable in
  if negb available then throw (Error "Firebase not available")
  else call (UpdateIssueDoc issueId updates) (updateDoc_issues issueId updates).

End IssueService.

(** ** location.ts *)

Module LocationService.

Record LocationResult := {
  address : string;
  lat : JS.number;
  lng : JS.number;
  error : option string
}.

(** The options of [getCurrentPosition]. *)
Record PositionOptions := {
  enableHighAccuracy : option bool;
  timeout : option N;
  maximumAge : option N
}.

(** What [getCurrentPosition] reports: it calls the success callback with
    the coordinates, or the error callback with an error code. *)
Inductive GeolocationOutcome :=
| Position (latitude longitude accuracy : JS.number)
| PositionError (code : nat).

(** [navigator]: [geolocation] is absent in a browser without support. *)
Record Navigator := {
  geolocation : option (PositionOptions -> GeolocationOutcome)
}.

Definition PERMISSION_DENIED : nat := 1.
Definition POSITION_UNAVAILABLE : nat := 2.
Definition TIMEOUT : nat := 3.

Definition isGeolocationSupported (navigator : Navigator) : bool :=
  match geolocation navigator with
  | Some _ => true
  | None => false
  end.

Record City := {
  city_name : string;
  city_lat : JS.number;
  city_lng : JS.number;
  radius : JS.number
}.

Definition cities : list City :=
  [ {| city_name := "Ranchi"; city_lat := 23.3441; city_lng := 85.3096; radius := 0.5 |};
    {| city_name := "Dhanbad"; city_lat := 23.7957; city_lng := 86.4304; radius := 0.3 |};
    {| city_name := "Jamshedpur"; city_lat := 22.8046; city_lng := 86.2029; radius := 0.4 |};
    {| city_name := "Bokaro"; city_lat := 23.6693; city_lng := 85.9512; radius := 0.2 |};
    {| city_name := "Deoghar"; city_lat := 24.4823; city_lng := 86.7042; radius := 0.2 |} ]%float.

Section Geocoding.

(** [Number.prototype.toFixed], the engine's decimal printing. *)
Variable toFixed : JS.number -> nat -> string.

(** [Math.pow(x, 2)] is taken as [x * x]. *)
Definition distance (lat lng : JS.number) (city : City) : JS.number :=
  PrimFloat.sqrt ((lat - city_lat city) * (lat - city_lat city) +
                  (lng - city_lng city) * (lng - city_lng city))%float.

Fixpoint nearestCity (lat lng : JS.number) (cs : list City) : option City :=
  match cs with
  | [] => None
  | city :: rest =>
      if (distance lat lng city <=? radius city)%float then Some city
      else nearestCity lat lng rest
  end.

Definition getLocationName (lat lng : JS.number) : string :=
  match nearestCity lat lng cities with
  | Some city => "Near " +:+ city_name city +:+ ", Jharkhand"
  | None => toFixed lat 6 +:+ ", " +:+ toFixed lng 6 +:+ " (Jharkhand)"
  end.

(** [{ enableHighAccuracy: true, timeout: 10000, maximumAge: 300000,
       ...options }] *)
Definition defaultOptions (options : option PositionOptions) : PositionOptions :=
  match options with
  | None =>
      {| enableHighAccuracy := Some true; timeout := Some 10000%N;
         maximumAge := Some 300000%N |}
  | Some o =>
      {| enableHighAccuracy := Some (default true (enableHighAccuracy o));
         timeout := Some (default 10000%N (timeout o));
         maximumAge := Some (default 300000%N (maximumAge o)) |}
  end.

(** The error callback. *)
Definition onPositionError (code : nat) : LocationResult :=
  let '(errorMessage, fallbackAddress) :=
    if (code =? PERMISSION_DENIED)%nat then
      ("Location permission denied by user", "Location permission denied")
    else if (code =? POSITION_UNAVAILABLE)%nat then
      ("Location information is unavailable", "Location unavailable")
    else if (code =? TIMEOUT)%nat then
      ("Location request timed out", "Location timeout")
    else ("Unknown location error", "Location unavailable") in
  {| address := fallbackAddress; lat := 0%float; lng := 0%float;
     error := Some errorMessage |}.

(** The promise of [getUserLocation]: [Normal] when it resolves, [Abrupt]
    when it rejects. *)
Definition getUserLocation (navigator : Navigator) (options : option PositionOptions)
  : Completion LocationResult :=
  match geolocation navigator with
  | None =>
      Normal {| address := "Geolocation not supported";
                lat := 0%float; lng := 0%float;
                error := Some "Geolocation is not supported by this browser" |}
  | Some getCurrentPosition =>
      match getCurrentPosition (defaultOptions options) with
      | Position latitude longitude accuracy =>
          Normal {| address := getLocationName latitude longitude;
                    lat := latitude; lng := longitude; error := None |}
      | PositionError code => Normal (onPositionError code)
      end
  end.

End Geocoding.

End LocationService.

(** ** IssueReportForm.tsx *)

Module IssueReportForm.

(** The component state ([useState]). *)
Record FormState := {
  title : string;
  description : string;
  category : string;
  location : string;
  latLng : option (JS.number * JS.number);
  imageUrl : string;
  selectedImage : option File;
  isRecording : bool;
  audioDescription : string;
  loading : bool;
  error : string
}.

Definition setLoading (v : bool) (f : FormState) : FormState :=
  {| title := title f; description := description f; category := category f;
     location := location f; latLng := latLng f; imageUrl := imageUrl f;
     selectedImage := selectedImage f; isRecording := isRecording f;
     audioDescription := audioDescription f; loading := v; error := error f |}.

Definition setError (v : string) (f : FormState) : FormState :=
  {| title := title f; description := description f; category := category f;
     location := location f; latLng := latLng f; imageUrl := imageUrl f;
     selectedImage := selectedImage f; isRecording := isRecording f;
     audioDescription := audioDescription f; loading := loading f; error := v |}.

(** What the handler does that is seen outside the component state and the
    backend. *)
Inductive UiEvent :=
| UploadRaced (file : File) (timeoutMs : N)
| Confirm (question : string) (answer : bool)
| Alert (text : string)
| OnCancel
| AddIssueCalled (issueData : IssueData).


Definition isAddIssue (e : UiEvent) : bool :=
  match e with
  | AddIssueCalled _ => true
  | _ => false
  end.

(** How far [uploadImage] has come when the timer of the race fires: it
    has settled, or [uploadBytes] has been called and has not answered, or
    [uploadBytes] has answered and [getDownloadURL] has not. *)
Inductive UploadTiming :=
| SettlesInTime
| UploadBytesPending
| GetDownloadURLPending.

(** What one submission meets: the timing of the upload, and the user's
    answer to [confirm]. *)
Record SubmitEnv := {
  uploadTiming : UploadTiming;
  confirmAnswer : bool
}.

Record Page (B : Type) := mkPage {
  form : FormState;
  world : World B;
  events : list UiEvent
}.
Arguments mkPage {B}.
Arguments form {B}.
Arguments world {B}.
Arguments events {B}.

Section Handlers.

Context {B : Type} {sdk : FirebaseSdk B}.

Local Open Scope eff_scope.

Definition setState (g : FormState -> FormState) : Eff (Page B) unit :=
  modify (fun p => mkPage (g (form p)) (world p) (events p)).

Definition emit (e : UiEvent) : Eff (Page B) unit :=
  modify (fun p => mkPage (form p) (world p) (events p ++ [e])).

(** A service call made from the page. *)
Definition service {A : Type} (m : Eff (World B) A) : Eff (Page B) A :=
  fun p =>
    let (r, w') := m (world p) in
    (r, mkPage (form p) w' (events p)).

Definition UPLOAD_TIMEOUT : N := 15000.

(** The path of an upload: it carries [Date.now()] and the file name. *)
Definition imagePath (t : N) (file : File) : string :=
  "issue-images/" +:+ decimal t +:+ "_" +:+ file_name file.

Definition uploadImage (file : File) : Eff (World B) string :=
  let* t := gets now in
  let path := imagePath t file in
  run call (UploadBytes path) (uploadBytes path file) then
  call (GetDownloadURL path) (getDownloadURL path).

(** A call of the SDK that has been made and has not been answered. *)
Definition pending (tag : N -> SdkCall) : Eff (World B) unit :=
  let* t := gets now in
  modify (fun w => mkWorld (isFirebaseAvailable w) (now w) (localStorage w)
                           (backend w) (calls w ++ [tag t])).

(** [Promise.race([uploadImage(file), <reject after 15000 ms>])]:
    [uploadImage] is called first, and calls [uploadBytes] before the timer
    exists. The upload decides when it settles before the timer fires.
    Otherwise the race rejects with the timer's error while [uploadBytes],
    or [getDownloadURL] after it, is pending; what the upload does later is
    no part of this call. An [uploadBytes] that rejects settles the
    upload. *)
Definition raceUpload (env : SubmitEnv) (file : File) : Eff (Page B) string :=
  run emit (UploadRaced file UPLOAD_TIMEOUT) then
  match uploadTiming env with
  | SettlesInTime => service (uploadImage file)
  | UploadBytesPending =>
      run service (pending (fun t => UploadBytes (imagePath t file))) then
      throw (Error "Image upload timeout")
  | GetDownloadURLPending =>
      run service (let* t := gets now in
                   call (UploadBytes (imagePath t file))
                        (uploadBytes (imagePath t file) file)) then
      run service (pending (fun t => GetDownloadURL (imagePath t file))) then
      throw (Error "Image upload timeout")
  end.

Definition confirm (env : SubmitEnv) (question : string) : Eff (Page B) bool :=
  run emit (Confirm question (confirmAnswer env)) then
  ret (confirmAnswer env).

Definition requiredFieldMissing (f : FormState) : bool :=
  JS.falsy (title f) || JS.falsy (description f) ||
  JS.falsy (category f) || JS.falsy (location f).

(** [selectedImage] as a condition. *)
Definition hasImage (f : FormState) : bool :=
  match selectedImage f with
  | Some _ => true
  | None => false
  end.

(** The texts shown to the user. *)
Definition MSG_REQUIRED : string := "Please fill in all required fields".
Definition MSG_UPLOAD_FAILED : string :=
  "⚠️ Image upload failed, but your report will be submitted without the image. You can edit the report later to add the image.".
Definition MSG_CONFIRM : string :=
  "Image upload failed. Would you like to submit the report without the image? You can edit it later to add the image.".
Definition MSG_CANCELLED : string :=
  "Submission cancelled. Please try uploading the image again or submit without image.".
Definition MSG_SUBMITTED_WITHOUT_IMAGE : string :=
  "✅ Report submitted successfully (without image). You can edit the report later to add the image.".
Definition MSG_SUBMIT_FAILED : string :=
  "Failed to submit issue. Please try again.".

(** The upload step: [(finalImageUrl, imageUploadFailed)]. *)
Definition uploadStep (env : SubmitEnv) (f : FormState)
  : Eff (Page B) (option string * bool) :=
  match selectedImage f with
  | Some file =>
      let* available := service (gets isFirebaseAvailable) in
      if available then
        tryCatch
          (let* url := raceUpload env file in ret (Some url, false))
          (fun imgErr =>
             run setState (setError MSG_UPLOAD_FAILED) then
             ret (None, true))
      else ret (Some (imageUrl f), false)
  | None => ret (None, false)
  end.

Definition issueDataOf (currentUser : UserProfile) (f : FormState)
  (finalImageUrl : option string) : IssueData :=
  {| data_title := title f;
     data_description := description f;
     data_category := category f;
     data_location :=
       {| address := location f;
          lat := match latLng f with Some ll => fst ll | None => 0%float end;
          lng := match latLng f with Some ll => snd ll | None => 0%float end |};
     data_reportedBy := email currentUser;
     data_status := "reported";
     data_imageUrl :=
       if JS.falsy_opt finalImageUrl then None else finalImageUrl;
     data_imageUploadFailed := JS.falsy_opt finalImageUrl && hasImage f;
     data_audioDescription :=
       if JS.falsy (audioDescription f) then None
       else Some (audioDescription f) |}.

(** The rest of the [try] block, after the upload step. *)
Definition submitStep (currentUser : UserProfile) (env : SubmitEnv)
  (f : FormState) (finalImageUrl : option string) (imageUploadFailed : bool)
  : Eff (Page B) unit :=
  let* shouldContinue :=
    if imageUploadFailed && hasImage f then confirm env MSG_CONFIRM
    else ret true in
  if negb shouldContinue then
    run setState (setLoading false) then
    setState (setError MSG_CANCELLED)
  else
    let issueData := issueDataOf currentUser f finalImageUrl in
    run emit (AddIssueCalled issueData) then
    run service (addIssue issueData) then
    run (if imageUploadFailed then emit (Alert MSG_SUBMITTED_WITHOUT_IMAGE)
         else ret tt) then
    emit OnCancel.

Definition handleSubmit (currentUser : UserProfile) (env : SubmitEnv)
  : Eff (Page B) unit :=
  let* f := gets form in
  if requiredFieldMissing f then
    setState (setError MSG_REQUIRED)
  else
    run setState (setLoading true) then
    run setState (setError "") then
    tryFinally
      (tryCatch
         (let* uploaded := uploadStep env f in
          submitStep currentUser env f (fst uploaded) (snd uploaded))
         (fun err =>
            setState (setError (JS.or_else (message err) MSG_SUBMIT_FAILED))))
      (setState (setLoading false)).

(** The page once validation has passed. *)
Definition started (p : Page B) : Page B :=
  mkPage (setError "" (setLoading true (form p))) (world p) (events p).

End Handlers.

End IssueReportForm.

(** ** A document store in memory

    An instance of the SDK interface with the backend's documented
    behaviour: [addDoc] stores the document under a new id, [updateDoc]
    merges the given fields into an existing document and rejects for a
    missing one, and any request may be rejected by the service (the
    [faults] schedule decides which). *)

Module Memory.

Record Backend := mkBackend {
  accounts : gmap string (string * User);
  users : gmap string UserProfile;
  issues : gmap string IssueDoc;
  blobs : gmap string File;
  served : nat;
  faults : nat -> option JsError
}.

Definition tick (b : Backend) : Backend :=
  mkBackend (accounts b) (users b) (issues b) (blobs b) (S (served b)) (faults b).

(** One request: rejected when the schedule says so, served otherwise. *)
Definition request {A : Type} (op : Backend -> Completion A * Backend)
  (b : Backend) : Completion A * Backend :=
  match faults b (served b) with
  | Some e => (Abrupt e, tick b)
  | None => op (tick b)
  end.

Definition withAccounts (a : gmap string (string * User)) (b : Backend) : Backend :=
  mkBackend a (users b) (issues b) (blobs b) (served b) (faults b).

Definition withUsers (u : gmap string UserProfile) (b : Backend) : Backend :=
  mkBackend (accounts b) u (issues b) (blobs b) (served b) (faults b).

Definition withIssues (i : gmap string IssueDoc) (b : Backend) : Backend :=
  mkBackend (accounts b) (users b) i (blobs b) (served b) (faults b).

Definition withBlobs (f : gmap string File) (b : Backend) : Backend :=
  mkBackend (accounts b) (users b) (issues b) f (served b) (faults b).

Definition authError (c : string) : JsError :=
  {| code := Some c; message := Some ("Firebase: Error (" +:+ c +:+ ").") |}.

Definition createUser (email password : string) (b : Backend)
  : Completion User * Backend :=
  match accounts b !! email with
  | Some _ => (Abrupt (authError "auth/email-already-in-use"), b)
  | None =>
      let user := {| user_uid := "uid_" +:+ email |} in
      (Normal user, withAccounts (<[email := (password, user)]> (accounts b)) b)
  end.

Definition signIn (email password : string) (b : Backend)
  : Completion User * Backend :=
  match accounts b !! email with
  | Some (pw, user) =>
      if String.eqb pw password then (Normal user, b)
      else (Abrupt (authError "auth/wrong-password"), b)
  | None => (Abrupt (authError "auth/user-not-found"), b)
  end.

(** [{ ...doc, ...updates, updatedAt: serverTimestamp() }] *)
Definition mergeIssue (d : IssueDoc) (updates : IssueUpdates) : IssueDoc :=
  {| doc_title := default (doc_title d) (set_title updates);
     doc_description := default (doc_description d) (set_description updates);
     doc_category := default (doc_category d) (set_category updates);
     doc_location := default (doc_location d) (set_location updates);
     doc_reportedBy := doc_reportedBy d;
     doc_status := default (doc_status d) (set_status updates);
     doc_imageUrl := doc_imageUrl d;
     doc_imageUploadFailed := doc_imageUploadFailed d;
     doc_audioDescription := doc_audioDescription d;
     doc_assignedTo :=
       match set_assignedTo updates with
       | Some a => Some a
       | None => doc_assignedTo d
       end;
     doc_reportedAt := doc_reportedAt d;
     doc_createdAt := doc_createdAt d;
     doc_updatedAt := serverTimestamp |}.

Definition notFound : JsError :=
  {| code := Some "not-found"; message := Some "No document to update" |}.

Definition addIssueDoc (d : IssueDoc) (b : Backend) : Completion string * Backend :=
  let docId := fresh (dom (issues b)) in
  (Normal docId, withIssues (<[docId := d]> (issues b)) b).

Definition updateIssueDoc (docId : string) (updates : IssueUpdates) (b : Backend)
  : Completion unit * Backend :=
  match issues b !! docId with
  | Some d => (Normal tt, withIssues (<[docId := mergeIssue d updates]> (issues b)) b)
  | None => (Abrupt notFound, b)
  end.

Definition updateUserDoc (docId : string) (updates : ProfileUpdates) (b : Backend)
  : Completion unit * Backend :=
  match users b !! docId with
  | Some p => (Normal tt, withUsers (<[docId := spreadProfile p updates]> (users b)) b)
  | None => (Abrupt notFound, b)
  end.

#[global] Instance sdk : FirebaseSdk Backend := {
  createUserWithEmailAndPassword email password := request (createUser email password);
  signInWithEmailAndPassword email password := request (signIn email password);
  updateProfile user displayName := request (fun b => (Normal tt, b));
  setDoc_users docId p := request (fun b => (Normal tt, withUsers (<[docId := p]> (users b)) b));
  getDoc_users docId := request (fun b => (Normal (users b !! docId), b));
  updateDoc_users docId updates := request (updateUserDoc docId updates);
  deleteDoc_users docId := request (fun b => (Normal tt, withUsers (delete docId (users b)) b));
  deleteUser user :=
    request (fun b => (Normal tt,
                       withAccounts (filter (fun kv => user_uid (snd (snd kv)) <> user_uid user)
                                            (accounts b)) b));
  addDoc_issues d := request (addIssueDoc d);
  updateDoc_issues docId updates := request (updateIssueDoc docId updates);
  uploadBytes path file := request (fun b => (Normal tt, withBlobs (<[path := file]> (blobs b)) b));
  getDownloadURL path :=
    request (fun b => match blobs b !! path with
                      | Some _ => (Normal ("https://storage.example/" +:+ path), b)
                      | None => (Abrupt {| code := Some "storage/object-not-found";
                                           message := Some "Object does not exist" |}, b)
                      end)
}.

(** A backend with nothing stored that serves every request, and one that
    rejects every request as unavailable. *)
Definition empty : Backend :=
  mkBackend ∅ ∅ ∅ ∅ 0 (fun _ => None).

Definition unavailable : JsError :=
  {| code := Some "unavailable"; message := Some "The service is currently unavailable." |}.

Definition down : Backend :=
  mkBackend ∅ ∅ ∅ ∅ 0 (fun _ => Some unavailable).

(** The backend rejects no request. *)
Definition serving (b : Backend) : Prop := forall n, faults b n = None.

End Memory.

(** ** The dashboard filter as the specification words it *)

Module DashboardSpec.

(** Two characters that are the same, or the same letter of A to Z in its
    two cases. *)
Definition isUpper (c : ascii) : Prop :=
  (65 <= nat_of_ascii c <= 90)%nat.

Definition sameLetter (a b : ascii) : Prop :=
  a = b \/
  (isUpper a /\ nat_of_ascii b = (nat_of_ascii a + 32)%nat) \/
  (isUpper b /\ nat_of_ascii a = (nat_of_ascii b + 32)%nat).

(** Two texts of the same length that differ in the case of letters only. *)
Fixpoint sameUpToCase (s t : string) : Prop :=
  match s, t with
  | EmptyString, EmptyString => True
  | String a s', String b t' => sameLetter a b /\ sameUpToCase s' t'
  | _, _ => False
  end.

(** [query] occurs in [text] up to the case of letters. *)
Definition occursUpToCase (text query : string) : Prop :=
  exists pre found post,
    text = pre +:+ found +:+ post /\ sameUpToCase found query.

Section Search.

Context {js : JS.Engine}.

(** [text] contains [query], letter case ignored: the lower-case form of
    [query] occurs in the lower-case form of [text]. *)
Definition containsIgnoringCase (text query : string) : Prop :=
  exists pre post,
    JS.toLowerCase text = pre +:+ JS.toLowerCase query +:+ post.

(** The issue has no assignee: the field is absent or empty. *)
Definition hasNoAssignee (issue : Issue) : Prop :=
  assignedTo issue = None \/ assignedTo issue = Some "".

Definition searchHit (q : string) (issue : Issue) : Prop :=
  containsIgnoringCase (title issue) q \/
  containsIgnoringCase (description issue) q \/
  containsIgnoringCase (address (location issue)) q.

Definition statusHit (fs : string) (issue : Issue) : Prop :=
  fs = "all" \/ fs = status issue.

Definition categoryHit (fc : string) (issue : Issue) : Prop :=
  fc = "all" \/ fc = category issue.

Definition assigneeHit (fa : string) (issue : Issue) : Prop :=
  fa = "all" \/ (fa = "unassigned" /\ hasNoAssignee issue) \/
  Some fa = assignedTo issue.

Definition shown (f : AdminDashboard.Filters) (issue : Issue) : Prop :=
  searchHit (AdminDashboard.searchQuery f) issue /\
  statusHit (AdminDashboard.filterStatus f) issue /\
  categoryHit (AdminDashboard.filterCategory f) issue /\
  assigneeHit (AdminDashboard.filterAssignee f) issue.

End Search.

End DashboardSpec.

(** ** Sample data *)

Module Samples.

Definition ranchi : Location :=
  {| address := "Main Road, Ranchi"; lat := 23.3441%float; lng := 85.3096%float |}.

Definition pothole : Issue :=
  {| id := "i1"; title := "Pothole"; description := "Deep pothole near the school";
     category := "Road/Sidewalk"; status := "reported"; location := ranchi;
     imageUrl := None; reportedBy := "asha@example.org"; reportedAt := 0%N;
     assignedTo := None |}.

Definition mkVendor (vid name : string) (specs : list string) : Vendor :=
  {| vendor_id := vid; vendor_name := name; vendor_email := "v@example.org";
     vendor_phone := "+91-0000000000"; specialities := specs;
     vendor_location := "Ranchi"; rating := 0%float; totalJobs := 0%float;
     baseQuote := 1000%float; vendor_description := ""; verified := false |}.

Definition generalist : Vendor := mkVendor "v1" "General Works" [].
Definition electrician : Vendor := mkVendor "v2" "Bright Lights" ["Street Lighting"].
Definition roadworks : Vendor := mkVendor "v3" "Road Works" ["Road/Sidewalk"].

End Samples.

(** ** The application: App.tsx, AdminDashboard.tsx, IssueDetailsModal.tsx,
       SettingsModal.tsx *)

Module App.

(** [editData] of SettingsModal. *)
Record EditData := {
  edit_title : string;
  edit_description : string;
  edit_category : string;
  edit_status : string
}.

(** [editData] of IssueDetailsModal. *)
Record DetailsEdit := {
  details_title : string;
  details_description : string;
  details_category : string;
  details_location : Location
}.

(** The state of SettingsModal: its own list of all issues ([allIssues],
    filled by the modal's own subscription), the issues of the citizen
    looked up ([citizenData.issues], empty without [citizenData]) and the
    edit form. *)
Record Settings := mkSettings {
  allIssues : list Issue;
  citizenIssues : list Issue;
  editingIssue : option string;
  editData : EditData;
  settingsLoading : bool;
  settingsError : string
}.

Definition initialSettings : Settings :=
  mkSettings [] [] None
    {| edit_title := ""; edit_description := ""; edit_category := "";
       edit_status := "" |}
    false "".

(** The application state: the [issues] of App, the [vendors] of
    AdminDashboard, the SettingsModal, and the world outside. *)
Record System (B : Type) := mkSystem {
  world : World B;
  issues : list Issue;
  vendors : list Vendor;
  settings : Settings
}.
Arguments mkSystem {B}.
Arguments world {B}.
Arguments issues {B}.
Arguments vendors {B}.
Arguments settings {B}.

(** The items of the status selects of AdminDashboard and SettingsModal. *)
Definition statusSelectItems : list string :=
  ["reported"; "acknowledged"; "in-progress"; "resolved"].

(** [{ ...issue, ...updates }] *)
Definition spreadIssue (issue : Issue) (updates : IssueUpdates) : Issue :=
  {| id := id issue;
     title := default (title issue) (set_title updates);
     description := default (description issue) (set_description updates);
     category := default (category issue) (set_category updates);
     status := default (status issue) (set_status updates);
     location := default (location issue) (set_location updates);
     imageUrl := imageUrl issue;
     reportedBy := reportedBy issue;
     reportedAt := reportedAt issue;
     assignedTo :=
       match set_assignedTo updates with
       | Some a => Some a
       | None => assignedTo issue
       end |}.

(** [handleUpdateIssue] of App. *)
Definition handleUpdateIssue (issueId : string) (updates : IssueUpdates)
  (prev : list Issue) : list Issue :=
  map (fun issue =>
         if String.eqb (id issue) issueId then spreadIssue issue updates
         else issue)
      prev.

(** A document as the subscription hands it to the components. *)
Definition issueOfDoc (t : N) (entry : string * IssueDoc) : Issue :=
  {| id := fst entry;
     title := doc_title (snd entry);
     description := doc_description (snd entry);
     category := doc_category (snd entry);
     status := doc_status (snd entry);
     location := doc_location (snd entry);
     imageUrl := doc_imageUrl (snd entry);
     reportedBy := doc_reportedBy (snd entry);
     reportedAt :=
       match doc_reportedAt (snd entry) with
       | DateAt ms => ms
       | serverTimestamp => t
       end;
     assignedTo := doc_assignedTo (snd entry) |}.

Section Handlers.

Context {B : Type} {sdk : FirebaseSdk B} {js : JS.Engine}.

Local Open Scope eff_scope.

Definition service {A : Type} (m : Eff (World B) A) : Eff (System B) A :=
  fun s =>
    let (r, w') := m (world s) in
    (r, mkSystem w' (issues s) (vendors s) (settings s)).

Definition onUpdateIssue (issueId : string) (updates : IssueUpdates)
  : Eff (System B) unit :=
  modify (fun s => mkSystem (world s)
                            (handleUpdateIssue issueId updates (issues s))
                            (vendors s) (settings s)).

Definition setSettings (g : Settings -> Settings) : Eff (System B) unit :=
  modify (fun s => mkSystem (world s) (issues s) (vendors s) (g (settings s))).

(** *** AdminDashboard *)

Definition statusUpdate (newStatus : string) : IssueUpdates :=
  {| set_title := None; set_description := None; set_category := None;
     set_status := Some newStatus; set_location := None; set_assignedTo := None |}.

Definition assignmentUpdate (assignee : string) : IssueUpdates :=
  {| set_title := None; set_description := None; set_category := None;
     set_status := None; set_location := None; set_assignedTo := Some assignee |}.

Definition vendorUpdate (vendorName : string) : IssueUpdates :=
  {| set_title := None; set_description := None; set_category := None;
     set_status := Some "in-progress"; set_location := None;
     set_assignedTo := Some vendorName |}.

Definition handleStatusUpdate (issueId newStatus : string) : Eff (System B) unit :=
  tryCatch
    (run service (updateIssue issueId (statusUpdate newStatus)) then
     onUpdateIssue issueId (statusUpdate newStatus))
    (fun error => ret tt).

Definition handleAssignmentUpdate (issueId assignee : string) : Eff (System B) unit :=
  tryCatch
    (run service (updateIssue issueId (assignmentUpdate assignee)) then
     onUpdateIssue issueId (assignmentUpdate assignee))
    (fun error => ret tt).

Definition handleAssignVendor (issueId vendorId : string) : Eff (System B) unit :=
  tryCatch
    (let* vs := gets vendors in
     let vendorName :=
       match List.find (fun v => String.eqb (vendor_id v) vendorId) vs with
       | Some vendor => vendor_name vendor
       | None => "Vendor-" +:+ vendorId
       end in
     run service (updateIssue issueId (vendorUpdate vendorName)) then
     onUpdateIssue issueId (vendorUpdate vendorName))
    (fun error => ret tt).

(** *** IssueDetailsModal *)

Definition detailsUpdate (e : DetailsEdit) : IssueUpdates :=
  {| set_title := Some (details_title e);
     set_description := Some (details_description e);
     set_category := Some (details_category e);
     set_status := None;
     set_location := Some (details_location e);
     set_assignedTo := None |}.

(** [handleEditSave] in the citizen view, where [onIssueUpdate] only logs;
    the modal's own [loading], [error] and [isEditing] are left out. *)
Definition handleEditSave (issue : Issue) (e : DetailsEdit) : Eff (System B) unit :=
  if JS.falsy (details_title e) || JS.falsy (details_description e) ||
     JS.falsy (details_category e)
  then ret tt
  else
    tryCatch
      (service (updateIssue (id issue) (detailsUpdate e)))
      (fun err => ret tt).

(** *** SettingsModal *)

Definition withEditing (v : option string) (st : Settings) : Settings :=
  mkSettings (allIssues st) (citizenIssues st) v (editData st) (settingsLoading st) (settingsError st).

Definition withEditData (v : EditData) (st : Settings) : Settings :=
  mkSettings (allIssues st) (citizenIssues st) (editingIssue st) v (settingsLoading st) (settingsError st).

Definition withLoading (v : bool) (st : Settings) : Settings :=
  mkSettings (allIssues st) (citizenIssues st) (editingIssue st) (editData st) v (settingsError st).

Definition withError (v : string) (st : Settings) : Settings :=
  mkSettings (allIssues st) (citizenIssues st) (editingIssue st) (editData st) (settingsLoading st) v.

Definition withCitizenIssues (v : list Issue) (st : Settings) : Settings :=
  mkSettings (allIssues st) v (editingIssue st) (editData st) (settingsLoading st)
             (settingsError st).

Definition withAllIssues (v : list Issue) (st : Settings) : Settings :=
  mkSettings v (citizenIssues st) (editingIssue st) (editData st) (settingsLoading st)
             (settingsError st).

Definition handleEditIssue (issue : Issue) : Eff (System B) unit :=
  run setSettings (withEditing (Some (id issue))) then
  run setSettings (withEditData
                     {| edit_title := title issue;
                        edit_description := description issue;
                        edit_category := category issue;
                        edit_status := status issue |}) then
  setSettings (withError "").

Definition editUpdate (e : EditData) : IssueUpdates :=
  {| set_title := Some (edit_title e);
     set_description := Some (edit_description e);
     set_category := Some (edit_category e);
     set_status := Some (edit_status e);
     set_location := None;
     set_assignedTo := None |}.

Definition handleSaveEdit (issueId : string) : Eff (System B) unit :=
  let* e := gets (fun s => editData (settings s)) in
  if JS.falsy (edit_title e) || JS.falsy (edit_description e) ||
     JS.falsy (edit_category e)
  then setSettings (withError "Please fill in all required fields")
  else
    run setSettings (withLoading true) then
    run setSettings (withError "") then
    tryFinally
      (tryCatch
         (run service (updateIssue issueId (editUpdate e)) then
          run setSettings
                (fun st =>
                   withCitizenIssues
                     (handleUpdateIssue issueId (editUpdate e) (citizenIssues st)) st) then
          setSettings (withEditing None))
         (fun err => setSettings (withError "Failed to update issue. Please try again.")))
      (setSettings (withLoading false)).

Definition handleCancelEdit : Eff (System B) unit :=
  run setSettings (withEditing None) then
  setSettings (withError "").

(** [citizenIssues.sort((a, b) => b.reportedAt - a.reportedAt)]: latest
    first, issues of the same date in their order. *)
Fixpoint insertByDate (x : Issue) (sorted : list Issue) : list Issue :=
  match sorted with
  | [] => [x]
  | y :: rest =>
      if (reportedAt y <? reportedAt x)%N then x :: sorted
      else y :: insertByDate x rest
  end.

Definition sortByDate (l : list Issue) : list Issue :=
  fold_left (fun sorted x => insertByDate x sorted) l [].

(** [handleSearchCitizen], on the modal's [allIssues]; of [citizenData] the
    issue list is kept. *)
Definition handleSearchCitizen (searchEmail : string) : Eff (System B) unit :=
  if JS.falsy (JS.trim searchEmail) then
    setSettings (withError "Please enter an email address")
  else if negb (JS.includes searchEmail "@") then
    setSettings (withError "Please enter a valid email address")
  else
    run setSettings (withLoading true) then
    run setSettings (withError "") then
    let* all := gets (fun s => allIssues (settings s)) in
    let found :=
      List.filter
        (fun issue => String.eqb (JS.toLowerCase (reportedBy issue))
                                 (JS.toLowerCase searchEmail))
        all in
    if (length found =? 0)%nat then
      run setSettings (withError "No reports found for this email address") then
      run setSettings (withCitizenIssues []) then
      setSettings (withLoading false)
    else
      run setSettings (withCitizenIssues (sortByDate found)) then
      setSettings (withLoading false).

End Handlers.

(** What a user, or the backend's subscription, can do to the application. *)
Inductive Action :=
| CitizenSubmits (currentUser : UserProfile) (env : IssueReportForm.SubmitEnv)
                 (form : IssueReportForm.FormState)
| CitizenSavesEdit (issue : Issue) (e : DetailsEdit)
| AdminSelectsStatus (issueId : string) (item : nat)
| AdminAssigns (issueId assignee : string)
| AdminAssignsVendor (issueId vendorId : string)
| AdminSearchesCitizen (searchEmail : string)
| AdminOpensEdit (row : nat)
| AdminTypesEdit (newTitle newDescription newCategory : string)
| AdminPicksEditStatus (item : nat)
| AdminSavesEdit
| AdminCancelsEdit
| SnapshotArrives
| SettingsSnapshotArrives.

(** The actions that carry a status to the backend. *)
Definition isAdminStatusUpdate (a : Action) : bool :=
  match a with
  | AdminSelectsStatus _ _ | AdminAssignsVendor _ _ | AdminSavesEdit => true
  | _ => false
  end.

Definition isCitizenSubmission (a : Action) : bool :=
  match a with
  | CitizenSubmits _ _ _ => true
  | _ => false
  end.

Section Steps.

Context {B : Type} {sdk : FirebaseSdk B} {js : JS.Engine}.

(** The documents of the "issues" collection, as the subscription reads
    them. *)
Variable snapshot : B -> list (string * IssueDoc).

(** What [subscribeToIssues] hands to its callback: the documents with
    their ids, a missing [reportedAt] replaced by [new Date()]. Without
    the backend [subscribeToIssues] throws, so that no subscription exists
    and no snapshot arrives. *)
Definition issuesOfSnapshot (s : System B) : list Issue :=
  map (issueOfDoc (now (world s))) (snapshot (backend (world s))).

Definition perform (a : Action) : Eff (System B) unit :=
  match a with
  | CitizenSubmits currentUser env form =>
      fun s =>
        let page := IssueReportForm.mkPage form (world s) [] in
        let (r, page') := IssueReportForm.handleSubmit currentUser env page in
        (r, mkSystem (IssueReportForm.world page') (issues s) (vendors s) (settings s))
  | CitizenSavesEdit issue e => handleEditSave issue e
  | AdminSelectsStatus issueId item =>
      match statusSelectItems !! item with
      | Some value => handleStatusUpdate issueId value
      | None => ret tt
      end
  | AdminAssigns issueId assignee => handleAssignmentUpdate issueId assignee
  | AdminAssignsVendor issueId vendorId => handleAssignVendor issueId vendorId
  | AdminSearchesCitizen searchEmail => handleSearchCitizen searchEmail
  | AdminOpensEdit row =>
      bind (gets (fun s => citizenIssues (settings s) !! row))
           (fun picked =>
              match picked with
              | Some issue => handleEditIssue issue
              | None => ret tt
              end)
  | AdminTypesEdit newTitle newDescription newCategory =>
      setSettings
        (fun st =>
           withEditData
             {| edit_title := newTitle; edit_description := newDescription;
                edit_category := newCategory;
                edit_status := edit_status (editData st) |} st)
  | AdminPicksEditStatus item =>
      match statusSelectItems !! item with
      | Some value =>
          setSettings
            (fun st =>
               match editingIssue st with
               | Some _ =>
                   withEditData
                     {| edit_title := edit_title (editData st);
                        edit_description := edit_description (editData st);
                        edit_category := edit_category (editData st);
                        edit_status := value |} st
               | None => st
               end)
      | None => ret tt
      end
  | AdminSavesEdit =>
      bind (gets (fun s => editingIssue (settings s)))
           (fun editing =>
              match editing with
              | Some issueId => handleSaveEdit issueId
              | None => ret tt
              end)
  | AdminCancelsEdit => handleCancelEdit
  | SnapshotArrives =>
      modify (fun s =>
                if isFirebaseAvailable (world s) then
                  mkSystem (world s) (issuesOfSnapshot s) (vendors s) (settings s)
                else s)
  | SettingsSnapshotArrives =>
      modify (fun s =>
                if isFirebaseAvailable (world s) then
                  mkSystem (world s) (issues s) (vendors s)
                           (withAllIssues (issuesOfSnapshot s) (settings s))
                else s)
  end.

Definition step (a : Action) (s : System B) : System B := snd (perform a s).

Definition steps (l : list Action) (s : System B) : System B :=
  fold_left (fun s a => step a s) l s.

End Steps.

(** The application over the document store in memory. *)
Definition documents (b : Memory.Backend) : list (string * IssueDoc) :=
  map_to_list (Memory.issues b).

Definition store (s : System Memory.Backend) : gmap string IssueDoc :=
  Memory.issues (backend (world s)).

Definition validStatus (s : string) : Prop := isIssueStatus s = true.

(** Every status in the store and on the screen is one of the four. *)
Record Valid (s : System Memory.Backend) : Prop := {
  valid_store : forall docId d, store s !! docId = Some d -> validStatus (doc_status d);
  valid_issues : forall issue, In issue (issues s) -> validStatus (status issue);
  valid_all : forall issue, In issue (allIssues (settings s)) ->
                            validStatus (status issue);
  valid_listed : forall issue, In issue (citizenIssues (settings s)) ->
                               validStatus (status issue);
  valid_edit : forall issueId, editingIssue (settings s) = Some issueId ->
                               validStatus (edit_status (editData (settings s)))
}.

(** What one action may do to the collection: nothing, merge an update
    that [okUpdate] admits into an existing document, or add a document
    that [okCreate] admits under a new id. *)
Inductive StoreEffect (okUpdate : IssueUpdates -> Prop) (okCreate : IssueDoc -> Prop)
  (m : gmap string IssueDoc) : gmap string IssueDoc -> Prop :=
| NoEffect : StoreEffect okUpdate okCreate m m
| Merged (docId : string) (d : IssueDoc) (updates : IssueUpdates) :
    okUpdate updates -> m !! docId = Some d ->
    StoreEffect okUpdate okCreate m (<[docId := Memory.mergeIssue d updates]> m)
| Created (docId : string) (d : IssueDoc) :
    okCreate d -> m !! docId = None ->
    StoreEffect okUpdate okCreate m (<[docId := d]> m).

(** How the status of the document [docId] may differ after action [a]:
    a document that was not there comes from a citizen's submission and is
    'reported'; the status of one that was there is kept, or was set by an
    administrator's status update to one of the four values, which is
    'in-progress' for a vendor assignment. *)
Definition statusTransition (a : Action) (before : option IssueDoc) (after : IssueDoc)
  : Prop :=
  match before with
  | None => isCitizenSubmission a = true /\ doc_status after = "reported"
  | Some d =>
      doc_status after = doc_status d \/
      (isAdminStatusUpdate a = true /\ validStatus (doc_status after) /\
       match a with
       | AdminAssignsVendor _ _ => doc_status after = "in-progress"
       | _ => True
       end)
  end.

(** The updates that action [a] may send, and the documents it may add. *)
Definition okUpdate (a : Action) (updates : IssueUpdates) : Prop :=
  match a with
  | CitizenSavesEdit _ _ | AdminAssigns _ _ => set_status updates = None
  | AdminSelectsStatus _ _ | AdminSavesEdit =>
      exists value, set_status updates = Some value /\ validStatus value
  | AdminAssignsVendor _ _ => set_status updates = Some "in-progress"
  | _ => False
  end.

Definition okCreate (a : Action) (d : IssueDoc) : Prop :=
  isCitizenSubmission a = true /\ doc_status d = "reported".

Definition initial (w : World Memory.Backend) : System Memory.Backend :=
  mkSystem w [] [] initialSettings.

End App.

(** ** Sample submissions *)

Module SubmitSamples.

Definition asha : UserProfile :=
  {| uid := "u1"; name := "Asha"; email := "asha@example.org";
     phone := "+91-1111111111"; role := citizen; profileImageUrl := None;
     createdAt := serverTimestamp; updatedAt := serverTimestamp |}.

Definition photo : File := {| file_name := "pothole.jpg" |}.

Definition filled (image : option File) : IssueReportForm.FormState :=
  {| IssueReportForm.title := "Pothole";
     IssueReportForm.description := "Deep pothole near the school";
     IssueReportForm.category := "Road/Sidewalk";
     IssueReportForm.location := "Main Road, Ranchi";
     IssueReportForm.latLng := Some (23.3441%float, 85.3096%float);
     IssueReportForm.imageUrl :=
       match image with Some _ => "blob:pothole" | None => "" end;
     IssueReportForm.selectedImage := image;
     IssueReportForm.isRecording := false;
     IssueReportForm.audioDescription := "";
     IssueReportForm.loading := false;
     IssueReportForm.error := "" |}.

(** The same form with the title left empty. *)
Definition untitled : IssueReportForm.FormState :=
  {| IssueReportForm.title := "";
     IssueReportForm.description := "Deep pothole near the school";
     IssueReportForm.category := "Road/Sidewalk";
     IssueReportForm.location := "Main Road, Ranchi";
     IssueReportForm.latLng := None;
     IssueReportForm.imageUrl := "";
     IssueReportForm.selectedImage := None;
     IssueReportForm.isRecording := false;
     IssueReportForm.audioDescription := "";
     IssueReportForm.loading := false;
     IssueReportForm.error := "" |}.

Definition online (b : Memory.Backend) : World Memory.Backend :=
  mkWorld true 1700000000000%N ∅ b [].

Definition offline : World Memory.Backend :=
  mkWorld false 1700000000000%N ∅ Memory.empty [].

Definition page (f : IssueReportForm.FormState) (w : World Memory.Backend)
  : IssueReportForm.Page Memory.Backend :=
  IssueReportForm.mkPage f w [].


Definition slowAndAccepted : IssueReportForm.SubmitEnv :=
  {| IssueReportForm.uploadTiming := IssueReportForm.UploadBytesPending;
     IssueReportForm.confirmAnswer := true |}.

Definition prompt : IssueReportForm.SubmitEnv :=
  {| IssueReportForm.uploadTiming := IssueReportForm.SettlesInTime;
     IssueReportForm.confirmAnswer := true |}.

End SubmitSamples.

(** ** auth.ts: sign-out and profile lookup; App.tsx: the session *)

(** The part of the auth SDK that [signOut] uses: [auth.currentUser] and
    [signOut(auth)]. *)
Class AuthSession (B : Type) := {
  auth_currentUser : B -> option User;
  firebaseSignOut : B -> Completion unit * B
}.

Module Session.

Section Session.

Context {B : Type} {sdk : FirebaseSdk B} {session : AuthSession B}.

Local Open Scope eff_scope.

(** A call of the session SDK; it moves the backend on. *)
Definition sessionCall {A : Type} (op : B -> Completion A * B) : Eff (World B) A :=
  fun w =>
    let (r, b') := op (backend w) in
    (r, mkWorld (isFirebaseAvailable w) (now w) (localStorage w) b' (calls w)).

Definition signOut : Eff (World B) unit :=
  tryFinally
    (tryCatch
       (let* available := gets isFirebaseAvailable in
        let* user := gets (fun w => auth_currentUser (backend w)) in
        if available && match user with Some _ => true | None => false end
        then sessionCall firebaseSignOut
        else ret tt)
       (fun error => ret tt))
    (localStorage_removeItem USER_KEY).

(** [checkExistingSession] of App: the user read back from local storage. *)
Definition checkExistingSession (w : World B) : option UserProfile :=
  localStorage w !! USER_KEY.

(** [handleSignOut] of App: the [user] state afterwards. *)
Definition handleSignOut : Eff (World B) (option UserProfile) :=
  run tryCatch signOut (fun error => ret tt) then
  ret None.

End Session.

(** What App renders. The role of a profile is always set, so the role
    selection screen is not among them. *)
Inductive Screen :=
| LoadingScreen | LoginScreen | RegisterScreen | AdminScreen | CitizenScreen.

Inductive AuthView := login | register.

(** The state of App that decides the screen. *)
Record AppState := {
  app_user : option UserProfile;
  app_authView : AuthView;
  app_loading : bool
}.

(** The mount effect of App: the stored session is read, then
    [subscribeToIssues] is called, which throws without the backend.
    [loading] starts as true. *)
Definition mount {B : Type} (w : World B) : Completion AppState :=
  let restored := localStorage w !! USER_KEY in
  if isFirebaseAvailable w then
    Normal {| app_user := restored; app_authView := login; app_loading := true |}
  else Abrupt (Error "Firebase not available").

(** The callback of the subscription: a snapshot clears [loading]. *)
Definition onSnapshot (st : AppState) : AppState :=
  {| app_user := app_user st; app_authView := app_authView st;
     app_loading := false |}.

Definition screen (st : AppState) : Screen :=
  if app_loading st then LoadingScreen
  else
    match app_user st with
    | None =>
        match app_authView st with
        | login => LoginScreen
        | register => RegisterScreen
        end
    | Some u =>
        match role u with
        | admin => AdminScreen
        | citizen => if String.eqb (uid u) "admin" then AdminScreen else CitizenScreen
        end
    end.

End Session.

(** ** notifications.ts *)

Module Notifications.

(** [NotificationPermission]: 'granted', 'denied', 'default'. *)
Inductive Permission := PermissionGranted | PermissionDenied | PermissionDefault.

Record NotificationResult := {
  granted : bool;
  error : option string
}.

(** The [data] option of a notification, as notifications.ts fills it. *)
Record UpdateData := {
  data_type : string;
  data_statusName : string;
  data_issueTitle : string
}.

(** The [options] argument of [showNotification], with the fields given. *)
Record Options := {
  body : option string;
  icon : option string;
  tag : option string;
  requireInteraction : option bool;
  data : option UpdateData
}.

(** A notification on the screen: title and the options it was made with,
    and the delay of its closing timer, if one was set. *)
Record Shown := {
  shown_title : string;
  shown_body : string;
  shown_icon : string;
  shown_tag : string;
  shown_requireInteraction : bool;
  shown_data : option UpdateData;
  closesAfter : option N
}.

(** The browser: whether [Notification] exists, the current permission,
    how a permission request would end, whether constructing a
    notification throws, the notifications shown, the number of permission
    prompts made, and local storage as strings. *)
Record Browser := mkBrowser {
  supported : bool;
  permission : Permission;
  promptOutcome : Completion Permission;
  constructorThrows : bool;
  shown : list Shown;
  prompts : nat;
  storage : gmap string string
}.

Definition isNotificationSupported (br : Browser) : bool := supported br.

Definition getNotificationPermission (br : Browser) : Permission :=
  if negb (isNotificationSupported br) then PermissionDenied
  else permission br.

Definition isGranted (p : Permission) : bool :=
  match p with
  | PermissionGranted => true
  | _ => false
  end.

Definition isDenied (p : Permission) : bool :=
  match p with
  | PermissionDenied => true
  | _ => false
  end.

Local Open Scope eff_scope.

(** [Notification.requestPermission()]: the user is prompted; the answer
    becomes the current permission. *)
Definition requestPermission : Eff Browser Permission :=
  fun br =>
    (promptOutcome br,
     mkBrowser (supported br)
               match promptOutcome br with
               | Normal p => p
               | Abrupt _ => permission br
               end
               (promptOutcome br) (constructorThrows br) (shown br)
               (S (prompts br)) (storage br)).

Definition requestNotificationPermission : Eff Browser NotificationResult :=
  let* br := gets (fun br => br) in
  if negb (isNotificationSupported br) then
    ret {| granted := false;
           error := Some "Notifications are not supported in this browser" |}
  else if isGranted (permission br) then
    ret {| granted := true; error := None |}
  else if isDenied (permission br) then
    ret {| granted := false;
           error := Some "Notification permission was previously denied. Please enable notifications in your browser settings." |}
  else
    tryCatch
      (let* answer := requestPermission in
       if isGranted answer then ret {| granted := true; error := None |}
       else if isDenied answer then
         ret {| granted := false;
                error := Some "Notification permission denied. You can enable notifications in your browser settings to receive updates." |}
       else
         ret {| granted := false;
                error := Some "Notification permission not granted. Please enable notifications to receive updates." |})
      (fun err =>
         ret {| granted := false;
                error := Some "Failed to request notification permission" |}).

(** [new Notification(title, { body: options?.body || '', ..., ...options })]:
    a field given in [options] wins over its default. *)
Definition notificationOf (title : string) (options : option Options) : Shown :=
  {| shown_title := title;
     shown_body := default "" (options ≫= body);
     shown_icon := default "/favicon.ico" (options ≫= icon);
     shown_tag := default "vikasit-jharkhand" (options ≫= tag);
     shown_requireInteraction := default false (options ≫= requireInteraction);
     shown_data := options ≫= data;
     closesAfter :=
       if default false (options ≫= requireInteraction) then None
       else Some 5000%N |}.

Definition showNotification (title : string) (options : option Options)
  : Eff Browser bool :=
  let* br := gets (fun br => br) in
  if negb (isNotificationSupported br) || negb (isGranted (permission br)) then
    ret false
  else if constructorThrows br then ret false
  else
    run modify (fun br =>
                  mkBrowser (supported br) (permission br) (promptOutcome br)
                            (constructorThrows br)
                            (shown br ++ [notificationOf title options])
                            (prompts br) (storage br)) then
    ret true.

Definition PREFERENCE_KEY : string := "vikasit_jharkhand_notifications".

(** [JSON.stringify] of a boolean. *)
Definition JSON_stringify (b : bool) : string := if b then "true" else "false".

Definition setNotificationPreference (enabled : bool) : Eff Browser unit :=
  modify (fun br =>
            mkBrowser (supported br) (permission br) (promptOutcome br)
                      (constructorThrows br) (shown br) (prompts br)
                      (<[PREFERENCE_KEY := JSON_stringify enabled]> (storage br))).

Section Preference.

(** [JSON.parse] where a boolean is expected: the value, or a throw. *)
Variable JSON_parse : string -> Completion bool.

Definition getNotificationPreference (br : Browser) : bool :=
  match storage br !! PREFERENCE_KEY with
  | Some stored =>
      if JS.truthy stored then
        match JSON_parse stored with
        | Normal v => v
        | Abrupt _ => false
        end
      else false
  | None => false
  end.

(** *** CitizenApp.tsx: the notification controls *)

(** [notificationsEnabled] and [showNotificationAlert]. *)
Record Controls := {
  notificationsEnabled : bool;
  showNotificationAlert : bool
}.

(** [checkNotifications], run when CitizenApp opens. *)
Definition checkNotifications (br : Browser) (c : Controls) : Controls :=
  if isNotificationSupported br then
    let perm := getNotificationPermission br in
    let preference := getNotificationPreference br in
    {| notificationsEnabled := isGranted perm && preference;
       showNotificationAlert :=
         match perm with
         | PermissionDefault =>
             if negb preference then true else showNotificationAlert c
         | _ => showNotificationAlert c
         end |}
  else c.

(** [handleNotificationRequest]: the controls afterwards and the text
    passed to [alert], if any. *)
Definition handleNotificationRequest : Eff Browser (Controls * option string) :=
  let* result := requestNotificationPermission in
  if granted result then
    run setNotificationPreference true then
    ret ({| notificationsEnabled := true; showNotificationAlert := false |}, None)
  else
    run setNotificationPreference false then
    ret ({| notificationsEnabled := false; showNotificationAlert := false |},
         match error result with
         | Some e => if JS.truthy e then Some e else None
         | None => None
         end).

End Preference.

End Notifications.

(** ** location.ts: watching, and the permission query *)

Module LocationWatch.

(** [PermissionState]: 'granted', 'denied', 'prompt'. *)
Inductive PermissionState := StateGranted | StateDenied | StatePrompt.

(** [navigator.permissions]: absent, or a [query] that resolves to a state
    or rejects. *)
Record Permissions := {
  permissions : option (Completion PermissionState)
}.

(** [requestLocationPermission]: the promise's outcome. *)
Definition requestLocationPermission (nav : Permissions) : Completion PermissionState :=
  match permissions nav with
  | Some queried =>
      match queried with
      | Normal state => Normal state
      | Abrupt _ => Normal StatePrompt
      end
  | None => Normal StatePrompt
  end.

(** The error callback of [watchUserLocation]. *)
Definition onWatchError (code : nat) : LocationService.LocationResult :=
  let errorMessage :=
    if (code =? LocationService.PERMISSION_DENIED)%nat then "Location permission denied"
    else if (code =? LocationService.POSITION_UNAVAILABLE)%nat then "Location unavailable"
    else if (code =? LocationService.TIMEOUT)%nat then "Location timeout"
    else "Location watch error" in
  {| LocationService.address := "Location unavailable";
     LocationService.lat := 0%float;
     LocationService.lng := 0%float;
     LocationService.error := Some errorMessage |}.

(** A browser whose [watchPosition] reports the given outcomes, one after
    the other, under the given watch id; [None] without geolocation. *)
Record Watcher := {
  watchPosition :
    option (LocationService.PositionOptions ->
            nat * list LocationService.GeolocationOutcome)
}.

Section Watching.

Variable toFixed : JS.number -> nat -> string.

(** [watchUserLocation]: the watch id returned ([None] for [null]) and the
    results handed to the callback, in order. *)
Definition watchUserLocation (navigator : Watcher)
  (options : option LocationService.PositionOptions)
  : option nat * list LocationService.LocationResult :=
  match watchPosition navigator with
  | None =>
      (None,
       [ {| LocationService.address := "Geolocation not supported";
            LocationService.lat := 0%float;
            LocationService.lng := 0%float;
            LocationService.error :=
              Some "Geolocation is not supported by this browser" |} ])
  | Some watch =>
      let (watchId, outcomes) := watch (LocationService.defaultOptions options) in
      (Some watchId,
       map (fun outcome =>
              match outcome with
              | LocationService.Position latitude longitude _ =>
                  {| LocationService.address :=
                       LocationService.getLocationName toFixed latitude longitude;
                     LocationService.lat := latitude;
                     LocationService.lng := longitude;
                     LocationService.error := None |}
              | LocationService.PositionError code => onWatchError code
              end)
           outcomes)
  end.

End Watching.

End LocationWatch.

(** ** IssueReportForm.tsx: the inputs of the form *)

Module ReportInputs.

(** A timer started with [setTimeout]: its delay and the error text it
    will set. *)
Record ErrorTimer := {
  delay : N;
  errorText : string
}.

Definition setLocation (v : string) (f : IssueReportForm.FormState)
  : IssueReportForm.FormState :=
  {| IssueReportForm.title := IssueReportForm.title f;
     IssueReportForm.description := IssueReportForm.description f;
     IssueReportForm.category := IssueReportForm.category f;
     IssueReportForm.location := v;
     IssueReportForm.latLng := IssueReportForm.latLng f;
     IssueReportForm.imageUrl := IssueReportForm.imageUrl f;
     IssueReportForm.selectedImage := IssueReportForm.selectedImage f;
     IssueReportForm.isRecording := IssueReportForm.isRecording f;
     IssueReportForm.audioDescription := IssueReportForm.audioDescription f;
     IssueReportForm.loading := IssueReportForm.loading f;
     IssueReportForm.error := IssueReportForm.error f |}.

Definition setLatLng (v : option (JS.number * JS.number))
  (f : IssueReportForm.FormState) : IssueReportForm.FormState :=
  {| IssueReportForm.title := IssueReportForm.title f;
     IssueReportForm.description := IssueReportForm.description f;
     IssueReportForm.category := IssueReportForm.category f;
     IssueReportForm.location := IssueReportForm.location f;
     IssueReportForm.latLng := v;
     IssueReportForm.imageUrl := IssueReportForm.imageUrl f;
     IssueReportForm.selectedImage := IssueReportForm.selectedImage f;
     IssueReportForm.isRecording := IssueReportForm.isRecording f;
     IssueReportForm.audioDescription := IssueReportForm.audioDescription f;
     IssueReportForm.loading := IssueReportForm.loading f;
     IssueReportForm.error := IssueReportForm.error f |}.

Definition setImage (file : File) (url : string)
  (f : IssueReportForm.FormState) : IssueReportForm.FormState :=
  {| IssueReportForm.title := IssueReportForm.title f;
     IssueReportForm.description := IssueReportForm.description f;
     IssueReportForm.category := IssueReportForm.category f;
     IssueReportForm.location := IssueReportForm.location f;
     IssueReportForm.latLng := IssueReportForm.latLng f;
     IssueReportForm.imageUrl := url;
     IssueReportForm.selectedImage := Some file;
     IssueReportForm.isRecording := IssueReportForm.isRecording f;
     IssueReportForm.audioDescription := IssueReportForm.audioDescription f;
     IssueReportForm.loading := IssueReportForm.loading f;
     IssueReportForm.error := IssueReportForm.error f |}.

Definition setVoice (recording : bool) (audio : string)
  (f : IssueReportForm.FormState) : IssueReportForm.FormState :=
  {| IssueReportForm.title := IssueReportForm.title f;
     IssueReportForm.description := IssueReportForm.description f;
     IssueReportForm.category := IssueReportForm.category f;
     IssueReportForm.location := IssueReportForm.location f;
     IssueReportForm.latLng := IssueReportForm.latLng f;
     IssueReportForm.imageUrl := IssueReportForm.imageUrl f;
     IssueReportForm.selectedImage := IssueReportForm.selectedImage f;
     IssueReportForm.isRecording := recording;
     IssueReportForm.audioDescription := audio;
     IssueReportForm.loading := IssueReportForm.loading f;
     IssueReportForm.error := IssueReportForm.error f |}.

(** The form when the component mounts ([useState] initial values). *)
Definition initialForm : IssueReportForm.FormState :=
  {| IssueReportForm.title := "";
     IssueReportForm.description := "";
     IssueReportForm.category := "";
     IssueReportForm.location := "";
     IssueReportForm.latLng := None;
     IssueReportForm.imageUrl := "";
     IssueReportForm.selectedImage := None;
     IssueReportForm.isRecording := false;
     IssueReportForm.audioDescription := "";
     IssueReportForm.loading := false;
     IssueReportForm.error := "" |}.

(** The options that the form passes to [getUserLocation] when it mounts,
    and from the "Use Current" button. *)
Definition fetchOptions : LocationService.PositionOptions :=
  {| LocationService.enableHighAccuracy := Some true;
     LocationService.timeout := Some 15000%N;
     LocationService.maximumAge := Some 300000%N |}.

Definition useCurrentOptions : LocationService.PositionOptions :=
  {| LocationService.enableHighAccuracy := Some true;
     LocationService.timeout := Some 15000%N;
     LocationService.maximumAge := None |}.

Section Location.

Variable toFixed : JS.number -> nat -> string.

(** [fetchLocation], the effect run when the form mounts: the form
    afterwards and the error timers started. *)
Definition fetchLocation (perms : LocationWatch.Permissions)
  (navigator : LocationService.Navigator) (f : IssueReportForm.FormState)
  : IssueReportForm.FormState * list ErrorTimer :=
  match LocationWatch.requestLocationPermission perms with
  | Abrupt _ =>
      (setLocation "Enter manually" f,
       [ {| delay := 1000;
            errorText := "Unable to fetch location. Please enter manually or check your browser's location settings." |} ])
  | Normal LocationWatch.StateDenied =>
      (setLocation "Location permission denied - Enter manually" f,
       [ {| delay := 1000;
            errorText := "Location access denied. Please enable location services in your browser settings or enter address manually." |} ])
  | Normal _ =>
      match LocationService.getUserLocation toFixed navigator (Some fetchOptions) with
      | Abrupt _ =>
          (setLocation "Enter manually" f,
           [ {| delay := 1000;
                errorText := "Unable to fetch location. Please enter manually or check your browser's location settings." |} ])
      | Normal result =>
          match LocationService.error result with
          | Some e =>
              if JS.truthy e then
                (setLocation "Location unavailable - Enter manually" f,
                 [ {| delay := 1000;
                      errorText := "Location error: " +:+ e +:+
                                   ". Please enter your address manually." |} ])
              else
                (IssueReportForm.setError ""
                   (setLocation (LocationService.address result)
                      (setLatLng (Some (LocationService.lat result,
                                        LocationService.lng result)) f)),
                 [])
          | None =>
              (IssueReportForm.setError ""
                 (setLocation (LocationService.address result)
                    (setLatLng (Some (LocationService.lat result,
                                      LocationService.lng result)) f)),
               [])
          end
      end
  end.

(** The "Use Current" button. *)
Definition useCurrentLocation (navigator : LocationService.Navigator)
  (f : IssueReportForm.FormState) : IssueReportForm.FormState :=
  let f0 := IssueReportForm.setError "" f in
  match LocationService.getUserLocation toFixed navigator (Some useCurrentOptions) with
  | Abrupt _ =>
      setLatLng (Some (0%float, 0%float))
        (setLocation "Enter manually"
           (IssueReportForm.setError
              "Unable to get your location. Please try again or enter manually." f0))
  | Normal result =>
      match LocationService.error result with
      | Some e =>
          if JS.truthy e then
            setLatLng (Some (0%float, 0%float))
              (setLocation "Enter manually" (IssueReportForm.setError e f0))
          else
            setLocation (LocationService.address result)
              (setLatLng (Some (LocationService.lat result,
                                LocationService.lng result)) f0)
      | None =>
          setLocation (LocationService.address result)
            (setLatLng (Some (LocationService.lat result,
                              LocationService.lng result)) f0)
      end
  end.

End Location.

(** A file in the file input: the file and its size in bytes. *)
Record PickedFile := {
  picked : File;
  size : N
}.

Definition MAX_IMAGE_BYTES : N := 5 * 1024 * 1024.

Section Image.

(** [URL.createObjectURL] *)
Variable createObjectURL : File -> string.

(** [handleImageUpload], for [event.target.files?.[0]]. *)
Definition handleImageUpload (file : option PickedFile)
  (f : IssueReportForm.FormState) : IssueReportForm.FormState :=
  match file with
  | Some p =>
      if (MAX_IMAGE_BYTES <? size p)%N then
        IssueReportForm.setError "Image size should be less than 5MB" f
      else setImage (picked p) (createObjectURL (picked p)) f
  | None => f
  end.

End Image.

Definition VOICE_NOTE : string := "Voice note recorded successfully".

(** [handleVoiceRecord] *)
Definition handleVoiceRecord (f : IssueReportForm.FormState)
  : IssueReportForm.FormState :=
  setVoice (negb (IssueReportForm.isRecording f))
           (if IssueReportForm.isRecording f then VOICE_NOTE
            else IssueReportForm.audioDescription f)
           f.

End ReportInputs.

(** ** MapView.tsx *)

Module MapView.

(** [x !== 0] on numbers. *)
Definition nonZero (x : JS.number) : bool := negb (PrimFloat.eqb x 0%float).

Definition hasValidCoords (issue : Issue) : bool :=
  nonZero (lat (location issue)) && nonZero (lng (location issue)).

Definition validIssues (issues : list Issue) : list Issue :=
  List.filter hasValidCoords issues.

(** The zoom level, a whole number: the zoom buttons. *)
Definition initialZoom : Z := 12.
Definition zoomIn (zoomLevel : Z) : Z := Z.min (zoomLevel + 1) 18.
Definition zoomOut (zoomLevel : Z) : Z := Z.max (zoomLevel - 1) 1.

Inductive ZoomButton := ZoomIn | ZoomOut.

Definition press (zoomLevel : Z) (b : ZoomButton) : Z :=
  match b with
  | ZoomIn => zoomIn zoomLevel
  | ZoomOut => zoomOut zoomLevel
  end.

End MapView.

(** ** VendorManagement.tsx: the vendor forms; vendors.ts *)

Module VendorForms.

(** [s.split(",")] *)
Fixpoint splitComma (s : string) : list string :=
  match s with
  | EmptyString => [EmptyString]
  | String c s' =>
      if Ascii.eqb c "," then EmptyString :: splitComma s'
      else
        match splitComma s' with
        | piece :: pieces => String c piece :: pieces
        | [] => [String c EmptyString]
        end
  end.

(** [arr.join(sep)] *)
Fixpoint join (sep : string) (arr : list string) : string :=
  match arr with
  | [] => EmptyString
  | [x] => x
  | x :: rest => x +:+ sep +:+ join sep rest
  end.

(** [text.split(",").map(s => s.trim()).filter(s => s)] *)
Definition parseSpecialities {js : JS.Engine} (text : string) : list string :=
  List.filter JS.truthy (map JS.trim (splitComma text)).

(** [vendor.specialities.join(", ")] *)
Definition showSpecialities (l : list string) : string := join ", " l.

(** A speciality as the forms produce it: not empty, without a comma, and
    without white space at either end. *)
Definition tidy {js : JS.Engine} (s : string) : Prop :=
  s <> "" /\ JS.includes s "," = false /\ JS.trim s = s.

(** [newVendor] and [editVendor]: the text fields of the two forms. *)
Record VendorFields := {
  f_name : string;
  f_email : string;
  f_phone : string;
  f_specialities : string;
  f_location : string;
  f_description : string;
  f_baseQuote : string
}.

Definition emptyFields : VendorFields :=
  {| f_name := ""; f_email := ""; f_phone := ""; f_specialities := "";
     f_location := ""; f_description := ""; f_baseQuote := "" |}.

(** What [addVendor] receives: a vendor without id and dates. *)
Record VendorData := {
  new_name : string;
  new_email : string;
  new_phone : string;
  new_specialities : list string;
  new_location : string;
  new_rating : JS.number;
  new_totalJobs : JS.number;
  new_baseQuote : JS.number;
  new_description : string;
  new_verified : bool
}.

(** What [updateVendor] receives from the edit form. *)
Record VendorUpdates := {
  upd_vendor_name : string;
  upd_vendor_email : string;
  upd_vendor_phone : string;
  upd_vendor_specialities : list string;
  upd_vendor_location : string;
  upd_vendor_description : string;
  upd_vendor_baseQuote : JS.number
}.

(** The requests that reach the "vendors" collection. *)
Inductive VendorRequest :=
| AddVendor (v : VendorData)
| UpdateVendor (vendorId : string) (updates : VendorUpdates).

(** The state of the dialog, the requests made so far, and the backend. *)
Record Dialog (B : Type) := mkDialog {
  newVendor : VendorFields;
  editVendor : VendorFields;
  showAddVendor : bool;
  editingVendor : option string;
  selectedVendor : option string;
  loading : bool;
  error : string;
  requests : list VendorRequest;
  store : B
}.
Arguments mkDialog {B}.
Arguments newVendor {B}.
Arguments editVendor {B}.
Arguments showAddVendor {B}.
Arguments editingVendor {B}.
Arguments selectedVendor {B}.
Arguments loading {B}.
Arguments error {B}.
Arguments requests {B}.
Arguments store {B}.

Section Forms.

Context {B : Type} {js : JS.Engine}.

(** [addDoc] and [updateDoc] on the "vendors" collection. *)
Variable addDoc_vendors : VendorData -> B -> Completion string * B.
Variable updateDoc_vendors : string -> VendorUpdates -> B -> Completion unit * B.

(** [parseFloat] and [Number.prototype.toString] *)
Variable parseFloat : string -> JS.number.
Variable numberToString : JS.number -> string.

Local Open Scope eff_scope.

Definition setError (v : string) : Eff (Dialog B) unit :=
  modify (fun d => mkDialog (newVendor d) (editVendor d) (showAddVendor d)
                            (editingVendor d) (selectedVendor d) (loading d) v
                            (requests d) (store d)).

Definition setLoading (v : bool) : Eff (Dialog B) unit :=
  modify (fun d => mkDialog (newVendor d) (editVendor d) (showAddVendor d)
                            (editingVendor d) (selectedVendor d) v (error d)
                            (requests d) (store d)).

Definition setShowAddVendor (v : bool) : Eff (Dialog B) unit :=
  modify (fun d => mkDialog (newVendor d) (editVendor d) v
                            (editingVendor d) (selectedVendor d) (loading d) (error d)
                            (requests d) (store d)).

Definition setNewVendor (v : VendorFields) : Eff (Dialog B) unit :=
  modify (fun d => mkDialog v (editVendor d) (showAddVendor d)
                            (editingVendor d) (selectedVendor d) (loading d) (error d)
                            (requests d) (store d)).

Definition setEditVendor (v : VendorFields) : Eff (Dialog B) unit :=
  modify (fun d => mkDialog (newVendor d) v (showAddVendor d)
                            (editingVendor d) (selectedVendor d) (loading d) (error d)
                            (requests d) (store d)).

Definition setEditingVendor (v : option string) : Eff (Dialog B) unit :=
  modify (fun d => mkDialog (newVendor d) (editVendor d) (showAddVendor d)
                            v (selectedVendor d) (loading d) (error d)
                            (requests d) (store d)).

(** vendors.ts: [addVendor] and [updateVendor] pass the request on and
    throw what the SDK throws. *)
Definition addVendor (v : VendorData) : Eff (Dialog B) string :=
  fun d =>
    let (r, b') := addDoc_vendors v (store d) in
    (r, mkDialog (newVendor d) (editVendor d) (showAddVendor d)
                 (editingVendor d) (selectedVendor d) (loading d) (error d)
                 (requests d ++ [AddVendor v]) b').

Definition updateVendor (vendorId : string) (updates : VendorUpdates)
  : Eff (Dialog B) unit :=
  fun d =>
    let (r, b') := updateDoc_vendors vendorId updates (store d) in
    (r, mkDialog (newVendor d) (editVendor d) (showAddVendor d)
                 (editingVendor d) (selectedVendor d) (loading d) (error d)
                 (requests d ++ [UpdateVendor vendorId updates]) b').

(** [isNaN(x) || x <= 0] *)
Definition invalidQuote (x : JS.number) : bool :=
  PrimFloat.is_nan x || (x <=? 0)%float.

Definition handleAddVendor : Eff (Dialog B) unit :=
  let* fields := gets newVendor in
  if JS.falsy (f_name fields) || JS.falsy (f_email fields) ||
     JS.falsy (f_phone fields) || JS.falsy (f_baseQuote fields)
  then setError "Please fill in all required fields including pricing"
  else
    let baseQuoteNum := parseFloat (f_baseQuote fields) in
    if invalidQuote baseQuoteNum
    then setError "Please enter a valid base quote amount"
    else
      run setLoading true then
      run setError "" then
      tryFinally
        (tryCatch
           (let vendorData :=
              {| new_name := f_name fields;
                 new_email := f_email fields;
                 new_phone := f_phone fields;
                 new_specialities := parseSpecialities (f_specialities fields);
                 new_location := f_location fields;
                 new_rating := 0%float;
                 new_totalJobs := 0%float;
                 new_baseQuote := baseQuoteNum;
                 new_description := f_description fields;
                 new_verified := false |} in
            run addVendor vendorData then
            run setShowAddVendor false then
            setNewVendor emptyFields)
           (fun err => setError "Failed to add vendor. Please try again."))
        (setLoading false).

Definition handleEditVendor (vendor : Vendor) : Eff (Dialog B) unit :=
  run setEditingVendor (Some (vendor_id vendor)) then
  run setEditVendor
        {| f_name := vendor_name vendor;
           f_email := vendor_email vendor;
           f_phone := vendor_phone vendor;
           f_specialities := showSpecialities (specialities vendor);
           f_location := vendor_location vendor;
           f_description := vendor_description vendor;
           f_baseQuote := numberToString (baseQuote vendor) |} then
  setError "".

Definition handleSaveEdit (vendorId : string) : Eff (Dialog B) unit :=
  let* fields := gets editVendor in
  if JS.falsy (f_name fields) || JS.falsy (f_email fields) ||
     JS.falsy (f_phone fields) || JS.falsy (f_baseQuote fields)
  then setError "Please fill in all required fields including pricing"
  else
    let baseQuoteNum := parseFloat (f_baseQuote fields) in
    if invalidQuote baseQuoteNum
    then setError "Please enter a valid base quote amount"
    else
      run setLoading true then
      run setError "" then
      tryFinally
        (tryCatch
           (let updates :=
              {| upd_vendor_name := f_name fields;
                 upd_vendor_email := f_email fields;
                 upd_vendor_phone := f_phone fields;
                 upd_vendor_specialities := parseSpecialities (f_specialities fields);
                 upd_vendor_location := f_location fields;
                 upd_vendor_description := f_description fields;
                 upd_vendor_baseQuote := baseQuoteNum |} in
            run updateVendor vendorId updates then
            setEditingVendor None)
           (fun err => setError "Failed to update vendor. Please try again."))
        (setLoading false).

End Forms.

End VendorForms.

(** ** AdminDashboard.tsx: the lists offered in the filter controls, and
       the counters; AnalyticsDashboard.tsx *)

Module DashboardLists.

(** [[...new Set(arr)]]: the elements in the order they first occur. *)
Fixpoint unique (arr : list string) : list string :=
  match arr with
  | [] => []
  | x :: rest => x :: List.filter (fun y => negb (String.eqb y x)) (unique rest)
  end.

(** [issues.map(i => i.category).filter(cat => cat && cat.trim())] in a
    set. *)
Definition categories {js : JS.Engine} (issues : list Issue) : list string :=
  unique (List.filter (fun cat => JS.truthy cat && JS.truthy (JS.trim cat))
                      (map category issues)).

(** [issues.map(i => i.assignedTo).filter(Boolean)] in a set. *)
Definition assignees (issues : list Issue) : list string :=
  unique (omap (fun i => match assignedTo i with
                         | Some a => if JS.truthy a then Some a else None
                         | None => None
                         end)
               issues).

(** [issues.filter(i => i.status === s).length] *)
Definition countStatus (s : string) (issues : list Issue) : nat :=
  length (List.filter (fun i => String.eqb (status i) s) issues).

(** The counters of AnalyticsDashboard. *)
Definition totalIssues (issues : list Issue) : nat := length issues.
Definition resolvedIssues := countStatus "resolved".
Definition inProgressIssues := countStatus "in-progress".
Definition reportedIssues := countStatus "reported".
Definition acknowledgedIssues := countStatus "acknowledged".

(** "Active Issues" of AnalyticsDashboard. *)
Definition activeIssues (issues : list Issue) : nat :=
  inProgressIssues issues + acknowledgedIssues issues.

(** "Unassigned" of AdminDashboard. *)
Definition unassignedIssues (issues : list Issue) : nat :=
  length (List.filter (fun i => JS.falsy_opt (assignedTo i)) issues).

(** The filter controls after an item of the category select, or of the
    assignee select, was picked with the other controls as they are at the
    start. *)
Definition selectCategory (c : string) : AdminDashboard.Filters :=
  {| AdminDashboard.searchQuery := ""; AdminDashboard.filterStatus := "all";
     AdminDashboard.filterCategory := c; AdminDashboard.filterAssignee := "all" |}.

Definition selectAssignee (a : string) : AdminDashboard.Filters :=
  {| AdminDashboard.searchQuery := ""; AdminDashboard.filterStatus := "all";
     AdminDashboard.filterCategory := "all"; AdminDashboard.filterAssignee := a |}.

End DashboardLists.

(** ** CitizenApp.tsx: the citizen's list *)

Module CitizenApp.

Record Filters := {
  searchQuery : string;
  filterStatus : string;
  filterCategory : string
}.

Definition userIssues (currentUser : UserProfile) (issues : list Issue) : list Issue :=
  List.filter (fun issue => String.eqb (reportedBy issue) (email currentUser) ||
                            String.eqb (reportedBy issue) "You")
              issues.

Definition matchesSearch {js : JS.Engine} (f : Filters) (issue : Issue) : bool :=
  JS.includes (JS.toLowerCase (title issue)) (JS.toLowerCase (searchQuery f)) ||
  JS.includes (JS.toLowerCase (description issue)) (JS.toLowerCase (searchQuery f)).

Definition matchesStatus (f : Filters) (issue : Issue) : bool :=
  String.eqb (filterStatus f) "all" || String.eqb (status issue) (filterStatus f).

Definition matchesCategory (f : Filters) (issue : Issue) : bool :=
  String.eqb (filterCategory f) "all" ||
  String.eqb (category issue) (filterCategory f).

Definition filteredIssues {js : JS.Engine} (currentUser : UserProfile) (f : Filters)
  (issues : list Issue) : list Issue :=
  List.filter (fun issue => matchesSearch f issue && matchesStatus f issue &&
                            matchesCategory f issue)
              (userIssues currentUser issues).


End CitizenApp.

(** ** IssueDetailsModal.tsx: who may edit *)

Module IssueDetails.


End IssueDetails.

(** ** SettingsModal.tsx: the order of the citizen's reports *)

(** [a] may stand before [b] in a list sorted by
    [b.reportedAt - a.reportedAt]. *)
Definition newerFirst (a b : Issue) : Prop := (reportedAt b <= reportedAt a)%N.

(** ** More sample data *)

Module MoreSamples.

(** A backend that knows Ravi's account but holds no profile for it. *)
Definition orphan : World Memory.Backend :=
  SubmitSamples.online
    (snd (Memory.createUser "ravi@example.org" "secret" Memory.empty)).

Definition renamed : ProfileUpdates :=
  {| upd_uid := None; upd_name := Some "Asha Devi"; upd_email := None;
     upd_phone := None; upd_role := None; upd_profileImageUrl := None;
     upd_createdAt := None; upd_updatedAt := None |}.

Definition ashaUser : User := {| user_uid := "u1" |}.

(** [JSON.parse] on the texts of the two booleans. *)
Definition parseBoolean (text : string) : Completion bool :=
  if String.eqb text "true" then Normal true
  else if String.eqb text "false" then Normal false
  else Abrupt (Error "Unexpected token in JSON").

(** A browser in which the user has not been asked yet and will agree. *)
Definition freshBrowser : Notifications.Browser :=
  Notifications.mkBrowser true Notifications.PermissionDefault
    (Normal Notifications.PermissionGranted) false [] 0 ∅.

(** [parseFloat] and [toString] on the quote of the sample vendors. *)
Definition parseQuote (text : string) : JS.number :=
  if String.eqb text "1000" then 1000%float else PrimFloat.nan.

Definition showQuote (x : JS.number) : string :=
  if PrimFloat.eqb x 1000%float then "1000" else "NaN".

(** A vendor store that accepts every update, and the dialog at its
    start. *)
Definition acceptUpdate (vendorId : string) (updates : VendorForms.VendorUpdates)
  (stored : list (string * VendorForms.VendorUpdates))
  : Completion unit * list (string * VendorForms.VendorUpdates) :=
  (Normal tt, (stored ++ [(vendorId, updates)])%list).

Definition dialog : VendorForms.Dialog (list (string * VendorForms.VendorUpdates)) :=
  VendorForms.mkDialog VendorForms.emptyFields VendorForms.emptyFields false None None
    false "" [] [].

(** The application without the backend, with one issue on the list. *)
Definition offlineApp : App.System Memory.Backend :=
  App.mkSystem SubmitSamples.offline [Samples.pothole] [] App.initialSettings.

(** The application with the backend, the settings open with the pothole
    on the modal's own list. *)
Definition settingsOpen : App.System Memory.Backend :=
  App.mkSystem (SubmitSamples.online Memory.empty) [] []
    (App.withAllIssues [Samples.pothole] App.initialSettings).

(** The first report of the store as a details view holds it that was
    opened while the report was new, and the edit typed into that view. *)
Definition staleReport : Issue :=
  {| id := "0"; title := "Pothole"; description := "Deep pothole near the school";
     category := "Road/Sidewalk"; status := "reported"; location := Samples.ranchi;
     imageUrl := None; reportedBy := "asha@example.org"; reportedAt := 0%N;
     assignedTo := None |}.

Definition retitled : App.DetailsEdit :=
  {| App.details_title := "Crater"; App.details_description := "Deeper every day";
     App.details_category := "Road/Sidewalk"; App.details_location := Samples.ranchi |}.

End MoreSamples.

(** * Properties *)

(** ** Strings *)

Lemma startsWith_app (s t : string) :
  JS.startsWith s t = true <-> exists post, s = t +:+ post.
Proof.
  revert s. induction t as [|b t IH]; intros s.
  - split; [intros _; now exists s | intros _; now destruct s].
  - destruct s as [|a s]; simpl.
    + split; [discriminate | intros [post H]; discriminate].
    + rewrite andb_true_iff, Ascii.eqb_eq, IH. split.
      * intros [-> [post ->]]. now exists post.
      * intros [post H]. injection H as -> ->. split; [reflexivity | now exists post].
Qed.

Lemma includes_nil (t : string) :
  JS.includes "" t = JS.startsWith "" t || false.
Proof. reflexivity. Qed.

Lemma includes_cons (a : ascii) (s t : string) :
  JS.includes (String a s) t = JS.startsWith (String a s) t || JS.includes s t.
Proof. reflexivity. Qed.

Lemma includes_app (s t : string) :
  JS.includes s t = true <-> exists pre post, s = pre +:+ t +:+ post.
Proof.
  induction s as [|a s IH];
    [rewrite includes_nil | rewrite includes_cons];
    rewrite orb_true_iff, startsWith_app.
  - split.
    + intros [[post H] | H]; [| discriminate]. now exists "", post.
    + intros [pre [post H]]. left. destruct pre; [now exists post | discriminate].
  - rewrite IH. split.
    + intros [[post H] | [pre [post H]]].
      * now exists "", post.
      * exists (String a pre), post. simpl. now rewrite H.
    + intros [pre [post H]]. destruct pre as [|c pre].
      * left. now exists post.
      * right. simpl in H. injection H as _ ->. now exists pre, post.
Qed.

Lemma includes_empty (s : string) : JS.includes s "" = true.
Proof. destruct s; reflexivity. Qed.

Lemma falsy_empty (s : string) : JS.falsy s = true <-> s = "".
Proof. destruct s; simpl; split; congruence. Qed.

Lemma string_app_cons (c : ascii) (s t : string) :
  String c s +:+ t = String c (s +:+ t).
Proof. reflexivity. Qed.

Lemma string_app_nil (t : string) : "" +:+ t = t.
Proof. reflexivity. Qed.

Lemma string_app_assoc (a b c : string) : (a +:+ b) +:+ c = a +:+ (b +:+ c).
Proof.
  induction a as [| x a IH]; [reflexivity |].
  rewrite !string_app_cons. f_equal. exact IH.
Qed.

(** ** Letter case on ASCII *)

Lemma nat_of_ascii_inj (a b : ascii) : nat_of_ascii a = nat_of_ascii b -> a = b.
Proof.
  intros H. rewrite <- (ascii_nat_embedding a), <- (ascii_nat_embedding b).
  now rewrite H.
Qed.

Lemma nat_toLowerAscii (a : ascii) :
  nat_of_ascii (JS.toLowerAscii a) =
  if (65 <=? nat_of_ascii a)%nat && (nat_of_ascii a <=? 90)%nat
  then (nat_of_ascii a + 32)%nat else nat_of_ascii a.
Proof.
  unfold JS.toLowerAscii.
  destruct ((65 <=? nat_of_ascii a)%nat && (nat_of_ascii a <=? 90)%nat) eqn:H;
    [| reflexivity].
  apply andb_true_iff in H. destruct H as [_ H]. apply Nat.leb_le in H.
  apply nat_ascii_embedding. lia.
Qed.

Lemma toLowerAscii_same (a b : ascii) :
  JS.toLowerAscii a = JS.toLowerAscii b <-> DashboardSpec.sameLetter a b.
Proof.
  unfold DashboardSpec.sameLetter, DashboardSpec.isUpper. split.
  - intros H. apply (f_equal nat_of_ascii) in H. rewrite !nat_toLowerAscii in H.
    destruct (Nat.leb_spec 65 (nat_of_ascii a)), (Nat.leb_spec (nat_of_ascii a) 90),
      (Nat.leb_spec 65 (nat_of_ascii b)), (Nat.leb_spec (nat_of_ascii b) 90);
      simpl in H;
      first [ left; apply nat_of_ascii_inj; lia
            | right; left; lia
            | right; right; lia ].
  - intros H. apply nat_of_ascii_inj. rewrite !nat_toLowerAscii.
    destruct H as [-> | [[Hu E] | [Hu E]]]; [reflexivity | |];
      destruct (Nat.leb_spec 65 (nat_of_ascii a)), (Nat.leb_spec (nat_of_ascii a) 90),
        (Nat.leb_spec 65 (nat_of_ascii b)), (Nat.leb_spec (nat_of_ascii b) 90);
      simpl; lia.
Qed.

Lemma asciiLowerCase_same (s t : string) :
  JS.asciiLowerCase s = JS.asciiLowerCase t <-> DashboardSpec.sameUpToCase s t.
Proof.
  revert t. induction s as [| a s IH]; intros [| b t]; simpl;
    try (split; [discriminate | contradiction]); [tauto |].
  rewrite <- IH, <- toLowerAscii_same. split.
  - intros [= H1 H2]. now split.
  - intros [-> ->]. reflexivity.
Qed.

Lemma asciiLowerCase_app (s t : string) :
  JS.asciiLowerCase (s +:+ t) = JS.asciiLowerCase s +:+ JS.asciiLowerCase t.
Proof.
  induction s as [| a s IH]; [reflexivity |].
  rewrite string_app_cons. simpl. rewrite IH. reflexivity.
Qed.

Lemma asciiLowerCase_split (s u v : string) :
  JS.asciiLowerCase s = u +:+ v ->
  exists s1 s2, s = s1 +:+ s2 /\ JS.asciiLowerCase s1 = u /\ JS.asciiLowerCase s2 = v.
Proof.
  revert s. induction u as [| c u IH]; intros s H.
  - exists "", s. repeat split. exact H.
  - destruct s as [| a s]; [discriminate |].
    rewrite string_app_cons in H. simpl in H. injection H as Hc Hs.
    destruct (IH s Hs) as [s1 [s2 [-> [H1 H2]]]].
    exists (String a s1), s2. repeat split; [| exact H2].
    simpl. now rewrite Hc, H1.
Qed.

(** ** Lists *)

Lemma filter_sublist {A : Type} (p : A -> bool) (l : list A) :
  sublist (List.filter p l) l.
Proof.
  induction l as [|x l IH]; simpl.
  - constructor.
  - destruct (p x); now constructor.
Qed.

Lemma filter_all {A : Type} (p : A -> bool) (l : list A) :
  (forall x, p x = true) -> List.filter p l = l.
Proof.
  intros Hp. induction l as [|x l IH]; simpl; [reflexivity |].
  now rewrite Hp, IH.
Qed.

(** ** Vendor matching *)

Lemma matchesIssue_iff (issue : Issue) (v : Vendor) :
  VendorManagement.matchesIssue (Some issue) v = true <->
  specialities v = [] \/ In (category issue) (specialities v).
Proof.
  unfold VendorManagement.matchesIssue, JS.array_includes.
  rewrite orb_true_iff, Nat.eqb_eq, existsb_exists. split.
  - intros [H | [x [Hin Hx]]].
    + left. now destruct (specialities v).
    + right. apply String.eqb_eq in Hx. now subst.
  - intros [H | H].
    + left. now rewrite H.
    + right. exists (category issue). split; [assumption | apply String.eqb_refl].
Qed.

(** C1, as stated, fails: a vendor that lists no speciality is offered for
    every issue, and when no vendor qualifies the whole list is offered, so
    a street-lighting vendor is offered for a road issue. *)
Lemma C1_offered_without_speciality :
  (In Samples.generalist
      (VendorManagement.displayVendors (Some Samples.pothole)
         [Samples.generalist; Samples.roadworks]) /\
   ~ In (category Samples.pothole) (specialities Samples.generalist)) /\
  (In Samples.electrician
      (VendorManagement.displayVendors (Some Samples.pothole) [Samples.electrician]) /\
   ~ In (category Samples.pothole) (specialities Samples.electrician)).
Proof.
  repeat split.
  - simpl. now left.
  - simpl. tauto.
  - simpl. now left.
  - simpl. intros [H | []]. discriminate.
Qed.

(** C1, amended: the vendors kept by the filter are exactly those of the
    list whose specialities are empty or contain the issue's category, in
    the order of the list; they are the ones offered when there is at least
    one, and otherwise the whole vendor list is offered. *)
Theorem C1_displayVendors_spec (issue : Issue) (vendors : list Vendor) :
  let relevant := VendorManagement.relevantVendors (Some issue) vendors in
  (forall v, In v relevant <->
             In v vendors /\
             (specialities v = [] \/ In (category issue) (specialities v))) /\
  sublist relevant vendors /\
  VendorManagement.displayVendors (Some issue) vendors =
    match relevant with
    | [] => vendors
    | _ :: _ => relevant
    end.
Proof.
  cbv zeta. split; [| split].
  - intros v. unfold VendorManagement.relevantVendors.
    rewrite filter_In, matchesIssue_iff. reflexivity.
  - apply filter_sublist.
  - unfold VendorManagement.displayVendors.
    now destruct (VendorManagement.relevantVendors (Some issue) vendors).
Qed.

(** ** Dashboard filter *)

Section DashboardFilter.

Context {js : JS.Engine}.

Lemma toLowerCase_empty : JS.toLowerCase "" = "".
Proof. now rewrite JS.toLowerCase_ascii. Qed.

Lemma matchesSearch_iff (f : AdminDashboard.Filters) (issue : Issue) :
  AdminDashboard.matchesSearch f issue = true <->
  DashboardSpec.searchHit (AdminDashboard.searchQuery f) issue.
Proof.
  unfold AdminDashboard.matchesSearch, DashboardSpec.searchHit,
    DashboardSpec.containsIgnoringCase.
  rewrite !orb_true_iff, !includes_app. tauto.
Qed.

Lemma matchesStatus_iff (f : AdminDashboard.Filters) (issue : Issue) :
  AdminDashboard.matchesStatus f issue = true <->
  DashboardSpec.statusHit (AdminDashboard.filterStatus f) issue.
Proof.
  unfold AdminDashboard.matchesStatus, DashboardSpec.statusHit.
  rewrite orb_true_iff, !String.eqb_eq. intuition congruence.
Qed.

Lemma matchesCategory_iff (f : AdminDashboard.Filters) (issue : Issue) :
  AdminDashboard.matchesCategory f issue = true <->
  DashboardSpec.categoryHit (AdminDashboard.filterCategory f) issue.
Proof.
  unfold AdminDashboard.matchesCategory, DashboardSpec.categoryHit.
  rewrite orb_true_iff, !String.eqb_eq. intuition congruence.
Qed.

Lemma falsy_opt_iff (issue : Issue) :
  JS.falsy_opt (assignedTo issue) = true <-> DashboardSpec.hasNoAssignee issue.
Proof.
  unfold DashboardSpec.hasNoAssignee, JS.falsy_opt.
  destruct (assignedTo issue) as [a|].
  - rewrite falsy_empty. intuition congruence.
  - intuition.
Qed.

Lemma opt_eqb_iff (x : option string) (s : string) :
  JS.opt_eqb x s = true <-> Some s = x.
Proof.
  destruct x as [a|]; simpl.
  - rewrite String.eqb_eq. intuition congruence.
  - intuition congruence.
Qed.

Lemma matchesAssignee_iff (f : AdminDashboard.Filters) (issue : Issue) :
  AdminDashboard.matchesAssignee f issue = true <->
  DashboardSpec.assigneeHit (AdminDashboard.filterAssignee f) issue.
Proof.
  unfold AdminDashboard.matchesAssignee, DashboardSpec.assigneeHit.
  rewrite !orb_true_iff, andb_true_iff, !String.eqb_eq, falsy_opt_iff, opt_eqb_iff.
  tauto.
Qed.

(** On ASCII, containment with the case ignored is an occurrence up to the
    case of letters. *)
Lemma containsIgnoringCase_ascii (text query : string) :
  JS.isAscii text = true -> JS.isAscii query = true ->
  (DashboardSpec.containsIgnoringCase text query <->
   DashboardSpec.occursUpToCase text query).
Proof.
  intros Ht Hq. unfold DashboardSpec.containsIgnoringCase, DashboardSpec.occursUpToCase.
  rewrite (JS.toLowerCase_ascii text Ht), (JS.toLowerCase_ascii query Hq). split.
  - intros [pre [post H]].
    destruct (asciiLowerCase_split _ _ _ H) as [s1 [s2 [-> [H1 H2]]]].
    destruct (asciiLowerCase_split _ _ _ H2) as [found [s3 [-> [H3 H4]]]].
    exists s1, found, s3. split; [reflexivity |]. now apply asciiLowerCase_same.
  - intros [pre [found [post [-> H]]]]. apply asciiLowerCase_same in H.
    exists (JS.asciiLowerCase pre), (JS.asciiLowerCase post).
    now rewrite !asciiLowerCase_app, H.
Qed.

(** C5: an issue is in [filteredIssues] exactly when it is in the issue
    list and passes the search, status, category and assignee predicates,
    where the search looks for the lower-case form of the query in the
    lower-case forms of title, description and address. When the query and
    the three texts of the issue are ASCII, the issue passes the search
    exactly when the query occurs in one of the three texts up to the case
    of the letters A to Z. With the cleared filters the result is the whole
    list; the result is always a subsequence of the list. *)
Theorem C5_filteredIssues_conjunction
  (f : AdminDashboard.Filters) (issues : list Issue) :
  (forall issue, In issue (AdminDashboard.filteredIssues f issues) <->
                 In issue issues /\ DashboardSpec.shown f issue) /\
  (forall issue,
     JS.isAscii (AdminDashboard.searchQuery f) = true ->
     JS.isAscii (title issue) = true ->
     JS.isAscii (description issue) = true ->
     JS.isAscii (address (location issue)) = true ->
     (In issue (AdminDashboard.filteredIssues f issues) <->
      In issue issues /\
      (DashboardSpec.occursUpToCase (title issue) (AdminDashboard.searchQuery f) \/
       DashboardSpec.occursUpToCase (description issue) (AdminDashboard.searchQuery f) \/
       DashboardSpec.occursUpToCase (address (location issue))
                                    (AdminDashboard.searchQuery f)) /\
      DashboardSpec.statusHit (AdminDashboard.filterStatus f) issue /\
      DashboardSpec.categoryHit (AdminDashboard.filterCategory f) issue /\
      DashboardSpec.assigneeHit (AdminDashboard.filterAssignee f) issue)) /\
  (forall text query,
     JS.isAscii text = true -> JS.isAscii query = true ->
     (DashboardSpec.containsIgnoringCase text query <->
      DashboardSpec.occursUpToCase text query)) /\
  AdminDashboard.filteredIssues AdminDashboard.clearedFilters issues = issues /\
  sublist (AdminDashboard.filteredIssues f issues) issues.
Proof.
  assert (Hshown : forall issue,
            In issue (AdminDashboard.filteredIssues f issues) <->
            In issue issues /\ DashboardSpec.shown f issue).
  { intros issue. unfold AdminDashboard.filteredIssues, DashboardSpec.shown.
    rewrite filter_In, !andb_true_iff, matchesSearch_iff, matchesStatus_iff,
      matchesCategory_iff, matchesAssignee_iff.
    tauto. }
  split; [exact Hshown |]. split; [| split; [| split]].
  - intros issue Hq Ht Hd Ha. rewrite Hshown.
    unfold DashboardSpec.shown, DashboardSpec.searchHit.
    rewrite (containsIgnoringCase_ascii _ _ Ht Hq),
      (containsIgnoringCase_ascii _ _ Hd Hq),
      (containsIgnoringCase_ascii _ _ Ha Hq).
    tauto.
  - apply containsIgnoringCase_ascii.
  - apply filter_all. intros issue.
    unfold AdminDashboard.matchesSearch. simpl.
    now rewrite toLowerCase_empty, includes_empty.
  - apply filter_sublist.
Qed.

End DashboardFilter.

(** The search at work on the engine for ASCII: the case of letters is
    ignored, in the query and in the text. *)
Example search_ignores_case :
  AdminDashboard.filteredIssues (js := JS.asciiEngine)
    {| AdminDashboard.searchQuery := "POTHOLE near";
       AdminDashboard.filterStatus := "all";
       AdminDashboard.filterCategory := "all";
       AdminDashboard.filterAssignee := "all" |}
    [Samples.pothole] = [Samples.pothole].
Proof. vm_compute. reflexivity. Qed.

(** ** Error-message mapping *)

(** C7: [handleFirebaseError] returns the offline notice when the error's
    code is 'unavailable' or 'deadline-exceeded'; otherwise the error's own
    message when it has one, and the generic notice when it has none. *)
Theorem C7_handleFirebaseError_substitution (error : JsError) :
  (code error = Some "unavailable" \/ code error = Some "deadline-exceeded" ->
   Firebase.handleFirebaseError error =
     "Service temporarily unavailable. Operating in offline mode.") /\
  (code error <> Some "unavailable" -> code error <> Some "deadline-exceeded" ->
   forall m, message error = Some m -> m <> "" ->
             Firebase.handleFirebaseError error = m) /\
  (code error <> Some "unavailable" -> code error <> Some "deadline-exceeded" ->
   message error = None \/ message error = Some "" ->
   Firebase.handleFirebaseError error = "An error occurred. Please try again.").
Proof.
  destruct error as [c m]. unfold Firebase.handleFirebaseError. simpl.
  assert (Hu : JS.opt_eqb c "unavailable" = true <-> c = Some "unavailable")
    by (rewrite opt_eqb_iff; intuition congruence).
  assert (Hd : JS.opt_eqb c "deadline-exceeded" = true <->
               c = Some "deadline-exceeded")
    by (rewrite opt_eqb_iff; intuition congruence).
  destruct (JS.opt_eqb c "unavailable");
    destruct (JS.opt_eqb c "deadline-exceeded"); simpl.
  1-3: split; [reflexivity |
               split; intros H1 H2; exfalso;
               (apply H1, Hu; reflexivity) || (apply H2, Hd; reflexivity)].
  split; [intros [E | E]; [apply Hu in E | apply Hd in E]; discriminate |].
  split.
  - intros _ _ m0 -> Hne. simpl. destruct m0; [congruence | reflexivity].
  - intros _ _ [-> | ->]; reflexivity.
Qed.

(** ** Registration, sign-in and the built-in administrator *)

Section AuthProperties.

Context {B : Type} {sdk : FirebaseSdk B}.

Lemma call_unfold {A : Type} (tag : SdkCall) (op : B -> Completion A * B)
  (w : World B) :
  call tag op w =
  (fst (op (backend w)),
   mkWorld (isFirebaseAvailable w) (now w) (localStorage w)
           (snd (op (backend w))) (calls w ++ [tag])).
Proof. unfold call. now destruct (op (backend w)). Qed.

Lemma calls_grow (l rest : list SdkCall) :
  (l ++ rest)%list = l -> rest = [].
Proof.
  intros H. apply (f_equal (@length SdkCall)) in H.
  rewrite length_app in H. destruct rest; [reflexivity | simpl in H; lia].
Qed.

Ltac calls_differ :=
  let H := fresh in
  rewrite <- ?app_assoc; intros H; apply calls_grow in H; discriminate H.

(** Registration on the backend path, when the three SDK calls succeed. *)
Lemma registerUser_backend_success (email0 password name0 phone0 : string)
  (w : World B) (user : User) (b1 b2 b3 : B) :
  let profile :=
    {| uid := user_uid user; name := name0; email := email0;
       phone := phone0; role := citizen; profileImageUrl := None;
       createdAt := serverTimestamp; updatedAt := serverTimestamp |} in
  isFirebaseAvailable w = true ->
  createUserWithEmailAndPassword email0 password (backend w) = (Normal user, b1) ->
  updateProfile user name0 b1 = (Normal tt, b2) ->
  setDoc_users (user_uid user) profile b2 = (Normal tt, b3) ->
  exists w',
    registerUser email0 password name0 phone0 w = (Normal profile, w') /\
    backend w' = b3 /\ localStorage w' = localStorage w.
Proof.
  cbv zeta. intros Hav Hc Hu Hs.
  unfold registerUser, bind, gets, tryCatch, ret. rewrite Hav. simpl.
  rewrite call_unfold, Hc. simpl.
  rewrite call_unfold. simpl. rewrite Hu. simpl.
  rewrite call_unfold. simpl. rewrite Hs. simpl.
  eexists. split; [reflexivity | split; reflexivity].
Qed.

(** C2: whatever is entered, a profile that [registerUser] returns has role
    'citizen' and carries the name, email and phone entered. Without the
    backend the call always returns, after storing that profile and without
    calling the backend. On the backend path the account is created, the
    display name set and the profile written to users/{uid}, in this order
    and each once; the profile written is the one with role 'citizen', and
    it is returned when the three calls succeed; when one of them rejects,
    the later ones are not made and the call throws the message of
    [handleFirebaseError]. *)
Theorem C2_registerUser_role_citizen (email0 password name0 phone0 : string)
  (w : World B) :
  let out := registerUser email0 password name0 phone0 w in
  let after b cs :=
    mkWorld (isFirebaseAvailable w) (now w) (localStorage w) b
            (calls w ++ cs)%list in
  let failed e := @Abrupt UserProfile (Error (Firebase.handleFirebaseError e)) in
  (forall profile, fst out = Normal profile ->
     role profile = citizen /\ name profile = name0 /\
     email profile = email0 /\ phone profile = phone0) /\
  (isFirebaseAvailable w = false ->
   let profile :=
     {| uid := "offline_" +:+ decimal (now w); name := name0; email := email0;
        phone := phone0; role := citizen; profileImageUrl := None;
        createdAt := DateAt (now w); updatedAt := DateAt (now w) |} in
   out = (Normal profile,
          mkWorld (isFirebaseAvailable w) (now w)
                  (<[USER_KEY := profile]> (localStorage w)) (backend w) (calls w))) /\
  (isFirebaseAvailable w = true ->
   match createUserWithEmailAndPassword email0 password (backend w) with
   | (Abrupt e, b1) =>
       out = (failed e, after b1 [CreateUserWithEmailAndPassword email0 password])
   | (Normal user, b1) =>
       match updateProfile user name0 b1 with
       | (Abrupt e, b2) =>
           out = (failed e,
                  after b2 [CreateUserWithEmailAndPassword email0 password;
                            UpdateProfile user name0])
       | (Normal _, b2) =>
           let profile :=
             {| uid := user_uid user; name := name0; email := email0;
                phone := phone0; role := citizen; profileImageUrl := None;
                createdAt := serverTimestamp; updatedAt := serverTimestamp |} in
           let cs := [CreateUserWithEmailAndPassword email0 password;
                      UpdateProfile user name0; SetDoc "users" (user_uid user)] in
           match setDoc_users (user_uid user) profile b2 with
           | (Normal _, b3) => out = (Normal profile, after b3 cs)
           | (Abrupt e, b3) => out = (failed e, after b3 cs)
           end
       end
   end).
Proof.
  cbv zeta. unfold registerUser, bind, gets, tryCatch, ret, throw.
  destruct (isFirebaseAvailable w) eqn:Hav; simpl.
  - rewrite call_unfold, Hav.
    destruct (createUserWithEmailAndPassword email0 password (backend w))
      as [[user | e] b1]; simpl.
    + rewrite call_unfold. simpl.
      destruct (updateProfile user name0 b1) as [[[] | e] b2]; simpl.
      * rewrite call_unfold. simpl.
        destruct (setDoc_users (user_uid user) _ b2) as [[[] | e] b3]; simpl;
          rewrite <- !app_assoc; simpl.
        -- split; [intros profile [= <-]; repeat split |].
           split; [discriminate | intros _; reflexivity].
        -- split; [intros profile [=] |].
           split; [discriminate | intros _; reflexivity].
      * rewrite <- !app_assoc. simpl. split; [intros profile [=] |].
        split; [discriminate | intros _; reflexivity].
    + split; [intros profile [=] |].
      split; [discriminate | intros _; reflexivity].
  - unfold localStorage_setItem, modify. simpl.
    split; [intros profile [= <-]; repeat split |].
    split; [intros _; rewrite Hav; reflexivity | discriminate].
Qed.

(** C8: signing in as 'admin' / 'admin' returns the built-in administrator
    profile (uid 'admin', role 'admin') in every world, whether the backend
    is available or not; the profile is stored in local storage, and the
    backend is neither called nor changed. *)
Theorem C8_signIn_admin_shortcut (w : World B) :
  let profile := adminProfile (now w) in
  signInUser "admin" "admin" w =
    (Normal profile,
     mkWorld (isFirebaseAvailable w) (now w)
             (<[USER_KEY := profile]> (localStorage w)) (backend w) (calls w)) /\
  uid profile = "admin" /\ role profile = admin /\
  (forall w', snd (signInUser "admin" "admin" w) = w' ->
     localStorage w' !! USER_KEY = Some profile /\
     calls w' = calls w /\ backend w' = backend w).
Proof.
  cbv zeta. split; [reflexivity |]. split; [reflexivity |].
  split; [reflexivity |]. intros w' <-. simpl.
  split; [apply lookup_insert_eq | split; reflexivity].
Qed.

(** C9: [updateUserProfile] for uid 'admin' throws 'Cannot update admin
    profile' and [deleteUserAccount] for a user with uid 'admin' throws
    'Cannot delete admin account'; in both cases the world (local storage,
    backend, call trace) is left exactly as it was. *)
Theorem C9_admin_account_protected (w : World B) (updates : ProfileUpdates) :
  updateUserProfile "admin" updates w =
    (Abrupt (Error "Cannot update admin profile"), w) /\
  deleteUserAccount {| user_uid := "admin" |} w =
    (Abrupt (Error "Cannot delete admin account"), w).
Proof. split; reflexivity. Qed.

End AuthProperties.

(** Registration against the store in memory: with the backend serving,
    and with the backend down. *)
Example register_online :
  fst (registerUser "asha@example.org" "secret" "Asha" "+91-1111111111"
         (SubmitSamples.online Memory.empty)) =
  Normal {| uid := "uid_asha@example.org"; name := "Asha";
            email := "asha@example.org"; phone := "+91-1111111111";
            role := citizen; profileImageUrl := None;
            createdAt := serverTimestamp; updatedAt := serverTimestamp |}.
Proof. vm_compute. reflexivity. Qed.

Example register_backend_down :
  fst (registerUser "asha@example.org" "secret" "Asha" "+91-1111111111"
         (SubmitSamples.online Memory.down)) =
  Abrupt (Error "Service temporarily unavailable. Operating in offline mode.").
Proof. vm_compute. reflexivity. Qed.

Example register_offline :
  fst (registerUser "asha@example.org" "secret" "Asha" "+91-1111111111"
         SubmitSamples.offline) =
  Normal {| uid := "offline_1700000000000"; name := "Asha";
            email := "asha@example.org"; phone := "+91-1111111111";
            role := citizen; profileImageUrl := None;
            createdAt := DateAt 1700000000000; updatedAt := DateAt 1700000000000 |}.
Proof. vm_compute. reflexivity. Qed.


(** ** Geolocation *)

Lemma getLocationName_ranchi (toFixed : JS.number -> nat -> string) :
  LocationService.getLocationName toFixed 23.35%float 85.31%float =
  "Near Ranchi, Jharkhand".
Proof. reflexivity. Qed.

(** C10: for every browser and every outcome of the position request, the
    promise of [getUserLocation] resolves. A result that carries an error
    has lat = lng = 0; without geolocation support and on a position error
    the result carries an error; on success the result has the device
    coordinates, the address computed from them, and no error. *)
Theorem C10_getUserLocation_resolves
  (toFixed : JS.number -> nat -> string)
  (navigator : LocationService.Navigator)
  (options : option LocationService.PositionOptions) :
  exists result,
    LocationService.getUserLocation toFixed navigator options = Normal result /\
    (is_Some (LocationService.error result) ->
       LocationService.lat result = 0%float /\
       LocationService.lng result = 0%float) /\
    match LocationService.geolocation navigator with
    | None => is_Some (LocationService.error result)
    | Some getCurrentPosition =>
        match getCurrentPosition (LocationService.defaultOptions options) with
        | LocationService.Position latitude longitude _ =>
            result =
              {| LocationService.address :=
                   LocationService.getLocationName toFixed latitude longitude;
                 LocationService.lat := latitude;
                 LocationService.lng := longitude;
                 LocationService.error := None |}
        | LocationService.PositionError _ =>
            is_Some (LocationService.error result)
        end
    end.
Proof.
  unfold LocationService.getUserLocation.
  destruct (LocationService.geolocation navigator) as [getCurrentPosition |].
  - destruct (getCurrentPosition (LocationService.defaultOptions options))
      as [latitude longitude accuracy | c].
    + eexists. split; [reflexivity |]. split; [| reflexivity].
      simpl. intros [m Hm]. discriminate.
    + eexists. split; [reflexivity |].
      unfold LocationService.onPositionError.
      destruct (c =? LocationService.PERMISSION_DENIED)%nat;
        [| destruct (c =? LocationService.POSITION_UNAVAILABLE)%nat;
           [| destruct (c =? LocationService.TIMEOUT)%nat]];
        simpl; (split; [intros _; split; reflexivity | eexists; reflexivity]).
  - eexists. split; [reflexivity |]. simpl.
    split; [intros _; split; reflexivity | eexists; reflexivity].
Qed.

(** ** Issue submission *)

Section SubmitProperties.

Context {B : Type} {sdk : FirebaseSdk B}.

Import IssueReportForm.



(** The race, by cases. *)
Lemma raceUpload_run (env : SubmitEnv) (file : File) (p : Page B) :
  raceUpload env file p =
  let evs := (events p ++ [UploadRaced file UPLOAD_TIMEOUT])%list in
  let w := world p in
  let path := imagePath (now w) file in
  match uploadTiming env with
  | SettlesInTime =>
      (fst (uploadImage file w), mkPage (form p) (snd (uploadImage file w)) evs)
  | UploadBytesPending =>
      (Abrupt (Error "Image upload timeout"),
       mkPage (form p) (called w (backend w) [UploadBytes path]) evs)
  | GetDownloadURLPending =>
      match uploadBytes path file (backend w) with
      | (Normal _, b1) =>
          (Abrupt (Error "Image upload timeout"),
           mkPage (form p) (called w b1 [UploadBytes path; GetDownloadURL path]) evs)
      | (Abrupt e, b1) =>
          (Abrupt e, mkPage (form p) (called w b1 [UploadBytes path]) evs)
      end
  end.
Proof.
  unfold raceUpload, emit, service, pending, bind, gets, modify, throw, called.
  simpl. destruct (uploadTiming env); simpl.
  - destruct (uploadImage file (world p)); reflexivity.
  - reflexivity.
  - rewrite call_unfold. simpl.
    destruct (uploadBytes _ file (backend (world p))) as [[[] | e] b1]; simpl;
      rewrite <- ?app_assoc; reflexivity.
Qed.

Lemma uploadImage_run (file : File) (w : World B) :
  uploadImage file w =
  let path := imagePath (now w) file in
  match uploadBytes path file (backend w) with
  | (Normal _, b1) =>
      (fst (getDownloadURL path b1),
       called w (snd (getDownloadURL path b1)) [UploadBytes path; GetDownloadURL path])
  | (Abrupt e, b1) => (Abrupt e, called w b1 [UploadBytes path])
  end.
Proof.
  unfold uploadImage, bind, gets, called. simpl. rewrite call_unfold.
  destruct (uploadBytes _ file (backend w)) as [[[] | e] b1]; simpl; [| reflexivity].
  rewrite call_unfold. simpl. rewrite <- app_assoc. reflexivity.
Qed.

(** What every race does: one event, [uploadBytes] called first, no
    document added, the form and the browser left alone. *)
Lemma raceUpload_facts (env : SubmitEnv) (file : File) (p : Page B) :
  let p1 := snd (raceUpload env file p) in
  form p1 = form p /\
  events p1 = (events p ++ [UploadRaced file UPLOAD_TIMEOUT])%list /\
  isFirebaseAvailable (world p1) = isFirebaseAvailable (world p) /\
  exists cs,
    calls (world p1) =
      (calls (world p) ++ UploadBytes (imagePath (now (world p)) file) :: cs)%list /\
    forallb (fun c => negb (isAddDoc c)) cs = true.
Proof.
  cbv zeta. rewrite raceUpload_run. cbv zeta.
  destruct (uploadTiming env).
  - rewrite uploadImage_run. cbv zeta.
    destruct (uploadBytes _ file (backend (world p))) as [[[] | e] b1]; simpl;
      repeat split; eexists; split; reflexivity.
  - simpl. repeat split. eexists. split; reflexivity.
  - destruct (uploadBytes _ file (backend (world p))) as [[[] | e] b1]; simpl;
      repeat split; eexists; split; reflexivity.
Qed.

(** The upload step, by cases: it does not throw. *)
Lemma uploadStep_run (env : SubmitEnv) (f : FormState) (p : Page B) :
  uploadStep env f p =
  match selectedImage f with
  | None => (Normal (None, false), p)
  | Some file =>
      if isFirebaseAvailable (world p) then
        match raceUpload env file p with
        | (Normal url, p1) => (Normal (Some url, false), p1)
        | (Abrupt _, p1) =>
            (Normal (None, true),
             mkPage (setError MSG_UPLOAD_FAILED (form p1)) (world p1) (events p1))
        end
      else (Normal (Some (imageUrl f), false), p)
  end.
Proof.
  unfold uploadStep. destruct (selectedImage f) as [file |]; [| reflexivity].
  unfold bind, service, gets, tryCatch, ret, setState, modify. simpl.
  destruct p as [pf pw pe]. simpl.
  destruct (isFirebaseAvailable pw); [| reflexivity].
  destruct (raceUpload env file _) as [[url | e] p1]; reflexivity.
Qed.

(** The rest of the submission, by cases. *)
Lemma submitStep_run (currentUser : UserProfile) (env : SubmitEnv)
  (f : FormState) (url : option string) (failed : bool) (p : Page B) :
  submitStep currentUser env f url failed p =
  let asked := failed && hasImage f in
  let evs := (events p ++ (if asked then [Confirm MSG_CONFIRM (confirmAnswer env)] else []))%list in
  if asked && negb (confirmAnswer env) then
    (Normal tt, mkPage (setError MSG_CANCELLED (setLoading false (form p))) (world p) evs)
  else
    let data := issueDataOf currentUser f url in
    match addIssue data (world p) with
    | (Normal _, w') =>
        (Normal tt,
         mkPage (form p) w'
           (evs ++ [AddIssueCalled data] ++
            (if failed then [Alert MSG_SUBMITTED_WITHOUT_IMAGE] else []) ++
            [OnCancel]))
    | (Abrupt e, w') =>
        (Abrupt e, mkPage (form p) w' (evs ++ [AddIssueCalled data]))
    end.
Proof.
  unfold submitStep, confirm, emit, service, setState, bind, modify, ret.
  destruct p as [pf pw pe]. simpl.
  destruct (failed && hasImage f) eqn:Hask; simpl.
  - destruct (confirmAnswer env); simpl; [| reflexivity].
    destruct (addIssue _ pw) as [[docId | e] w']; [| reflexivity].
    destruct failed; simpl; rewrite <- ?app_assoc; reflexivity.
  - rewrite app_nil_r.
    destruct (addIssue _ pw) as [[docId | e] w']; [| reflexivity].
    destruct failed; simpl; rewrite <- ?app_assoc; reflexivity.
Qed.

Lemma handleSubmit_run (currentUser : UserProfile) (env : SubmitEnv) (p : Page B) :
  handleSubmit currentUser env p =
  if requiredFieldMissing (form p) then
    (Normal tt, mkPage (setError MSG_REQUIRED (form p)) (world p) (events p))
  else
    match uploadStep env (form p) (started p) with
    | (Normal uploaded, p1) =>
        match submitStep currentUser env (form p) (fst uploaded) (snd uploaded) p1 with
        | (Normal _, p2) =>
            (Normal tt, mkPage (setLoading false (form p2)) (world p2) (events p2))
        | (Abrupt err, p2) =>
            (Normal tt,
             mkPage (setLoading false
                       (setError (JS.or_else (message err) MSG_SUBMIT_FAILED) (form p2)))
                    (world p2) (events p2))
        end
    | (Abrupt err, p1) =>
        (Normal tt,
         mkPage (setLoading false
                   (setError (JS.or_else (message err) MSG_SUBMIT_FAILED) (form p1)))
                (world p1) (events p1))
    end.
Proof.
  unfold handleSubmit, bind, gets, setState, modify, tryFinally, tryCatch, started.
  destruct p as [pf pw pe]. simpl.
  destruct (requiredFieldMissing pf); [reflexivity |].
  destruct (uploadStep env pf _) as [[uploaded | err] p1]; [| reflexivity].
  destruct (submitStep _ _ _ _ _ p1) as [[[] | err] p2]; reflexivity.
Qed.


Lemma addIssue_run (data : IssueData) (w : World B) :
  addIssue data w =
  if isFirebaseAvailable w then
    (fst (addDoc_issues (newIssueDoc data) (backend w)),
     mkWorld (isFirebaseAvailable w) (now w) (localStorage w)
             (snd (addDoc_issues (newIssueDoc data) (backend w)))
             (calls w ++ [AddDoc "issues" (newIssueDoc data)]))
  else (Abrupt (Error "Firebase not available"), w).
Proof.
  unfold addIssue, bind, gets, tryCatch, throw. simpl.
  destruct (isFirebaseAvailable w) eqn:Hav; simpl; [| reflexivity].
  rewrite call_unfold, Hav.
  destruct (addDoc_issues (newIssueDoc data) (backend w)) as [[docId | e] b'];
    reflexivity.
Qed.

Lemma uploadImage_calls (file : File) (w : World B) :
  exists cs,
    calls (snd (uploadImage file w)) = (calls w ++ cs)%list /\
    forallb (fun c => negb (isAddDoc c)) cs = true.
Proof.
  unfold uploadImage, bind, gets. simpl. rewrite call_unfold.
  destruct (uploadBytes _ file (backend w)) as [[[] | e] b1]; simpl.
  - rewrite call_unfold. simpl. rewrite <- app_assoc.
    eexists. split; reflexivity.
  - eexists. split; reflexivity.
Qed.






End SubmitProperties.



(** The upload times out and the user accepts: the report goes out
    without the image. *)
Example submit_without_image :
  let p := SubmitSamples.page (SubmitSamples.filled (Some SubmitSamples.photo))
             (SubmitSamples.online Memory.empty) in
  let p' := snd (IssueReportForm.handleSubmit SubmitSamples.asha
                   SubmitSamples.slowAndAccepted p) in
  map IssueReportForm.isAddIssue (IssueReportForm.events p') =
    [false; false; true; false; false] /\
  map (fun d => (doc_status d, doc_imageUrl d, doc_imageUploadFailed d))
      (map snd (App.documents (backend (IssueReportForm.world p')))) =
    [("reported", None, true)].
Proof. vm_compute. split; reflexivity. Qed.


(** ** Issue statuses *)

Lemma isIssueStatus_iff (s : string) :
  isIssueStatus s = true <-> exists st : IssueStatus, statusString st = s.
Proof.
  unfold isIssueStatus. rewrite !orb_true_iff, !String.eqb_eq. split.
  - intros [[[-> | ->] | ->] | ->];
      [exists reported | exists acknowledged | exists in_progress | exists resolved];
      reflexivity.
  - intros [[] <-]; simpl; tauto.
Qed.

Lemma statusSelectItems_valid (item : nat) (value : string) :
  App.statusSelectItems !! item = Some value -> App.validStatus value.
Proof.
  unfold App.statusSelectItems, App.validStatus.
  destruct item as [| [| [| [| item]]]]; simpl; intros H;
    try discriminate; injection H as <-; reflexivity.
Qed.

(** *** The store in memory *)

Lemma request_issues {A : Type}
  (op : Memory.Backend -> Completion A * Memory.Backend) (b : Memory.Backend) :
  (forall b0, Memory.issues (snd (op b0)) = Memory.issues b0) ->
  Memory.issues (snd (Memory.request op b)) = Memory.issues b.
Proof.
  intros Hop. unfold Memory.request.
  destruct (Memory.faults b (Memory.served b)); simpl; [reflexivity |].
  now rewrite Hop.
Qed.

Lemma updateIssue_memory (issueId : string) (updates : IssueUpdates)
  (w : World Memory.Backend) :
  (exists d,
     fst (updateIssue issueId updates w) = Normal tt /\
     Memory.issues (backend w) !! issueId = Some d /\
     Memory.issues (backend (snd (updateIssue issueId updates w))) =
       <[issueId := Memory.mergeIssue d updates]> (Memory.issues (backend w))) \/
  ((exists e, fst (updateIssue issueId updates w) = Abrupt e) /\
   Memory.issues (backend (snd (updateIssue issueId updates w))) =
     Memory.issues (backend w)).
Proof.
  unfold updateIssue, bind, gets, throw. simpl.
  destruct (isFirebaseAvailable w); simpl; [| right; split; [eexists |]; reflexivity].
  rewrite call_unfold. simpl. unfold Memory.request.
  destruct (Memory.faults (backend w) (Memory.served (backend w))) as [e |]; simpl.
  - right. split; [eexists |]; reflexivity.
  - unfold Memory.updateIssueDoc. simpl.
    destruct (Memory.issues (backend w) !! issueId) as [d |] eqn:Hd; simpl.
    + left. exists d. repeat split; reflexivity.
    + right. split; [eexists |]; reflexivity.
Qed.

Lemma addIssue_memory (data : IssueData) (w : World Memory.Backend) :
  (exists docId,
     fst (addIssue data w) = Normal docId /\
     Memory.issues (backend w) !! docId = None /\
     Memory.issues (backend (snd (addIssue data w))) =
       <[docId := newIssueDoc data]> (Memory.issues (backend w))) \/
  ((exists e, fst (addIssue data w) = Abrupt e) /\
   Memory.issues (backend (snd (addIssue data w))) = Memory.issues (backend w)).
Proof.
  rewrite addIssue_run.
  destruct (isFirebaseAvailable w); simpl; [| right; split; [eexists |]; reflexivity].
  unfold Memory.request.
  destruct (Memory.faults (backend w) (Memory.served (backend w))) as [e |]; simpl.
  - right. split; [eexists |]; reflexivity.
  - left. eexists. split; [reflexivity |]. split; [| reflexivity].
    apply not_elem_of_dom. apply is_fresh.
Qed.

Lemma uploadImage_memory (file : File) (w : World Memory.Backend) :
  Memory.issues (backend (snd (IssueReportForm.uploadImage file w))) =
  Memory.issues (backend w).
Proof.
  unfold IssueReportForm.uploadImage, bind, gets. simpl.
  rewrite call_unfold. simpl.
  destruct (Memory.request _ (backend w)) as [[[] | e] b1] eqn:H1; simpl.
  - rewrite call_unfold. simpl.
    rewrite request_issues.
    + change b1 with (snd (Normal (), b1)). rewrite <- H1.
      now apply request_issues.
    + intros b0. now destruct (Memory.blobs b0 !! _).
  - change b1 with (snd (@Abrupt unit e, b1)). rewrite <- H1.
    now apply request_issues.
Qed.

(** *** The handlers, by cases *)

Section HandlerRuns.

Context {B : Type} {sdk : FirebaseSdk B}.

Lemma update_then_notify (issueId : string) (updates : IssueUpdates)
  (s : App.System B) :
  tryCatch (bind (App.service (updateIssue issueId updates))
                 (fun _ => App.onUpdateIssue issueId updates))
           (fun _ => ret tt) s =
  (Normal tt,
   App.mkSystem (snd (updateIssue issueId updates (App.world s)))
     match fst (updateIssue issueId updates (App.world s)) with
     | Normal _ => App.handleUpdateIssue issueId updates (App.issues s)
     | Abrupt _ => App.issues s
     end
     (App.vendors s) (App.settings s)).
Proof.
  unfold tryCatch, bind, App.service, App.onUpdateIssue, modify, ret.
  destruct (updateIssue issueId updates (App.world s)) as [[[] | e] w'];
    reflexivity.
Qed.

Lemma handleEditSave_run (issue : Issue) (e : App.DetailsEdit) (s : App.System B) :
  App.handleEditSave issue e s =
  (Normal tt,
   if JS.falsy (App.details_title e) || JS.falsy (App.details_description e) ||
      JS.falsy (App.details_category e)
   then s
   else App.mkSystem (snd (updateIssue (id issue) (App.detailsUpdate e) (App.world s)))
                     (App.issues s) (App.vendors s) (App.settings s)).
Proof.
  unfold App.handleEditSave.
  destruct (JS.falsy (App.details_title e) || JS.falsy (App.details_description e) ||
            JS.falsy (App.details_category e)); [reflexivity |].
  unfold tryCatch, App.service, ret.
  destruct (updateIssue _ _ (App.world s)) as [[[] | err] w']; reflexivity.
Qed.

Lemma handleSaveEdit_run (issueId : string) (s : App.System B) :
  let st := App.settings s in
  let e := App.editData st in
  App.handleSaveEdit issueId s =
  (Normal tt,
   if JS.falsy (App.edit_title e) || JS.falsy (App.edit_description e) ||
      JS.falsy (App.edit_category e)
   then App.mkSystem (App.world s) (App.issues s) (App.vendors s)
          (App.withError "Please fill in all required fields" st)
   else
     App.mkSystem (snd (updateIssue issueId (App.editUpdate e) (App.world s)))
       (App.issues s) (App.vendors s)
       match fst (updateIssue issueId (App.editUpdate e) (App.world s)) with
       | Normal _ =>
           App.mkSettings (App.allIssues st)
             (App.handleUpdateIssue issueId (App.editUpdate e) (App.citizenIssues st))
             None e false ""
       | Abrupt _ =>
           App.mkSettings (App.allIssues st) (App.citizenIssues st)
             (App.editingIssue st) e false
             "Failed to update issue. Please try again."
       end).
Proof.
  cbv zeta. unfold App.handleSaveEdit, bind, gets. simpl.
  destruct (JS.falsy (App.edit_title _) || JS.falsy (App.edit_description _) ||
            JS.falsy (App.edit_category _)); [reflexivity |].
  unfold tryFinally, tryCatch, App.service, App.setSettings, modify, bind. simpl.
  destruct (updateIssue _ _ (App.world s)) as [[[] | err] w']; reflexivity.
Qed.

End HandlerRuns.

(** *** What the actions do to the store *)

Section StoreEffects.

Variables (okU : IssueUpdates -> Prop) (okC : IssueDoc -> Prop).

Lemma update_effect (issueId : string) (updates : IssueUpdates)
  (w : World Memory.Backend) :
  okU updates ->
  App.StoreEffect okU okC (Memory.issues (backend w))
    (Memory.issues (backend (snd (updateIssue issueId updates w)))).
Proof.
  intros Hok.
  destruct (updateIssue_memory issueId updates w) as [[d [_ [Hd ->]]] | [_ ->]].
  - now apply App.Merged.
  - apply App.NoEffect.
Qed.

Lemma add_effect (data : IssueData) (w : World Memory.Backend) :
  okC (newIssueDoc data) ->
  App.StoreEffect okU okC (Memory.issues (backend w))
    (Memory.issues (backend (snd (addIssue data w)))).
Proof.
  intros Hok.
  destruct (addIssue_memory data w) as [[docId [_ [Hd ->]]] | [_ ->]].
  - now apply App.Created.
  - apply App.NoEffect.
Qed.

Lemma effect_valid (m m' : gmap string IssueDoc) :
  App.StoreEffect okU okC m m' ->
  (forall updates value, okU updates -> set_status updates = Some value ->
                         App.validStatus value) ->
  (forall d, okC d -> App.validStatus (doc_status d)) ->
  (forall docId d, m !! docId = Some d -> App.validStatus (doc_status d)) ->
  forall docId d, m' !! docId = Some d -> App.validStatus (doc_status d).
Proof.
  intros Heff HU HC Hm docId d'.
  destruct Heff as [| k d updates Hok Hk | k d Hok Hk].
  - apply Hm.
  - rewrite lookup_insert. case_decide as Hdec.
    + intros [= <-]. simpl.
      destruct (set_status updates) as [value |] eqn:Hs; simpl.
      * now apply (HU updates).
      * now apply (Hm k).
    + apply Hm.
  - rewrite lookup_insert. case_decide as Hdec.
    + intros [= <-]. now apply HC.
    + apply Hm.
Qed.

End StoreEffects.

Lemma effect_transition (a : App.Action) (m m' : gmap string IssueDoc) :
  App.StoreEffect (App.okUpdate a) (App.okCreate a) m m' ->
  (forall docId d, m !! docId = Some d -> App.validStatus (doc_status d)) ->
  forall docId d', m' !! docId = Some d' ->
                   App.statusTransition a (m !! docId) d'.
Proof.
  intros Heff Hm docId d'.
  destruct Heff as [| k d updates Hok Hk | k d [Hsub Hrep] Hk].
  - intros H. rewrite H. now left.
  - rewrite lookup_insert. case_decide as Hdec.
    + subst k. intros [= <-]. rewrite Hk. simpl.
      destruct a; simpl in Hok; try contradiction.
      * left. now rewrite Hok.
      * right. destruct Hok as [value [-> Hv]]. simpl. now repeat split.
      * left. now rewrite Hok.
      * right. rewrite Hok. simpl. now repeat split.
      * right. destruct Hok as [value [-> Hv]]. simpl. now repeat split.
    + intros H. rewrite H. now left.
  - rewrite lookup_insert. case_decide as Hdec.
    + subst k. intros [= <-]. rewrite Hk. simpl. now split.
    + intros H. rewrite H. now left.
Qed.

Lemma uploadBytes_memory (path : string) (file : File) (b : Memory.Backend) :
  Memory.issues (snd (uploadBytes path file b)) = Memory.issues b.
Proof. simpl. now apply request_issues. Qed.

Lemma uploadStep_memory (env : IssueReportForm.SubmitEnv)
  (f : IssueReportForm.FormState) (p : IssueReportForm.Page Memory.Backend) :
  Memory.issues (backend (IssueReportForm.world (snd (IssueReportForm.uploadStep env f p)))) =
  Memory.issues (backend (IssueReportForm.world p)).
Proof.
  rewrite uploadStep_run.
  destruct (IssueReportForm.selectedImage f) as [file |]; [| reflexivity].
  destruct (isFirebaseAvailable (IssueReportForm.world p)); [| reflexivity].
  rewrite raceUpload_run. cbv zeta.
  destruct (IssueReportForm.uploadTiming env).
  - simpl. pose proof (uploadImage_memory file (IssueReportForm.world p)) as H.
    destruct (IssueReportForm.uploadImage file (IssueReportForm.world p))
      as [[url | e] w1]; exact H.
  - reflexivity.
  - pose proof (uploadBytes_memory
                  (IssueReportForm.imagePath (now (IssueReportForm.world p)) file) file
                  (backend (IssueReportForm.world p))) as H.
    destruct (uploadBytes _ file _) as [[[] | e] b1]; exact H.
Qed.

Lemma submit_effect (okU : IssueUpdates -> Prop) (okC : IssueDoc -> Prop)
  (currentUser : UserProfile) (env : IssueReportForm.SubmitEnv)
  (p : IssueReportForm.Page Memory.Backend) :
  (forall d, doc_status d = "reported" -> okC d) ->
  App.StoreEffect okU okC
    (Memory.issues (backend (IssueReportForm.world p)))
    (Memory.issues (backend (IssueReportForm.world
       (snd (IssueReportForm.handleSubmit currentUser env p))))).
Proof.
  intros HC. rewrite handleSubmit_run.
  destruct (IssueReportForm.requiredFieldMissing (IssueReportForm.form p));
    [apply App.NoEffect |].
  pose proof (uploadStep_memory env (IssueReportForm.form p)
                (IssueReportForm.started p)) as Hup.
  destruct (IssueReportForm.uploadStep env (IssueReportForm.form p)
              (IssueReportForm.started p)) as [[uploaded | err] p1];
    simpl in Hup; [| simpl; rewrite Hup; apply App.NoEffect].
  rewrite submitStep_run. cbv zeta.
  destruct (_ && negb _); [simpl; rewrite Hup; apply App.NoEffect |].
  pose proof (add_effect okU okC
                (IssueReportForm.issueDataOf currentUser (IssueReportForm.form p)
                   (fst uploaded))
                (IssueReportForm.world p1)) as Hadd.
  assert (Hok : okC (newIssueDoc
                       (IssueReportForm.issueDataOf currentUser
                          (IssueReportForm.form p) (fst uploaded))))
    by (apply HC; reflexivity).
  specialize (Hadd Hok).
  rewrite Hup in Hadd.
  destruct (addIssue _ (IssueReportForm.world p1)) as [[docId | e] w2];
    exact Hadd.
Qed.

(** *** The lists on the screen *)

Lemma handleUpdateIssue_valid (issueId : string) (updates : IssueUpdates)
  (l : list Issue) :
  (forall value, set_status updates = Some value -> App.validStatus value) ->
  (forall issue, In issue l -> App.validStatus (status issue)) ->
  forall issue, In issue (App.handleUpdateIssue issueId updates l) ->
                App.validStatus (status issue).
Proof.
  intros HU Hl issue. unfold App.handleUpdateIssue. rewrite in_map_iff.
  intros [old [<- Hin]].
  destruct (String.eqb (id old) issueId); [| now apply Hl].
  simpl. destruct (set_status updates) as [value |]; simpl.
  - now apply HU.
  - now apply Hl.
Qed.

Lemma insertByDate_In (x y : Issue) (l : list Issue) :
  In y (App.insertByDate x l) -> y = x \/ In y l.
Proof.
  induction l as [| z l IH]; simpl.
  - intros [<- | []]. now left.
  - destruct (reportedAt z <? reportedAt x)%N; simpl.
    + intros [<- | H]; [now left | now right].
    + intros [<- | H]; [right; now left |].
      destruct (IH H) as [-> | Hin]; [now left | right; now right].
Qed.

Lemma sortByDate_In (y : Issue) (l : list Issue) :
  In y (App.sortByDate l) -> In y l.
Proof.
  unfold App.sortByDate.
  assert (G : forall acc, In y (fold_left (fun sorted x => App.insertByDate x sorted) l acc) ->
                          In y acc \/ In y l).
  { induction l as [| x l IH]; simpl; intros acc H.
    - now left.
    - destruct (IH _ H) as [Hacc | Hl].
      + destruct (insertByDate_In _ _ _ Hacc) as [-> | Hin]; [right; now left | now left].
      + right. now right. }
  intros H. destruct (G [] H) as [[] | Hl]. exact Hl.
Qed.

Lemma snapshot_valid (t : N) (b : Memory.Backend) :
  (forall docId d, Memory.issues b !! docId = Some d -> App.validStatus (doc_status d)) ->
  forall issue, In issue (map (App.issueOfDoc t) (App.documents b)) ->
                App.validStatus (status issue).
Proof.
  intros Hm issue. rewrite in_map_iff. intros [[docId d] [<- Hin]].
  simpl. apply (Hm docId). apply elem_of_map_to_list.
  now apply list_elem_of_In.
Qed.

Lemma handleAssignVendor_run {B : Type} {sdk : FirebaseSdk B}
  (issueId vendorId : string) (s : App.System B) :
  exists vendorName,
    App.handleAssignVendor issueId vendorId s =
    (Normal tt,
     App.mkSystem
       (snd (updateIssue issueId (App.vendorUpdate vendorName) (App.world s)))
       match fst (updateIssue issueId (App.vendorUpdate vendorName) (App.world s)) with
       | Normal _ =>
           App.handleUpdateIssue issueId (App.vendorUpdate vendorName) (App.issues s)
       | Abrupt _ => App.issues s
       end
       (App.vendors s) (App.settings s)).
Proof.
  eexists. unfold App.handleAssignVendor.
  unfold tryCatch, bind, gets, App.service, App.onUpdateIssue, modify, ret.
  destruct (updateIssue issueId _ (App.world s)) as [[[] | e] w'] eqn:Hup;
    rewrite Hup; reflexivity.
Qed.

Section StepProperties.

Context {js : JS.Engine}.

Lemma step_sound (a : App.Action) (s : App.System Memory.Backend) :
  App.Valid s ->
  App.Valid (App.step App.documents a s) /\
  App.StoreEffect (App.okUpdate a) (App.okCreate a)
    (App.store s) (App.store (App.step App.documents a s)).
Proof.
  intros [Hst Hiss Hall Hlist Hedit].
  assert (Hgen : forall s',
            App.StoreEffect (App.okUpdate a) (App.okCreate a) (App.store s) (App.store s') ->
            (forall updates value, App.okUpdate a updates ->
                                   set_status updates = Some value -> App.validStatus value) ->
            forall docId d, App.store s' !! docId = Some d -> App.validStatus (doc_status d)).
  { intros s' Heff HU. apply (effect_valid _ _ _ _ Heff HU); [| exact Hst].
    intros d [_ ->]. reflexivity. }
  unfold App.step. destruct a; simpl.
  - (* CitizenSubmits *)
    pose proof (submit_effect (App.okUpdate (App.CitizenSubmits currentUser env form))
                  (App.okCreate (App.CitizenSubmits currentUser env form))
                  currentUser env (IssueReportForm.mkPage form (App.world s) [])) as Heff.
    simpl in Heff.
    destruct (IssueReportForm.handleSubmit currentUser env _) as [r page']. simpl in *.
    assert (Heff' := Heff (fun d H => conj eq_refl H)).
    split; [| exact Heff'].
    constructor; simpl; try assumption.
    apply (Hgen (App.mkSystem (IssueReportForm.world page') (App.issues s)
                   (App.vendors s) (App.settings s)) Heff').
    intros updates value [].
  - (* CitizenSavesEdit *)
    rewrite handleEditSave_run. simpl.
    destruct (JS.falsy _ || JS.falsy _ || JS.falsy _).
    + split; [now constructor | apply App.NoEffect].
    + assert (Heff : App.StoreEffect (App.okUpdate (App.CitizenSavesEdit issue e))
                       (App.okCreate (App.CitizenSavesEdit issue e)) (App.store s)
                       (Memory.issues (backend (snd (updateIssue (id issue)
                          (App.detailsUpdate e) (App.world s))))))
        by (apply update_effect; reflexivity).
      split; [| exact Heff].
      constructor; simpl; try assumption.
      apply (Hgen (App.mkSystem _ (App.issues s) (App.vendors s) (App.settings s)) Heff).
      intros updates value Hok Hs. simpl in Hok. congruence.
  - (* AdminSelectsStatus *)
    destruct (App.statusSelectItems !! item) as [value |] eqn:Hitem; simpl.
    + unfold App.handleStatusUpdate. rewrite update_then_notify. simpl.
      pose proof (statusSelectItems_valid _ _ Hitem) as Hv.
      assert (Heff : App.StoreEffect (App.okUpdate (App.AdminSelectsStatus issueId item))
                       (App.okCreate (App.AdminSelectsStatus issueId item)) (App.store s)
                       (Memory.issues (backend (snd (updateIssue issueId
                          (App.statusUpdate value) (App.world s))))))
        by (apply update_effect; exists value; now split).
      split; [| exact Heff].
      constructor; simpl; try assumption.
      * apply (Hgen (App.mkSystem _ (App.issues s) (App.vendors s) (App.settings s)) Heff).
        intros updates v [v' [Hs Hv']] Hs'. congruence.
      * destruct (fst (updateIssue _ _ _)); [| assumption].
        apply handleUpdateIssue_valid; [| assumption].
        intros v [= <-]. exact Hv.
    + split; [now constructor | apply App.NoEffect].
  - (* AdminAssigns *)
    unfold App.handleAssignmentUpdate. rewrite update_then_notify. simpl.
    assert (Heff : App.StoreEffect (App.okUpdate (App.AdminAssigns issueId assignee))
                     (App.okCreate (App.AdminAssigns issueId assignee)) (App.store s)
                     (Memory.issues (backend (snd (updateIssue issueId
                        (App.assignmentUpdate assignee) (App.world s))))))
      by (apply update_effect; reflexivity).
    split; [| exact Heff].
    constructor; simpl; try assumption.
    + apply (Hgen (App.mkSystem _ (App.issues s) (App.vendors s) (App.settings s)) Heff).
      intros updates v Hok Hs. simpl in Hok. congruence.
    + destruct (fst (updateIssue _ _ _)); [| assumption].
      apply handleUpdateIssue_valid; [| assumption].
      intros v [=].
  - (* AdminAssignsVendor *)
    destruct (handleAssignVendor_run issueId vendorId s) as [vendorName ->]. simpl.
    assert (Heff : App.StoreEffect (App.okUpdate (App.AdminAssignsVendor issueId vendorId))
                     (App.okCreate (App.AdminAssignsVendor issueId vendorId)) (App.store s)
                     (Memory.issues (backend (snd (updateIssue issueId
                        (App.vendorUpdate vendorName) (App.world s))))))
      by (apply update_effect; reflexivity).
    split; [| exact Heff].
    constructor; simpl; try assumption.
    + apply (Hgen (App.mkSystem _ (App.issues s) (App.vendors s) (App.settings s)) Heff).
      intros updates v Hok Hs. simpl in Hok. rewrite Hok in Hs. now injection Hs as <-.
    + destruct (fst (updateIssue _ _ _)); [| assumption].
      apply handleUpdateIssue_valid; [| assumption].
      intros v [= <-]. reflexivity.
  - (* AdminSearchesCitizen *)
    split; [| unfold App.handleSearchCitizen;
              destruct (JS.falsy _); [apply App.NoEffect |];
              destruct (negb _); [apply App.NoEffect |];
              unfold bind, gets, App.setSettings, modify; simpl;
              destruct (_ =? 0)%nat; apply App.NoEffect].
    unfold App.handleSearchCitizen.
    destruct (JS.falsy _); [now constructor |].
    destruct (negb _); [now constructor |].
    unfold bind, gets, App.setSettings, modify; simpl.
    destruct (_ =? 0)%nat; simpl; constructor; simpl; try assumption.
    + intros issue [].
    + intros issue Hin. apply sortByDate_In in Hin.
      apply filter_In in Hin. apply Hall, Hin.
  - (* AdminOpensEdit *)
    unfold bind, gets. simpl.
    destruct (App.citizenIssues (App.settings s) !! row) as [issue |] eqn:Hrow; simpl.
    + split; [| apply App.NoEffect].
      constructor; simpl; try assumption.
      intros issueId _. apply Hlist.
      apply list_elem_of_In. eapply list_elem_of_lookup_2. exact Hrow.
    + split; [now constructor | apply App.NoEffect].
  - (* AdminTypesEdit *)
    split; [| apply App.NoEffect]. now constructor.
  - (* AdminPicksEditStatus *)
    destruct (App.statusSelectItems !! item) as [value |] eqn:Hitem; simpl.
    + split; [| apply App.NoEffect].
      pose proof (statusSelectItems_valid _ _ Hitem) as Hv.
      destruct (App.editingIssue (App.settings s)) eqn:Hed;
        constructor; simpl; try assumption.
      * intros issueId _. exact Hv.
      * rewrite Hed. discriminate.
    + split; [now constructor | apply App.NoEffect].
  - (* AdminSavesEdit *)
    unfold bind, gets. simpl.
    destruct (App.editingIssue (App.settings s)) as [issueId |] eqn:Hed; simpl.
    + pose proof (Hedit issueId eq_refl) as Hv.
      rewrite handleSaveEdit_run. cbv zeta. simpl.
      destruct (JS.falsy _ || JS.falsy _ || JS.falsy _).
      * split; [| apply App.NoEffect]. constructor; simpl; try assumption.
        intros i _. exact Hv.
      * assert (Heff : App.StoreEffect (App.okUpdate App.AdminSavesEdit)
                         (App.okCreate App.AdminSavesEdit) (App.store s)
                         (Memory.issues (backend (snd (updateIssue issueId
                            (App.editUpdate (App.editData (App.settings s))) (App.world s))))))
          by (apply update_effect; eexists; split; [reflexivity | exact Hv]).
        split; [| exact Heff].
        constructor; simpl; try assumption.
        -- apply (Hgen (App.mkSystem _ (App.issues s) (App.vendors s) (App.settings s)) Heff).
           intros updates v [v' [Hs Hv']] Hs'. congruence.
        -- destruct (fst (updateIssue _ _ _)); simpl; assumption.
        -- destruct (fst (updateIssue _ _ _)); simpl; [| assumption].
           apply handleUpdateIssue_valid; [| assumption].
           intros v [= <-]. exact Hv.
        -- destruct (fst (updateIssue _ _ _)); simpl; [discriminate |].
           intros i _. exact Hv.
    + split; [| apply App.NoEffect]. constructor; simpl; try assumption.
      intros i Hi. congruence.
  - (* AdminCancelsEdit *)
    split; [| apply App.NoEffect]. constructor; simpl; try assumption. discriminate.
  - (* SnapshotArrives *)
    destruct (isFirebaseAvailable (App.world s));
      (split; [| apply App.NoEffect]); constructor; simpl; try assumption.
    now apply snapshot_valid.
  - (* SettingsSnapshotArrives *)
    destruct (isFirebaseAvailable (App.world s));
      (split; [| apply App.NoEffect]); constructor; simpl; try assumption.
    now apply snapshot_valid.
Qed.

(** *** What the actions do when the backend serves *)

Lemma request_serving {A : Type}
  (op : Memory.Backend -> Completion A * Memory.Backend) (b : Memory.Backend) :
  Memory.serving b ->
  Memory.request op b = op (Memory.tick b).
Proof. intros H. unfold Memory.request. now rewrite (H (Memory.served b)). Qed.

Lemma updateIssue_serving (issueId : string) (updates : IssueUpdates)
  (w : World Memory.Backend) (d : IssueDoc) :
  isFirebaseAvailable w = true -> Memory.serving (backend w) ->
  Memory.issues (backend w) !! issueId = Some d ->
  fst (updateIssue issueId updates w) = Normal tt /\
  Memory.issues (backend (snd (updateIssue issueId updates w))) =
    <[issueId := Memory.mergeIssue d updates]> (Memory.issues (backend w)).
Proof.
  intros Hav Hserving Hd. unfold updateIssue, bind, gets. simpl. rewrite Hav. simpl.
  rewrite call_unfold. simpl. rewrite (request_serving _ _ Hserving).
  unfold Memory.updateIssueDoc. simpl. rewrite Hd. simpl. now split.
Qed.

Lemma addIssue_serving (data : IssueData) (w : World Memory.Backend) :
  isFirebaseAvailable w = true -> Memory.serving (backend w) ->
  Memory.issues (backend (snd (addIssue data w))) =
    <[fresh (dom (Memory.issues (backend w))) := newIssueDoc data]>
      (Memory.issues (backend w)).
Proof.
  intros Hav Hserving. rewrite addIssue_run, Hav. simpl.
  rewrite (request_serving _ _ Hserving). reflexivity.
Qed.

Lemma uploadImage_serving (file : File) (w : World Memory.Backend) :
  Memory.serving (backend w) ->
  exists url w1,
    IssueReportForm.uploadImage file w = (Normal url, w1) /\
    Memory.serving (backend w1).
Proof.
  intros Hserving. rewrite uploadImage_run. cbv zeta. simpl.
  rewrite (request_serving _ _ Hserving). simpl.
  assert (Hnext : Memory.serving
            (Memory.withBlobs
               (<[IssueReportForm.imagePath (now w) file := file]>
                  (Memory.blobs (Memory.tick (backend w))))
               (Memory.tick (backend w))))
    by (intros n; apply Hserving).
  rewrite (request_serving _ _ Hnext). simpl. rewrite lookup_insert_eq. simpl.
  do 2 eexists. split; [reflexivity |]. intros n. apply Hserving.
Qed.

Lemma uploadStep_serving (env : IssueReportForm.SubmitEnv)
  (f : IssueReportForm.FormState) (p : IssueReportForm.Page Memory.Backend) :
  Memory.serving (backend (IssueReportForm.world p)) ->
  let out := IssueReportForm.uploadStep env f p in
  Memory.serving (backend (IssueReportForm.world (snd out))) /\
  isFirebaseAvailable (IssueReportForm.world (snd out)) =
    isFirebaseAvailable (IssueReportForm.world p) /\
  exists uploaded,
    fst out = Normal uploaded /\
    (snd uploaded = true ->
     IssueReportForm.uploadTiming env <> IssueReportForm.SettlesInTime).
Proof.
  intros Hserving. cbv zeta. rewrite uploadStep_run.
  destruct (IssueReportForm.selectedImage f) as [file |];
    [| split; [exact Hserving |]; split; [reflexivity |];
       eexists; split; [reflexivity | discriminate]].
  destruct (isFirebaseAvailable (IssueReportForm.world p)) eqn:Hav;
    [| split; [exact Hserving |]; split; [exact Hav |];
       eexists; split; [reflexivity | discriminate]].
  rewrite raceUpload_run. cbv zeta.
  destruct (IssueReportForm.uploadTiming env).
  - destruct (uploadImage_serving file (IssueReportForm.world p) Hserving)
      as [url [w1 [Hup Hs1]]].
    pose proof (uploadImage_run file (IssueReportForm.world p)) as Hrun.
    cbv zeta in Hrun. rewrite Hup in Hrun. rewrite Hup. simpl.
    split; [exact Hs1 |]. split.
    + destruct (uploadBytes _ file _) as [[[] | e] b1]; [| discriminate].
      injection Hrun as _ ->. exact Hav.
    + eexists. split; [reflexivity | discriminate].
  - simpl. split; [exact Hserving |]. split; [exact Hav |].
    eexists. split; [reflexivity | discriminate].
  - simpl uploadBytes. rewrite (request_serving _ _ Hserving). simpl.
    split; [intros n; apply Hserving |]. split; [exact Hav |].
    eexists. split; [reflexivity | discriminate].
Qed.

(** A submission that is not called off adds one document. *)
Lemma submit_serving (currentUser : UserProfile) (env : IssueReportForm.SubmitEnv)
  (p : IssueReportForm.Page Memory.Backend) :
  IssueReportForm.requiredFieldMissing (IssueReportForm.form p) = false ->
  isFirebaseAvailable (IssueReportForm.world p) = true ->
  Memory.serving (backend (IssueReportForm.world p)) ->
  IssueReportForm.selectedImage (IssueReportForm.form p) = None \/
  IssueReportForm.uploadTiming env = IssueReportForm.SettlesInTime \/
  IssueReportForm.confirmAnswer env = true ->
  exists url,
    Memory.issues (backend (IssueReportForm.world
       (snd (IssueReportForm.handleSubmit currentUser env p)))) =
    <[fresh (dom (Memory.issues (backend (IssueReportForm.world p)))) :=
        newIssueDoc (IssueReportForm.issueDataOf currentUser (IssueReportForm.form p) url)]>
      (Memory.issues (backend (IssueReportForm.world p))).
Proof.
  intros Hreq Hav Hserving Hgo. rewrite handleSubmit_run, Hreq.
  pose proof (uploadStep_memory env (IssueReportForm.form p)
                (IssueReportForm.started p)) as Hmem.
  destruct (uploadStep_serving env (IssueReportForm.form p)
              (IssueReportForm.started p) Hserving)
    as [Hs1 [Hav1 [uploaded [Hup Hfail]]]].
  destruct (IssueReportForm.uploadStep env (IssueReportForm.form p)
              (IssueReportForm.started p)) as [r1 p1].
  simpl in Hmem, Hs1, Hav1, Hup, Hfail. subst r1.
  simpl in Hav1. rewrite Hav in Hav1.
  rewrite submitStep_run. cbv zeta.
  assert (Hasked : snd uploaded && IssueReportForm.hasImage (IssueReportForm.form p) &&
                   negb (IssueReportForm.confirmAnswer env) = false).
  { destruct (snd uploaded) eqn:Hu; [| reflexivity].
    specialize (Hfail eq_refl).
    destruct Hgo as [Hnone | [Hin | Hyes]].
    - unfold IssueReportForm.hasImage. now rewrite Hnone.
    - contradiction.
    - rewrite Hyes. apply andb_false_r. }
  rewrite Hasked.
  exists (fst uploaded).
  pose proof (addIssue_serving
                (IssueReportForm.issueDataOf currentUser (IssueReportForm.form p)
                   (fst uploaded))
                (IssueReportForm.world p1) Hav1 Hs1) as Hadd.
  rewrite Hmem in Hadd.
  destruct (addIssue _ (IssueReportForm.world p1)) as [[docId | e] w2]; exact Hadd.
Qed.

(** C6: in the application over the document store, started from a state
    whose statuses are all among 'reported', 'acknowledged', 'in-progress'
    and 'resolved', every action keeps it so, in the store and on the
    screen, and so does every sequence of actions. A document that appears
    comes from the citizen's submission form and has status 'reported'; the
    status of an existing document changes only by an administrator's
    status update, to one of the four values, and a vendor assignment sets
    it to 'in-progress'. When the backend is available and rejects nothing,
    these things do happen: a complete submission that is not called off
    adds one document, with status 'reported'; for an existing document, a
    vendor assignment sets the status to 'in-progress' and the assignee to
    the vendor's name, a status selected by the administrator becomes the
    status, and an assignment sets the assignee and keeps the status. *)
Theorem C6_status_domain_and_transitions
  (s : App.System Memory.Backend) (a : App.Action) :
  App.Valid s ->
  let s' := App.step App.documents a s in
  App.Valid s' /\
  (forall docId d',
     App.store s' !! docId = Some d' ->
     App.statusTransition a (App.store s !! docId) d') /\
  (forall l, App.Valid (App.steps App.documents l s)) /\
  (isFirebaseAvailable (App.world s) = true ->
   Memory.serving (backend (App.world s)) ->
   match a with
   | App.CitizenSubmits currentUser env form =>
       IssueReportForm.requiredFieldMissing form = false ->
       IssueReportForm.selectedImage form = None \/
       IssueReportForm.uploadTiming env = IssueReportForm.SettlesInTime \/
       IssueReportForm.confirmAnswer env = true ->
       exists docId d,
         App.store s !! docId = None /\
         App.store s' = <[docId := d]> (App.store s) /\
         doc_status d = "reported" /\
         doc_title d = IssueReportForm.title form /\
         doc_reportedBy d = email currentUser
   | App.AdminAssignsVendor issueId vendorId =>
       forall d, App.store s !! issueId = Some d ->
       exists d',
         App.store s' = <[issueId := d']> (App.store s) /\
         doc_status d' = "in-progress" /\
         doc_assignedTo d' =
           Some match List.find (fun v => String.eqb (vendor_id v) vendorId)
                                (App.vendors s) with
                | Some vendor => vendor_name vendor
                | None => "Vendor-" +:+ vendorId
                end
   | App.AdminSelectsStatus issueId item =>
       forall d value,
         App.store s !! issueId = Some d ->
         App.statusSelectItems !! item = Some value ->
       exists d',
         App.store s' = <[issueId := d']> (App.store s) /\
         doc_status d' = value /\ doc_assignedTo d' = doc_assignedTo d
   | App.AdminAssigns issueId assignee =>
       forall d, App.store s !! issueId = Some d ->
       exists d',
         App.store s' = <[issueId := d']> (App.store s) /\
         doc_status d' = doc_status d /\ doc_assignedTo d' = Some assignee
   | _ => True
   end).
Proof.
  intros Hvalid. cbv zeta. destruct (step_sound a s Hvalid) as [Hnext Heff].
  split; [exact Hnext |]. split; [| split].
  - apply effect_transition; [exact Heff | apply Hvalid].
  - intros l. clear Hnext Heff. revert s Hvalid.
    induction l as [| a0 l IH]; intros s Hvalid; simpl; [exact Hvalid |].
    apply IH. apply (step_sound a0 s Hvalid).
  - intros Hav Hserving. unfold App.step, App.store. destruct a; try exact I; simpl.
    + (* CitizenSubmits *)
      intros Hreq Hgo.
      destruct (submit_serving currentUser env
                  (IssueReportForm.mkPage form (App.world s) []) Hreq Hav Hserving Hgo)
        as [url Hadd]. simpl in Hadd.
      destruct (IssueReportForm.handleSubmit currentUser env _) as [r page'].
      simpl in *. do 2 eexists. split; [| split; [exact Hadd |]].
      * apply not_elem_of_dom. apply is_fresh.
      * repeat split.
    + (* AdminSelectsStatus *)
      intros d value Hd Hitem. rewrite Hitem.
      unfold App.handleStatusUpdate. rewrite update_then_notify. simpl.
      destruct (updateIssue_serving issueId (App.statusUpdate value) (App.world s) d
                  Hav Hserving Hd) as [_ ->].
      eexists. split; [reflexivity |]. split; reflexivity.
    + (* AdminAssigns *)
      intros d Hd.
      unfold App.handleAssignmentUpdate. rewrite update_then_notify. simpl.
      destruct (updateIssue_serving issueId (App.assignmentUpdate assignee) (App.world s) d
                  Hav Hserving Hd) as [_ ->].
      eexists. split; [reflexivity |]. split; reflexivity.
    + (* AdminAssignsVendor *)
      intros d Hd. unfold App.handleAssignVendor.
      unfold tryCatch, bind, gets, App.service, App.onUpdateIssue, modify, ret.
      match goal with
      | |- context [updateIssue issueId (App.vendorUpdate ?n) (App.world s)] =>
          destruct (updateIssue_serving issueId (App.vendorUpdate n) (App.world s) d
                      Hav Hserving Hd) as [Hok Hstore];
          destruct (updateIssue issueId (App.vendorUpdate n) (App.world s))
            as [[[] | e] w'] eqn:Hup
      end; simpl in Hok, Hstore; [| discriminate].
      simpl. rewrite Hstore. eexists. split; [reflexivity |]. split; reflexivity.
Qed.

End StepProperties.

Lemma initial_valid (w : World Memory.Backend) :
  Memory.issues (backend w) = ∅ -> App.Valid (App.initial w).
Proof.
  intros Hempty. constructor; simpl.
  - intros docId d. unfold App.store. simpl. rewrite Hempty, lookup_empty. discriminate.
  - intros issue [].
  - intros issue [].
  - intros issue [].
  - discriminate.
Qed.

(** A submission on the empty store: the report is stored as the first
    document, with status 'reported'. *)
Lemma C6_witness :
  let s := App.initial (SubmitSamples.online Memory.empty) in
  let a := App.CitizenSubmits SubmitSamples.asha SubmitSamples.prompt
             (SubmitSamples.filled None) in
  App.Valid (App.step (js := JS.asciiEngine) App.documents a s) /\
  exists docId d,
    App.store (App.step (js := JS.asciiEngine) App.documents a s) =
      <[docId := d]> (App.store s) /\
    doc_status d = "reported".
Proof.
  cbv zeta.
  assert (H : App.Valid (App.initial (SubmitSamples.online Memory.empty)))
    by (apply initial_valid; reflexivity).
  pose proof (C6_status_domain_and_transitions (js := JS.asciiEngine)
                (App.initial (SubmitSamples.online Memory.empty))
                (App.CitizenSubmits SubmitSamples.asha SubmitSamples.prompt
                   (SubmitSamples.filled None)) H) as C.
  cbv zeta in C. destruct C as [Hnext [_ [_ Hlive]]].
  split; [exact Hnext |].
  destruct (Hlive eq_refl (fun n => eq_refl) eq_refl (or_introl eq_refl))
    as [docId [d [_ [Hstore [Hstatus _]]]]].
  exists docId, d. split; [exact Hstore | exact Hstatus].
Defined.

(** A submission followed by a vendor assignment, run on the store. *)
Example submit_then_assign :
  let s := App.steps (js := JS.asciiEngine) App.documents
             [App.CitizenSubmits SubmitSamples.asha SubmitSamples.prompt
                (SubmitSamples.filled None);
              App.AdminAssignsVendor "0" "v3"]
             (App.initial (SubmitSamples.online Memory.empty)) in
  option_map doc_status (App.store s !! "0") = Some "in-progress" /\
  option_map doc_assignedTo (App.store s !! "0") = Some (Some "Vendor-v3").
Proof. vm_compute. split; reflexivity. Qed.

(** * Further properties *)

(** ** Sessions *)

Section SessionProperties.

Context {B : Type} {sdk : FirebaseSdk B}.

Local Arguments String.eqb : simpl never.

(** X1: whatever the credentials and the world, a profile that
    [signInUser] returns is the one it has put in local storage under the
    session key, and a sign-in that throws leaves local storage as it
    was. *)
Theorem signIn_stores_the_session (email0 password : string) (w : World B) :
  match signInUser email0 password w with
  | (Normal profile, w') =>
      localStorage w' = <[USER_KEY := profile]> (localStorage w)
  | (Abrupt _, w') => localStorage w' = localStorage w
  end.
Proof.
  unfold signInUser.
  destruct (String.eqb email0 "admin" && String.eqb password "admin");
    [reflexivity |].
  unfold bind, gets, tryCatch, throw, ret, localStorage_setItem, modify. simpl.
  destruct (isFirebaseAvailable w); simpl.
  - rewrite call_unfold.
    destruct (signInWithEmailAndPassword email0 password (backend w))
      as [[user | e] b1]; simpl; [| reflexivity].
    rewrite call_unfold. simpl.
    destruct (getDoc_users (user_uid user) b1) as [[[profile |] | e] b2];
      reflexivity.
  - destruct (String.eqb _ email0 && String.eqb _ password); reflexivity.
Qed.

(** X2: without the backend, [signInUser] makes no SDK call and succeeds
    exactly for the built-in administrator and the demo account; every
    other pair of credentials is refused with the 'Invalid credentials'
    error. *)
Theorem signIn_offline (email0 password : string) (w : World B) :
  isFirebaseAvailable w = false ->
  let out := signInUser email0 password w in
  calls (snd out) = calls w /\ backend (snd out) = backend w /\
  ((exists profile, fst out = Normal profile) <->
   (email0 = "admin" /\ password = "admin") \/
   (email0 = "demo@vikasitjharkhand.gov.in" /\ password = "demo123")) /\
  ((forall profile, fst out <> Normal profile) ->
   fst out = Abrupt (Error "Invalid credentials. Try demo@vikasitjharkhand.gov.in / demo123 or register a new account.")).
Proof.
  intros Hav. cbv zeta. unfold signInUser.
  destruct (String.eqb email0 "admin" && String.eqb password "admin") eqn:Hadmin.
  - apply andb_true_iff in Hadmin. destruct Hadmin as [He Hp].
    apply String.eqb_eq in He, Hp. subst. simpl.
    repeat split; try reflexivity.
    + intros _. now left.
    + intros _. eexists. reflexivity.
    + intros H. exfalso. eapply H. reflexivity.
  - unfold bind, gets, tryCatch, throw, ret, localStorage_setItem, modify.
    simpl. rewrite Hav. simpl.
    destruct (String.eqb "demo@vikasitjharkhand.gov.in" email0 &&
              String.eqb "demo123" password) eqn:Hdemo; simpl.
    + apply andb_true_iff in Hdemo. destruct Hdemo as [He Hp].
      apply String.eqb_eq in He, Hp. subst.
      repeat split; try reflexivity.
      * intros _. now right.
      * intros _. eexists. reflexivity.
      * intros H. exfalso. eapply H. reflexivity.
    + repeat split; try reflexivity.
      * intros [profile H]. discriminate.
      * intros [[-> ->] | [-> ->]]; simpl in *; discriminate.
Qed.

(** X3: on the backend path, when the credentials are accepted but the
    "users" collection has no document for the user, [signInUser] throws
    'User profile not found' and leaves local storage as it was. *)
Theorem signIn_without_profile (email0 password : string) (w : World B)
  (user : User) (b1 b2 : B) :
  String.eqb email0 "admin" && String.eqb password "admin" = false ->
  isFirebaseAvailable w = true ->
  signInWithEmailAndPassword email0 password (backend w) = (Normal user, b1) ->
  getDoc_users (user_uid user) b1 = (Normal None, b2) ->
  fst (signInUser email0 password w) = Abrupt (Error "User profile not found") /\
  localStorage (snd (signInUser email0 password w)) = localStorage w.
Proof.
  intros Hadmin Hav Hs Hg. unfold signInUser. rewrite Hadmin.
  unfold bind, gets, tryCatch, throw. simpl. rewrite Hav. simpl.
  rewrite call_unfold, Hs. simpl. rewrite call_unfold. simpl. rewrite Hg.
  split; reflexivity.
Qed.

(** X4: after a registration without the backend, local storage holds the
    returned profile as the session. When App is started again without
    the backend, its mount effect throws the error of [subscribeToIssues],
    so that no snapshot ever clears [loading]. When it is started with the
    backend and the same local storage, it restores that profile, shows
    the loading screen until a snapshot arrives, and the citizen screen
    after it. *)
Theorem register_offline_then_restore
  (email0 password name0 phone0 : string) (w : World B) :
  isFirebaseAvailable w = false ->
  exists profile w',
    registerUser email0 password name0 phone0 w = (Normal profile, w') /\
    Session.checkExistingSession w' = Some profile /\
    Session.mount w' = Abrupt (Error "Firebase not available") /\
    forall w2 : World B,
      localStorage w2 = localStorage w' -> isFirebaseAvailable w2 = true ->
      exists st,
        Session.mount w2 = Normal st /\
        Session.app_user st = Some profile /\
        Session.screen st = Session.LoadingScreen /\
        Session.screen (Session.onSnapshot st) = Session.CitizenScreen.
Proof.
  intros Hav. unfold registerUser, bind, gets, ret, localStorage_setItem, modify.
  simpl. rewrite Hav. simpl. eexists. eexists. split; [reflexivity |].
  unfold Session.checkExistingSession, Session.mount. simpl.
  rewrite lookup_insert_eq, Hav. split; [reflexivity |]. split; [reflexivity |].
  intros w2 Hstore Hav2. rewrite Hav2, Hstore, lookup_insert_eq.
  eexists. split; [reflexivity |]. split; [reflexivity |].
  split; [reflexivity |]. unfold Session.screen. simpl.
  destruct (decimal (now w)); reflexivity.
Qed.

(** X5: registration on the backend path never writes local storage, so
    the session that App restores after a restart is the one stored
    before, if any, not the profile just registered. *)
Theorem register_online_keeps_no_session
  (email0 password name0 phone0 : string) (w : World B) :
  isFirebaseAvailable w = true ->
  Session.checkExistingSession (snd (registerUser email0 password name0 phone0 w)) =
  Session.checkExistingSession w.
Proof.
  intros Hav. unfold registerUser, bind, gets, tryCatch, throw, ret.
  simpl. rewrite Hav. simpl. rewrite call_unfold.
  destruct (createUserWithEmailAndPassword email0 password (backend w))
    as [[user | e] b1]; simpl; [| reflexivity].
  rewrite call_unfold. simpl.
  destruct (updateProfile user name0 b1) as [[[] | e] b2]; simpl; [| reflexivity].
  rewrite call_unfold. simpl.
  destruct (setDoc_users (user_uid user) _ b2) as [[[] | e] b3]; reflexivity.
Qed.

(** X6: for a user other than the administrator, [updateUserProfile]
    either throws and leaves local storage as it was (so a rejected
    backend update is never applied locally), or returns with the stored
    profile, if there is one, overwritten by the updates and stamped with
    the current time; without a stored profile nothing is written. *)
Theorem updateUserProfile_all_or_nothing (uid0 : string)
  (updates : ProfileUpdates) (w : World B) :
  uid0 <> "admin" ->
  match updateUserProfile uid0 updates w with
  | (Abrupt _, w') =>
      isFirebaseAvailable w = true /\ localStorage w' = localStorage w
  | (Normal _, w') =>
      localStorage w' =
        match localStorage w !! USER_KEY with
        | Some profile =>
            <[USER_KEY := spreadProfile profile
                            (withUpdatedAt updates (DateAt (now w)))]>
              (localStorage w)
        | None => localStorage w
        end
  end.
Proof.
  intros Hne. unfold updateUserProfile.
  destruct (String.eqb uid0 "admin") eqn:Heq;
    [apply String.eqb_eq in Heq; contradiction |].
  unfold bind, gets, tryCatch, throw, updateStoredProfile, localStorage_getItem,
    localStorage_setItem, modify, ret, bind, gets. simpl.
  destruct (isFirebaseAvailable w); simpl.
  - rewrite call_unfold.
    destruct (updateDoc_users uid0 _ (backend w)) as [[[] | e] b1]; simpl.
    + destruct (localStorage w !! USER_KEY); reflexivity.
    + split; reflexivity.
  - destruct (localStorage w !! USER_KEY); reflexivity.
Qed.

(** X7: for a user other than the administrator, [deleteUserAccount]
    clears the session exactly when it returns. On the backend path the
    account is deleted only after the profile document: when deleting the
    document is rejected, [deleteUser] is not called. *)
Theorem deleteUserAccount_order (user : User) (w : World B) :
  user_uid user <> "admin" ->
  let out := deleteUserAccount user w in
  match fst out with
  | Normal _ => localStorage (snd out) = delete USER_KEY (localStorage w)
  | Abrupt _ => localStorage (snd out) = localStorage w
  end /\
  (isFirebaseAvailable w = false -> fst out = Normal tt /\ calls (snd out) = calls w) /\
  (isFirebaseAvailable w = true ->
   match fst (deleteDoc_users (user_uid user) (backend w)) with
   | Normal _ =>
       calls (snd out) =
         (calls w ++ [DeleteDoc "users" (user_uid user); DeleteUser user])%list
   | Abrupt _ =>
       calls (snd out) = (calls w ++ [DeleteDoc "users" (user_uid user)])%list /\
       exists e, fst out = Abrupt e
   end).
Proof.
  intros Hne. cbv zeta. unfold deleteUserAccount.
  destruct (String.eqb (user_uid user) "admin") eqn:Heq;
    [apply String.eqb_eq in Heq; contradiction |].
  unfold bind, gets, tryCatch, throw, localStorage_removeItem, modify. simpl.
  destruct (isFirebaseAvailable w); simpl.
  - rewrite call_unfold.
    destruct (deleteDoc_users (user_uid user) (backend w)) as [[[] | e] b1]; simpl.
    + rewrite call_unfold. simpl.
      destruct (deleteUser user b1) as [[[] | e] b2]; simpl;
        (split; [reflexivity |]); (split; [discriminate |]);
        intros _; rewrite <- app_assoc; reflexivity.
    + split; [reflexivity |]. split; [discriminate |].
      intros _. split; [reflexivity | eexists; reflexivity].
  - split; [reflexivity |]. split; [intros _; split; reflexivity | discriminate].
Qed.

Context {session : AuthSession B}.

(** X8: [signOut] never throws and always ends with the session key
    removed from local storage and every other key kept, whether the
    backend is available, whether a user is signed in, and whether the
    SDK's sign-out succeeds or rejects. [handleSignOut] of App does the
    same and leaves no user. *)
Theorem signOut_always_clears (w : World B) :
  fst (Session.signOut w) = Normal tt /\
  localStorage (snd (Session.signOut w)) = delete USER_KEY (localStorage w) /\
  Session.checkExistingSession (snd (Session.signOut w)) = None /\
  Session.handleSignOut w = (Normal None, snd (Session.signOut w)).
Proof.
  assert (Hout : fst (Session.signOut w) = Normal tt /\
                 localStorage (snd (Session.signOut w)) =
                   delete USER_KEY (localStorage w)).
  { unfold Session.signOut, tryFinally, tryCatch, bind, gets, ret,
      localStorage_removeItem, modify, Session.sessionCall. simpl.
    destruct (isFirebaseAvailable w && _); simpl; [| now split].
    destruct (firebaseSignOut (backend w)) as [[[] | e] b1]; simpl; now split. }
  destruct Hout as [Hret Hstore]. split; [exact Hret |]. split; [exact Hstore |].
  split.
  - unfold Session.checkExistingSession. rewrite Hstore. apply lookup_delete_eq.
  - unfold Session.handleSignOut, tryCatch, bind, ret.
    destruct (Session.signOut w) as [[[] | e] w']; simpl in *;
      [reflexivity | discriminate].
Qed.

End SessionProperties.

(** ** The properties at work *)

(** Without the backend the demo account signs in and no SDK call is
    made. *)
Lemma signIn_offline_witness :
  calls (snd (signInUser "demo@vikasitjharkhand.gov.in" "demo123"
                SubmitSamples.offline)) = [].
Proof.
  exact (proj1 (signIn_offline "demo@vikasitjharkhand.gov.in" "demo123"
                  SubmitSamples.offline eq_refl)).
Defined.

(** Ravi has an account but no profile document. *)
Lemma signIn_without_profile_witness :
  fst (signInUser "ravi@example.org" "secret" MoreSamples.orphan) =
  Abrupt (Error "User profile not found").
Proof.
  refine (proj1 (signIn_without_profile "ravi@example.org" "secret"
                   MoreSamples.orphan _ _ _ eq_refl eq_refl _ _)).
  - reflexivity.
  - reflexivity.
Defined.

(** Asha registers without the backend and opens the application again,
    still without the backend. *)
Lemma register_offline_then_restore_witness :
  Session.mount
    (snd (registerUser "asha@example.org" "secret" "Asha" "+91-1111111111"
            SubmitSamples.offline)) =
  Abrupt (Error "Firebase not available").
Proof.
  destruct (register_offline_then_restore "asha@example.org" "secret" "Asha"
              "+91-1111111111" SubmitSamples.offline eq_refl)
    as [profile [w' [Hr [_ [Hm _]]]]].
  rewrite Hr. exact Hm.
Defined.

(** Asha registers on the backend: no session is stored. *)
Lemma register_online_keeps_no_session_witness :
  Session.checkExistingSession
    (snd (registerUser "asha@example.org" "secret" "Asha" "+91-1111111111"
            (SubmitSamples.online Memory.empty))) = None.
Proof.
  exact (register_online_keeps_no_session "asha@example.org" "secret" "Asha"
           "+91-1111111111" (SubmitSamples.online Memory.empty) eq_refl).
Defined.

(** A profile update without the backend and without a stored session. *)
Lemma updateUserProfile_all_or_nothing_witness :
  localStorage (snd (updateUserProfile "u1" MoreSamples.renamed SubmitSamples.offline)) =
  localStorage SubmitSamples.offline.
Proof.
  refine (updateUserProfile_all_or_nothing "u1" MoreSamples.renamed
            SubmitSamples.offline _).
  discriminate.
Defined.

(** Deleting an account without the backend. *)
Lemma deleteUserAccount_order_witness :
  fst (deleteUserAccount MoreSamples.ashaUser SubmitSamples.offline) = Normal tt.
Proof.
  refine (proj1 (proj1 (proj2 (deleteUserAccount_order MoreSamples.ashaUser
                                 SubmitSamples.offline _)) eq_refl)).
  discriminate.
Defined.

(** ** Notifications *)

(** X9: [requestNotificationPermission] never rejects; its result is
    granted exactly when it carries no error, and then the browser's
    permission is 'granted'; the user is prompted only in a browser with
    notifications whose permission is still 'default', and at most
    once. *)
Theorem requestNotificationPermission_result (br : Notifications.Browser) :
  exists result,
    fst (Notifications.requestNotificationPermission br) = Normal result /\
    let br' := snd (Notifications.requestNotificationPermission br) in
    (Notifications.granted result = true <-> Notifications.error result = None) /\
    (Notifications.granted result = true ->
     Notifications.supported br' = true /\
     Notifications.permission br' = Notifications.PermissionGranted) /\
    Notifications.prompts br' =
      (if Notifications.supported br then
         match Notifications.permission br with
         | Notifications.PermissionDefault => S (Notifications.prompts br)
         | _ => Notifications.prompts br
         end
       else Notifications.prompts br).
Proof.
  unfold Notifications.requestNotificationPermission, Notifications.requestPermission,
    Notifications.isNotificationSupported, bind, gets, ret, tryCatch.
  destruct br as [sup perm outcome throws shown prompts storage]. simpl.
  destruct sup; simpl.
  - destruct perm; simpl.
    + eexists. split; [reflexivity |]. simpl. intuition congruence.
    + eexists. split; [reflexivity |]. simpl. intuition congruence.
    + destruct outcome as [[] | e]; simpl;
        (eexists; split; [reflexivity |]); simpl; intuition congruence.
  - eexists. split; [reflexivity |]. simpl. intuition congruence.
Qed.

(** X10: [showNotification] returns true exactly when the browser has
    notifications, the permission is 'granted' and constructing the
    notification does not throw; then exactly one notification is added,
    which closes by itself after 5000 ms unless [requireInteraction] was
    given as true, and in which every option given wins over its default
    (an empty tag stays empty). Otherwise it returns false and changes
    nothing. *)
Theorem showNotification_gate (title0 : string)
  (options : option Notifications.Options) (br : Notifications.Browser) :
  let out := Notifications.showNotification title0 options br in
  let ok := Notifications.supported br &&
            Notifications.isGranted (Notifications.permission br) &&
            negb (Notifications.constructorThrows br) in
  fst out = Normal ok /\
  if ok then
    exists n,
      Notifications.shown (snd out) = (Notifications.shown br ++ [n])%list /\
      Notifications.shown_title n = title0 /\
      (Notifications.closesAfter n =
         if Notifications.shown_requireInteraction n then None else Some 5000%N) /\
      (forall o t, options = Some o -> Notifications.tag o = Some t ->
                   Notifications.shown_tag n = t) /\
      (options ≫= Notifications.tag = None ->
       Notifications.shown_tag n = "vikasit-jharkhand")
  else snd out = br.
Proof.
  cbv zeta. unfold Notifications.showNotification, Notifications.isNotificationSupported,
    bind, gets, ret, modify.
  destruct br as [sup perm outcome throws shown prompts storage]. simpl.
  destruct sup; simpl; [| split; reflexivity].
  destruct perm; simpl; try (split; reflexivity).
  destruct throws; simpl; [split; reflexivity |].
  split; [reflexivity |]. eexists. split; [reflexivity |].
  split; [reflexivity |]. split; [reflexivity |]. split.
  - intros o t -> Ht. simpl. now rewrite Ht.
  - intros H. simpl. now rewrite H.
Qed.

Section PreferenceProperties.

Variable JSON_parse : string -> Completion bool.

Hypothesis parse_stringify :
  forall b, JSON_parse (Notifications.JSON_stringify b) = Normal b.

(** X11: the notification preference read back after it was stored is the
    value stored, for any [JSON.parse] that reads back the booleans that
    [JSON.stringify] writes; with nothing stored, or an empty or
    unreadable entry, the preference is false. *)
Theorem notification_preference_round_trip (enabled : bool)
  (br : Notifications.Browser) :
  Notifications.getNotificationPreference JSON_parse
    (snd (Notifications.setNotificationPreference enabled br)) = enabled /\
  (Notifications.storage br !! Notifications.PREFERENCE_KEY = None ->
   Notifications.getNotificationPreference JSON_parse br = false) /\
  (forall stored e,
     Notifications.storage br !! Notifications.PREFERENCE_KEY = Some stored ->
     JSON_parse stored = Abrupt e ->
     Notifications.getNotificationPreference JSON_parse br = false).
Proof.
  unfold Notifications.getNotificationPreference, Notifications.setNotificationPreference,
    modify. simpl. split; [| split].
  - rewrite lookup_insert_eq, parse_stringify. now destruct enabled.
  - intros ->. reflexivity.
  - intros stored e -> ->. now destruct (JS.truthy stored).
Qed.

(** X12: after [handleNotificationRequest] the stored preference is the
    outcome of the request, an alert text is passed on only when the
    request was not granted, and in a browser with notifications the
    controls that CitizenApp computes when it is opened again show
    notifications enabled exactly when the request was granted. *)
Theorem notification_request_then_reopen (br : Notifications.Browser)
  (c0 : Notifications.Controls) :
  exists c alert br',
    Notifications.handleNotificationRequest br = (Normal (c, alert), br') /\
    Notifications.getNotificationPreference JSON_parse br' =
      Notifications.notificationsEnabled c /\
    (Notifications.notificationsEnabled c = true -> alert = None) /\
    (Notifications.supported br = true ->
     Notifications.notificationsEnabled
       (Notifications.checkNotifications JSON_parse br' c0) =
     Notifications.notificationsEnabled c).
Proof.
  unfold Notifications.handleNotificationRequest, Notifications.checkNotifications,
    Notifications.getNotificationPermission, Notifications.getNotificationPreference,
    Notifications.requestNotificationPermission, Notifications.requestPermission,
    Notifications.setNotificationPreference, Notifications.isNotificationSupported,
    bind, gets, ret, tryCatch, modify.
  pose proof (parse_stringify true) as Pt. pose proof (parse_stringify false) as Pf.
  simpl in Pt, Pf.
  destruct br as [sup perm outcome throws shown prompts storage]. simpl.
  destruct sup; simpl.
  - destruct perm; simpl.
    + do 3 eexists. split; [reflexivity |]. simpl.
      rewrite lookup_insert_eq, Pt. simpl. auto.
    + do 3 eexists. split; [reflexivity |]. simpl.
      rewrite lookup_insert_eq, Pf. simpl.
      repeat split; try discriminate; auto.
    + destruct outcome as [[] | e]; simpl;
        do 3 eexists; (split; [reflexivity |]); simpl;
        rewrite lookup_insert_eq, ?Pt, ?Pf;
        simpl; repeat split; try discriminate; auto using andb_false_r.
  - do 3 eexists. split; [reflexivity |]. simpl.
    rewrite lookup_insert_eq, Pf. simpl.
    repeat split; try discriminate; auto.
Qed.

End PreferenceProperties.

Lemma parseBoolean_stringify (b : bool) :
  MoreSamples.parseBoolean (Notifications.JSON_stringify b) = Normal b.
Proof. destruct b; reflexivity. Qed.

(** The preference stored as enabled is read back as enabled. *)
Lemma notification_preference_round_trip_witness :
  Notifications.getNotificationPreference MoreSamples.parseBoolean
    (snd (Notifications.setNotificationPreference true MoreSamples.freshBrowser)) = true.
Proof.
  exact (proj1 (notification_preference_round_trip MoreSamples.parseBoolean
                  parseBoolean_stringify true MoreSamples.freshBrowser)).
Defined.

(** The user is asked and agrees. *)
Lemma notification_request_then_reopen_witness :
  exists c alert br',
    Notifications.handleNotificationRequest MoreSamples.freshBrowser =
      (Normal (c, alert), br') /\
    Notifications.getNotificationPreference MoreSamples.parseBoolean br' =
      Notifications.notificationsEnabled c.
Proof.
  destruct (notification_request_then_reopen MoreSamples.parseBoolean
              parseBoolean_stringify MoreSamples.freshBrowser
              {| Notifications.notificationsEnabled := false;
                 Notifications.showNotificationAlert := false |})
    as [c [alert [br' [Hrun [Hpref _]]]]].
  exists c, alert, br'. split; [exact Hrun | exact Hpref].
Defined.

(** ** Location and the inputs of the report form *)

Lemma app_not_empty_r (s t : string) : t <> "" -> s +:+ t <> "".
Proof. destruct s; simpl; [tauto | discriminate]. Qed.

Lemma getLocationName_not_empty (toFixed : JS.number -> nat -> string)
  (la lo : JS.number) :
  LocationService.getLocationName toFixed la lo <> "".
Proof.
  unfold LocationService.getLocationName.
  destruct (LocationService.nearestCity la lo LocationService.cities).
  - discriminate.
  - apply app_not_empty_r. discriminate.
Qed.

(** The two kinds of result of [getUserLocation]. *)
Lemma getUserLocation_cases (toFixed : JS.number -> nat -> string)
  (navigator : LocationService.Navigator)
  (options : option LocationService.PositionOptions) :
  exists result,
    LocationService.getUserLocation toFixed navigator options = Normal result /\
    ((exists e, LocationService.error result = Some e /\ JS.truthy e = true /\
                LocationService.lat result = 0%float /\
                LocationService.lng result = 0%float) \/
     (LocationService.error result = None /\
      LocationService.address result =
        LocationService.getLocationName toFixed (LocationService.lat result)
          (LocationService.lng result))).
Proof.
  unfold LocationService.getUserLocation.
  destruct (LocationService.geolocation navigator) as [g |].
  - destruct (g _) as [la lo acc | c].
    + eexists. split; [reflexivity |]. right. split; reflexivity.
    + eexists. split; [reflexivity |]. left.
      unfold LocationService.onPositionError.
      destruct (c =? LocationService.PERMISSION_DENIED)%nat;
        [| destruct (c =? LocationService.POSITION_UNAVAILABLE)%nat;
           [| destruct (c =? LocationService.TIMEOUT)%nat]];
        simpl; eexists; repeat split.
  - eexists. split; [reflexivity |]. left. eexists. repeat split.
Qed.

(** X13: [watchUserLocation] without geolocation returns no watch id and
    calls back once, with an error and the coordinates 0, 0. Otherwise it
    returns the watch id and calls back once per report, in order: a
    position gives the very result that [getUserLocation] resolves to for
    that position, and an error gives a result with an error message, the
    coordinates 0, 0 and the address 'Location unavailable'. *)
Theorem watchUserLocation_results (toFixed : JS.number -> nat -> string)
  (navigator : LocationWatch.Watcher)
  (options : option LocationService.PositionOptions) :
  let out := LocationWatch.watchUserLocation toFixed navigator options in
  match LocationWatch.watchPosition navigator with
  | None =>
      fst out = None /\
      exists r, snd out = [r] /\ is_Some (LocationService.error r) /\
                LocationService.lat r = 0%float /\ LocationService.lng r = 0%float
  | Some watch =>
      let reported := snd (watch (LocationService.defaultOptions options)) in
      fst out = Some (fst (watch (LocationService.defaultOptions options))) /\
      length (snd out) = length reported /\
      forall i outcome,
        reported !! i = Some outcome ->
        exists r,
          snd out !! i = Some r /\
          match outcome with
          | LocationService.Position _ _ _ =>
              LocationService.getUserLocation toFixed
                {| LocationService.geolocation := Some (fun _ => outcome) |}
                options = Normal r
          | LocationService.PositionError _ =>
              is_Some (LocationService.error r) /\
              LocationService.lat r = 0%float /\
              LocationService.lng r = 0%float /\
              LocationService.address r = "Location unavailable"
          end
  end.
Proof.
  cbv zeta. unfold LocationWatch.watchUserLocation.
  destruct (LocationWatch.watchPosition navigator) as [watch |].
  - destruct (watch (LocationService.defaultOptions options)) as [watchId outcomes].
    simpl. split; [reflexivity |]. split; [apply length_map |].
    intros i outcome Hi. rewrite list_lookup_fmap, Hi. simpl.
    eexists. split; [reflexivity |].
    destruct outcome as [la lo acc | c]; [reflexivity |].
    unfold LocationWatch.onWatchError. simpl. repeat split. eexists. reflexivity.
  - simpl. split; [reflexivity |]. eexists. split; [reflexivity |].
    simpl. repeat split. eexists. reflexivity.
Qed.

(** X14: after the location fetch that runs when the form opens, the
    location field is never empty, whatever the permission state and the
    outcome of the position request, so the required-field check then
    depends on title, description and category only. The coordinates are
    set only on success; on failure exactly one error timer of 1000 ms is
    started and the field holds a placeholder text; the fallback of the
    [catch] block is never taken. *)
Theorem fetchLocation_fills_location (toFixed : JS.number -> nat -> string)
  (perms : LocationWatch.Permissions) (navigator : LocationService.Navigator)
  (f : IssueReportForm.FormState) :
  let f' := fst (ReportInputs.fetchLocation toFixed perms navigator f) in
  let timers := snd (ReportInputs.fetchLocation toFixed perms navigator f) in
  IssueReportForm.location f' <> "" /\
  IssueReportForm.requiredFieldMissing f' =
    JS.falsy (IssueReportForm.title f) || JS.falsy (IssueReportForm.description f) ||
    JS.falsy (IssueReportForm.category f) /\
  match timers with
  | [] =>
      exists la lo,
        IssueReportForm.latLng f' = Some (la, lo) /\
        IssueReportForm.location f' = LocationService.getLocationName toFixed la lo /\
        IssueReportForm.error f' = ""
  | [timer] =>
      ReportInputs.delay timer = 1000%N /\
      IssueReportForm.latLng f' = IssueReportForm.latLng f /\
      IssueReportForm.error f' = IssueReportForm.error f /\
      (IssueReportForm.location f' = "Location permission denied - Enter manually" \/
       IssueReportForm.location f' = "Location unavailable - Enter manually")
  | _ => False
  end.
Proof.
  cbv zeta.
  unfold ReportInputs.fetchLocation, LocationWatch.requestLocationPermission.
  destruct (getUserLocation_cases toFixed navigator (Some ReportInputs.fetchOptions))
    as [result [Hres Hcase]].
  assert (Hsuccess_or_error :
    let out :=
      match LocationService.getUserLocation toFixed navigator
              (Some ReportInputs.fetchOptions) with
      | Normal result0 =>
          match LocationService.error result0 with
          | Some e =>
              if JS.truthy e then
                (ReportInputs.setLocation "Location unavailable - Enter manually" f,
                 [ {| ReportInputs.delay := 1000;
                      ReportInputs.errorText :=
                        "Location error: " +:+ e +:+
                        ". Please enter your address manually." |} ])
              else
                (IssueReportForm.setError ""
                   (ReportInputs.setLocation (LocationService.address result0)
                      (ReportInputs.setLatLng
                         (Some (LocationService.lat result0,
                                LocationService.lng result0)) f)), [])
          | None =>
              (IssueReportForm.setError ""
                 (ReportInputs.setLocation (LocationService.address result0)
                    (ReportInputs.setLatLng
                       (Some (LocationService.lat result0,
                              LocationService.lng result0)) f)), [])
          end
      | Abrupt _ =>
          (ReportInputs.setLocation "Enter manually" f,
           [ {| ReportInputs.delay := 1000;
                ReportInputs.errorText :=
                  "Unable to fetch location. Please enter manually or check your browser's location settings." |} ])
      end in
    IssueReportForm.location (fst out) <> "" /\
    IssueReportForm.requiredFieldMissing (fst out) =
      JS.falsy (IssueReportForm.title f) || JS.falsy (IssueReportForm.description f) ||
      JS.falsy (IssueReportForm.category f) /\
    match snd out with
    | [] =>
        exists la lo,
          IssueReportForm.latLng (fst out) = Some (la, lo) /\
          IssueReportForm.location (fst out) =
            LocationService.getLocationName toFixed la lo /\
          IssueReportForm.error (fst out) = ""
    | [timer] =>
        ReportInputs.delay timer = 1000%N /\
        IssueReportForm.latLng (fst out) = IssueReportForm.latLng f /\
        IssueReportForm.error (fst out) = IssueReportForm.error f /\
        (IssueReportForm.location (fst out) =
           "Location permission denied - Enter manually" \/
         IssueReportForm.location (fst out) =
           "Location unavailable - Enter manually")
    | _ => False
    end).
  { cbv zeta. rewrite Hres.
    destruct Hcase as [[e [He [Ht _]]] | [He Haddr]]; rewrite He; [rewrite Ht |]; simpl.
    - split; [discriminate |]. split.
      + unfold IssueReportForm.requiredFieldMissing. simpl. apply orb_false_r.
      + repeat split. now right.
    - pose proof (getLocationName_not_empty toFixed (LocationService.lat result)
                    (LocationService.lng result)) as Hne.
      rewrite <- Haddr in Hne.
      split; [exact Hne |]. split.
      + unfold IssueReportForm.requiredFieldMissing. simpl.
        destruct (LocationService.address result); [contradiction | simpl].
        apply orb_false_r.
      + exists (LocationService.lat result), (LocationService.lng result).
        repeat split. exact Haddr. }
  cbv zeta in Hsuccess_or_error.
  destruct (LocationWatch.permissions perms) as [[[] | e] |];
    try exact Hsuccess_or_error.
  simpl. split; [discriminate |]. split.
  - unfold IssueReportForm.requiredFieldMissing. simpl. apply orb_false_r.
  - repeat split. now left.
Qed.

(** X15: the "Use Current" button. When the position request fails, or
    the browser has no geolocation, the form gets the coordinates 0, 0
    and the text 'Enter manually', and an issue submitted from that form
    is not among the issues that the map shows; when it succeeds the form
    gets the device coordinates and the address computed from them. *)
Theorem useCurrent_failure_hides_from_map
  (toFixed : JS.number -> nat -> string)
  (navigator : LocationService.Navigator) (f : IssueReportForm.FormState)
  (currentUser : UserProfile) (url : option string) (t : N) (docId : string) :
  let f' := ReportInputs.useCurrentLocation toFixed navigator f in
  let issue :=
    App.issueOfDoc t
      (docId, newIssueDoc (IssueReportForm.issueDataOf currentUser f' url)) in
  exists result,
    LocationService.getUserLocation toFixed navigator
      (Some ReportInputs.useCurrentOptions) = Normal result /\
    match LocationService.error result with
    | Some e =>
        IssueReportForm.latLng f' = Some (0%float, 0%float) /\
        IssueReportForm.location f' = "Enter manually" /\
        IssueReportForm.error f' = e /\
        MapView.validIssues [issue] = []
    | None =>
        IssueReportForm.latLng f' =
          Some (LocationService.lat result, LocationService.lng result) /\
        IssueReportForm.location f' =
          LocationService.getLocationName toFixed (LocationService.lat result)
            (LocationService.lng result) /\
        IssueReportForm.error f' = ""
    end.
Proof.
  cbv zeta. unfold ReportInputs.useCurrentLocation.
  destruct (getUserLocation_cases toFixed navigator (Some ReportInputs.useCurrentOptions))
    as [result [Hres Hcase]].
  exists result. split; [exact Hres |]. rewrite Hres.
  destruct Hcase as [[e [He [Ht _]]] | [He Haddr]]; rewrite He; [rewrite Ht |]; simpl.
  - repeat split.
  - repeat split. exact Haddr.
Qed.

(** X16: an issue submitted from a form without coordinates (the location
    was typed in, or the position request failed) is stored with latitude
    and longitude 0 and adds nothing to the issues that the map shows,
    whatever its address. *)
Theorem no_coordinates_no_marker (currentUser : UserProfile)
  (f : IssueReportForm.FormState) (url : option string) (t : N) (docId : string) :
  IssueReportForm.latLng f = None \/
  IssueReportForm.latLng f = Some (0%float, 0%float) ->
  let issue :=
    App.issueOfDoc t
      (docId, newIssueDoc (IssueReportForm.issueDataOf currentUser f url)) in
  lat (location issue) = 0%float /\ lng (location issue) = 0%float /\
  forall others,
    MapView.validIssues (issue :: others) = MapView.validIssues others.
Proof.
  intros H. cbv zeta. destruct f as [t0 d0 c0 l0 ll i0 s0 r0 a0 lo0 e0].
  simpl in H.
  unfold MapView.validIssues, MapView.hasValidCoords. simpl.
  destruct H as [-> | ->]; simpl; repeat split.
Qed.

Section FormInputProperties.

Context {B : Type} {sdk : FirebaseSdk B}.

(** The races of one submission are for the image selected in the form. *)
Lemma handleSubmit_races (currentUser : UserProfile)
  (env : IssueReportForm.SubmitEnv) (p : IssueReportForm.Page B) :
  exists new,
    IssueReportForm.events (snd (IssueReportForm.handleSubmit currentUser env p)) =
      (IssueReportForm.events p ++ new)%list /\
    forall file t,
      In (IssueReportForm.UploadRaced file t) new ->
      IssueReportForm.selectedImage (IssueReportForm.form p) = Some file.
Proof.
  rewrite handleSubmit_run.
  destruct (IssueReportForm.requiredFieldMissing (IssueReportForm.form p)); simpl.
  { exists []. rewrite app_nil_r. split; [reflexivity | intros file t []]. }
  assert (Hup : exists new1,
            IssueReportForm.events
              (snd (IssueReportForm.uploadStep env (IssueReportForm.form p)
                      (IssueReportForm.started p))) =
              (IssueReportForm.events p ++ new1)%list /\
            (forall file t, In (IssueReportForm.UploadRaced file t) new1 ->
               IssueReportForm.selectedImage (IssueReportForm.form p) = Some file) /\
            exists u, fst (IssueReportForm.uploadStep env (IssueReportForm.form p)
                             (IssueReportForm.started p)) = Normal u).
  { rewrite uploadStep_run.
    destruct (IssueReportForm.selectedImage (IssueReportForm.form p)) as [file |] eqn:Himg.
    - simpl. destruct (isFirebaseAvailable (IssueReportForm.world p)).
      + destruct (raceUpload_facts env file (IssueReportForm.started p))
          as [_ [Hev _]].
        exists [IssueReportForm.UploadRaced file IssueReportForm.UPLOAD_TIMEOUT].
        destruct (IssueReportForm.raceUpload env file (IssueReportForm.started p))
          as [[url | e] [f1 w1 e1]]; simpl in *; subst e1;
          (split; [reflexivity |]);
          (split; [intros file0 t [[= <- <-] | []]; reflexivity | eexists; reflexivity]).
      + exists []. simpl. rewrite app_nil_r.
        split; [reflexivity |]. split; [intros ? ? [] | eexists; reflexivity].
    - exists []. simpl. rewrite app_nil_r.
      split; [reflexivity |]. split; [intros ? ? [] | eexists; reflexivity]. }
  destruct Hup as [new1 [Hev [Hrace [uploaded Hu]]]].
  destruct (IssueReportForm.uploadStep env (IssueReportForm.form p)
              (IssueReportForm.started p)) as [r1 p1]. simpl in *. subst r1.
  rewrite submitStep_run. cbv zeta. rewrite Hev.
  destruct (snd uploaded && IssueReportForm.hasImage (IssueReportForm.form p));
    destruct (IssueReportForm.confirmAnswer env); simpl;
    try (destruct (addIssue _ (IssueReportForm.world p1)) as [[docId | e] w2]; simpl);
    rewrite <- ?app_assoc; eexists; (split; [reflexivity |]);
    intros file t Hin; apply in_app_or in Hin; destruct Hin as [Hin | Hin];
    try (now apply (Hrace file t));
    simpl in Hin; destruct uploaded as [u []]; simpl in Hin;
    repeat (destruct Hin as [Hin | Hin]; [discriminate Hin |]); destruct Hin.
Qed.

(** X17: a file of more than 5 MB is refused: the image selected before
    stays selected, and a later submission uploads that earlier image, if
    any, and never the refused file. A file of exactly 5 MB is accepted,
    and accepting a file does not clear an error shown before. *)
Theorem oversized_image_is_never_uploaded (createObjectURL : File -> string)
  (p0 : ReportInputs.PickedFile) (currentUser : UserProfile)
  (env : IssueReportForm.SubmitEnv) (f : IssueReportForm.FormState)
  (w : World B) :
  let f' := ReportInputs.handleImageUpload createObjectURL (Some p0) f in
  ((ReportInputs.size p0 <= 5242880)%N ->
   IssueReportForm.selectedImage f' = Some (ReportInputs.picked p0) /\
   IssueReportForm.imageUrl f' = createObjectURL (ReportInputs.picked p0) /\
   IssueReportForm.error f' = IssueReportForm.error f) /\
  ((5242880 < ReportInputs.size p0)%N ->
   IssueReportForm.selectedImage f' = IssueReportForm.selectedImage f /\
   IssueReportForm.imageUrl f' = IssueReportForm.imageUrl f /\
   IssueReportForm.error f' = "Image size should be less than 5MB" /\
   forall file t,
     In (IssueReportForm.UploadRaced file t)
        (IssueReportForm.events
           (snd (IssueReportForm.handleSubmit currentUser env
                   (IssueReportForm.mkPage f' w [])))) ->
     IssueReportForm.selectedImage f = Some file).
Proof.
  cbv zeta. unfold ReportInputs.handleImageUpload, ReportInputs.MAX_IMAGE_BYTES.
  change (5 * 1024 * 1024)%N with 5242880%N.
  destruct (N.ltb_spec 5242880 (ReportInputs.size p0)) as [Hbig | Hok].
  - split; [intros H; lia |]. intros _. repeat split.
    intros file t Hin.
    destruct (handleSubmit_races currentUser env
                (IssueReportForm.mkPage
                   (IssueReportForm.setError "Image size should be less than 5MB" f) w []))
      as [new [Hev Hrace]].
    rewrite Hev in Hin. simpl in Hin. exact (Hrace file t Hin).
  - split; [intros _; repeat split | intros H; lia].
Qed.

(** X18: the record button. After [n] presses the form is recording
    exactly when [n] is odd (for a form that was not recording); the voice
    description is the fixed text 'Voice note recorded successfully' from
    the second press on and is never cleared again; a submission then
    carries that text as its audio description. No other field of the form
    changes. *)
Theorem voice_record_presses (n : nat) (f : IssueReportForm.FormState)
  (currentUser : UserProfile) (url : option string) :
  IssueReportForm.isRecording f = false ->
  let f' := Nat.iter n ReportInputs.handleVoiceRecord f in
  IssueReportForm.isRecording f' = Nat.odd n /\
  IssueReportForm.audioDescription f' =
    (if (2 <=? n)%nat then ReportInputs.VOICE_NOTE
     else IssueReportForm.audioDescription f) /\
  ((2 <= n)%nat ->
   data_audioDescription (IssueReportForm.issueDataOf currentUser f' url) =
     Some ReportInputs.VOICE_NOTE) /\
  IssueReportForm.title f' = IssueReportForm.title f /\
  IssueReportForm.description f' = IssueReportForm.description f /\
  IssueReportForm.category f' = IssueReportForm.category f /\
  IssueReportForm.location f' = IssueReportForm.location f /\
  IssueReportForm.latLng f' = IssueReportForm.latLng f /\
  IssueReportForm.selectedImage f' = IssueReportForm.selectedImage f.
Proof.
  intros Hrec. cbv zeta.
  assert (G : IssueReportForm.isRecording (Nat.iter n ReportInputs.handleVoiceRecord f) =
                Nat.odd n /\
              IssueReportForm.audioDescription (Nat.iter n ReportInputs.handleVoiceRecord f) =
                (if (2 <=? n)%nat then ReportInputs.VOICE_NOTE
                 else IssueReportForm.audioDescription f) /\
              IssueReportForm.title (Nat.iter n ReportInputs.handleVoiceRecord f) =
                IssueReportForm.title f /\
              IssueReportForm.description (Nat.iter n ReportInputs.handleVoiceRecord f) =
                IssueReportForm.description f /\
              IssueReportForm.category (Nat.iter n ReportInputs.handleVoiceRecord f) =
                IssueReportForm.category f /\
              IssueReportForm.location (Nat.iter n ReportInputs.handleVoiceRecord f) =
                IssueReportForm.location f /\
              IssueReportForm.latLng (Nat.iter n ReportInputs.handleVoiceRecord f) =
                IssueReportForm.latLng f /\
              IssueReportForm.selectedImage (Nat.iter n ReportInputs.handleVoiceRecord f) =
                IssueReportForm.selectedImage f).
  { induction n as [| n IH].
    - simpl. rewrite Hrec. repeat split.
    - destruct IH as [Hr [Ha Hrest]]. rewrite Nat.iter_succ.
      unfold ReportInputs.handleVoiceRecord at 1. simpl.
      rewrite Hr, Ha. split; [now rewrite Nat.odd_succ, <- Nat.negb_odd |].
      split; [| exact Hrest].
      destruct n as [| [| n]]; simpl; try reflexivity.
      now destruct (Nat.odd (S (S n))). }
  destruct G as [Hr [Ha Hrest]].
  split; [exact Hr |]. split; [exact Ha |]. split; [| exact Hrest].
  intros Hn. unfold IssueReportForm.issueDataOf. simpl. rewrite Ha.
  destruct (Nat.leb_spec 2 n) as [_ | Hlt]; [reflexivity | lia].
Qed.

(** X19: without the backend a submission that passes validation always
    fails: [addIssue] is invoked once, nothing is uploaded and no SDK call
    is made, the form shows 'Firebase not available' with [loading]
    cleared, and the form is not closed. *)
Theorem submit_offline_fails (currentUser : UserProfile)
  (env : IssueReportForm.SubmitEnv) (p : IssueReportForm.Page B) :
  IssueReportForm.requiredFieldMissing (IssueReportForm.form p) = false ->
  isFirebaseAvailable (IssueReportForm.world p) = false ->
  exists data,
    IssueReportForm.handleSubmit currentUser env p =
    (Normal tt,
     IssueReportForm.mkPage
       (IssueReportForm.setLoading false
          (IssueReportForm.setError "Firebase not available" (IssueReportForm.form p)))
       (IssueReportForm.world p)
       (IssueReportForm.events p ++ [IssueReportForm.AddIssueCalled data])) /\
    data_status data = "reported".
Proof.
  intros Hreq Hav. rewrite handleSubmit_run, Hreq, uploadStep_run.
  destruct (IssueReportForm.selectedImage (IssueReportForm.form p)) as [file |] eqn:Himg;
    simpl; rewrite ?Hav; rewrite submitStep_run; cbv zeta; simpl;
    rewrite addIssue_run, Hav; simpl; rewrite app_nil_r;
    eexists; (split; [reflexivity | reflexivity]).
Qed.

End FormInputProperties.

(** A report whose location was typed in is not on the map. *)
Lemma no_coordinates_no_marker_witness :
  MapView.validIssues
    [App.issueOfDoc 0%N
       ("i9", newIssueDoc (IssueReportForm.issueDataOf SubmitSamples.asha
                             SubmitSamples.untitled None))] = [].
Proof.
  exact (proj2 (proj2 (no_coordinates_no_marker SubmitSamples.asha
                         SubmitSamples.untitled None 0%N "i9" (or_introl eq_refl)))
           []).
Defined.

(** Three presses of the record button: recording again, with a voice
    note. *)
Lemma voice_record_presses_witness :
  IssueReportForm.isRecording
    (Nat.iter 3 ReportInputs.handleVoiceRecord ReportInputs.initialForm) = true /\
  IssueReportForm.audioDescription
    (Nat.iter 3 ReportInputs.handleVoiceRecord ReportInputs.initialForm) =
  "Voice note recorded successfully".
Proof.
  pose proof (voice_record_presses 3 ReportInputs.initialForm SubmitSamples.asha
                None eq_refl) as H.
  cbv zeta in H. destruct H as [Hrec [Hvoice _]]. split; [exact Hrec | exact Hvoice].
Defined.

(** A complete report submitted without the backend. *)
Lemma submit_offline_fails_witness :
  IssueReportForm.error
    (IssueReportForm.form
       (snd (IssueReportForm.handleSubmit SubmitSamples.asha SubmitSamples.prompt
               (SubmitSamples.page (SubmitSamples.filled None) SubmitSamples.offline)))) =
  "Firebase not available".
Proof.
  destruct (submit_offline_fails SubmitSamples.asha SubmitSamples.prompt
              (SubmitSamples.page (SubmitSamples.filled None) SubmitSamples.offline)
              eq_refl eq_refl) as [data [Hrun _]].
  rewrite Hrun. reflexivity.
Defined.

(** X20: the zoom buttons of the map keep the zoom level between 1 and
    18, for every sequence of presses from the initial level 12. *)
Theorem zoom_stays_in_range (presses : list MapView.ZoomButton) :
  (1 <= fold_left MapView.press presses MapView.initialZoom <= 18)%Z.
Proof.
  assert (G : forall z, (1 <= z <= 18)%Z ->
                        (1 <= fold_left MapView.press presses z <= 18)%Z).
  { induction presses as [| b presses IH]; intros z Hz; simpl; [exact Hz |].
    apply IH. destruct b; unfold MapView.press, MapView.zoomIn, MapView.zoomOut; lia. }
  apply G. unfold MapView.initialZoom. lia.
Qed.

(** ** The vendor forms *)

Lemma includes_comma_cons (c : ascii) (s : string) :
  JS.includes (String c s) "," = Ascii.eqb c "," || JS.includes s ",".
Proof.
  rewrite includes_cons. f_equal. simpl.
  destruct (Ascii.eqb c ","); [now destruct s | reflexivity].
Qed.

Lemma splitComma_not_nil (s : string) : VendorForms.splitComma s <> [].
Proof.
  induction s as [| c s IH]; simpl; [discriminate |].
  destruct (Ascii.eqb c ","); [discriminate |].
  destruct (VendorForms.splitComma s); discriminate.
Qed.

Lemma splitComma_whole (s : string) :
  JS.includes s "," = false -> VendorForms.splitComma s = [s].
Proof.
  induction s as [| c s IH]; [reflexivity |].
  rewrite includes_comma_cons. intros H. apply orb_false_iff in H.
  destruct H as [Hc Hs]. simpl. rewrite Hc, (IH Hs). reflexivity.
Qed.

Lemma splitComma_at_comma (s t : string) :
  JS.includes s "," = false ->
  VendorForms.splitComma (s +:+ String "," t) = s :: VendorForms.splitComma t.
Proof.
  induction s as [| c s IH]; [reflexivity |].
  rewrite includes_comma_cons. intros H. apply orb_false_iff in H.
  destruct H as [Hc Hs]. rewrite string_app_cons. simpl.
  rewrite Hc, (IH Hs). reflexivity.
Qed.

Lemma splitComma_pieces (s piece : string) :
  In piece (VendorForms.splitComma s) -> JS.includes piece "," = false.
Proof.
  revert piece. induction s as [| c s IH]; simpl; intros piece.
  - intros [<- | []]. reflexivity.
  - destruct (Ascii.eqb c ",") eqn:Hc.
    + intros [<- | H]; [reflexivity | now apply IH].
    + destruct (VendorForms.splitComma s) as [| p ps] eqn:Hsp.
      * intros [<- | []]. rewrite includes_comma_cons, Hc. reflexivity.
      * intros [<- | H].
        -- rewrite includes_comma_cons, Hc. apply IH. now left.
        -- apply IH. now right.
Qed.

Section Specialities.

Context {js : JS.Engine}.

Lemma trim_no_comma (s : string) :
  JS.includes s "," = false -> JS.includes (JS.trim s) "," = false.
Proof.
  intros H. destruct (JS.includes (JS.trim s) ",") eqn:Ht; [| reflexivity].
  apply includes_app in Ht. destruct Ht as [a [b Hab]].
  destruct (JS.trim_within s) as [pre [post Hs]].
  assert (Hin : JS.includes s "," = true).
  { apply includes_app. exists (pre +:+ a), (b +:+ post).
    rewrite Hs at 1. rewrite Hab. now rewrite !string_app_assoc. }
  congruence.
Qed.

Lemma trim_empty : JS.trim "" = "".
Proof. now rewrite JS.trim_ascii. Qed.

Lemma join_cons2 (sep x y : string) (l : list string) :
  VendorForms.join sep (x :: y :: l) = x +:+ sep +:+ VendorForms.join sep (y :: l).
Proof. reflexivity. Qed.

Lemma parse_joined (l : list string) (pre : string) :
  pre = "" \/ pre = " " ->
  l <> [] ->
  Forall VendorForms.tidy l ->
  List.filter JS.truthy
    (map JS.trim (VendorForms.splitComma (pre +:+ VendorForms.join ", " l))) = l.
Proof.
  revert pre. induction l as [| x l IH]; intros pre Hpre Hne Htidy; [contradiction |].
  inversion Htidy as [| ? ? [Hx [Hcomma Htrim]] Hrest]; subst.
  assert (Hpx : JS.includes (pre +:+ x) "," = false)
    by (destruct Hpre as [-> | ->]; [exact Hcomma |];
        rewrite string_app_cons, string_app_nil, includes_comma_cons;
        exact Hcomma).
  assert (Htx : JS.trim (pre +:+ x) = x)
    by (destruct Hpre as [-> | ->]; [exact Htrim | rewrite JS.trim_space; exact Htrim]).
  assert (Htruthy : JS.truthy x = true) by (destruct x; [contradiction | reflexivity]).
  destruct l as [| y l].
  - simpl VendorForms.join. rewrite (splitComma_whole _ Hpx). simpl.
    now rewrite Htx, Htruthy.
  - specialize (IH " " (or_intror eq_refl) ltac:(discriminate) Hrest).
    rewrite (join_cons2 ", " x y l).
    remember (VendorForms.join ", " (y :: l)) as J eqn:HJ.
    replace (pre +:+ x +:+ ", " +:+ J) with ((pre +:+ x) +:+ String "," (" " +:+ J))
      by (rewrite string_app_assoc; reflexivity).
    rewrite (splitComma_at_comma _ _ Hpx), map_cons.
    cbn [List.filter]. rewrite Htx, Htruthy. f_equal. exact IH.
Qed.

Lemma specialities_tidy (text : string) :
  Forall VendorForms.tidy (VendorForms.parseSpecialities text).
Proof.
  apply List.Forall_forall. intros s Hs.
  unfold VendorForms.parseSpecialities in Hs.
  apply filter_In in Hs. destruct Hs as [Hin Htruthy].
  apply in_map_iff in Hin. destruct Hin as [piece [<- Hpiece]].
  split; [| split].
  - intros E. rewrite E in Htruthy. discriminate.
  - apply trim_no_comma. exact (splitComma_pieces _ _ Hpiece).
  - apply JS.trim_again.
Qed.

Lemma specialities_parse_show (l : list string) :
  Forall VendorForms.tidy l ->
  VendorForms.parseSpecialities (VendorForms.showSpecialities l) = l.
Proof.
  intros Hl. destruct l as [| x l].
  - unfold VendorForms.parseSpecialities. simpl. now rewrite trim_empty.
  - exact (parse_joined (x :: l) "" (or_introl eq_refl) ltac:(discriminate) Hl).
Qed.

(** X21: the specialities typed into a vendor form are stored tidy: none
    is empty or contains a comma, and [trim] changes none of them. The
    edit form shows a vendor's specialities joined by ', ' and reads them
    back; what it reads back is the vendor's own list exactly when every
    speciality of the vendor is tidy. *)
Theorem specialities_round_trip (text : string) (l : list string) :
  Forall VendorForms.tidy (VendorForms.parseSpecialities text) /\
  (VendorForms.parseSpecialities (VendorForms.showSpecialities l) = l <->
   Forall VendorForms.tidy l).
Proof.
  split; [apply specialities_tidy |]. split.
  - intros <-. apply specialities_tidy.
  - apply specialities_parse_show.
Qed.

Context {B : Type}.
Variable addDoc_vendors : VendorForms.VendorData -> B -> Completion string * B.
Variable updateDoc_vendors :
  string -> VendorForms.VendorUpdates -> B -> Completion unit * B.
Variable parseFloat : string -> JS.number.
Variable numberToString : JS.number -> string.

Lemma falsy_false (s : string) : JS.falsy s = false <-> s <> "".
Proof. destruct s; simpl; split; congruence. Qed.

(** X22: [handleAddVendor] never throws. When the name, the e-mail, the
    phone or the quote is empty, or the quote does not parse to a number
    above 0, it sends nothing, keeps what was typed and the form open, and
    shows an error. Otherwise it sends exactly one vendor: the name, the
    e-mail, the phone, the location and the description are the ones
    typed, each in its own field, the specialities are the typed text
    split at the commas, trimmed and without the empty pieces, the quote
    is the parsed one, the rating is 0, there are no jobs and the vendor
    is not verified; name, e-mail and phone are not empty, the quote is
    valid, and the handler ends not loading. When the store accepts, the
    form is emptied and closed, and when it rejects, what was typed is
    kept, the form stays open and the failure is shown. *)
Theorem handleAddVendor_outcome (d : VendorForms.Dialog B) :
  let fields := VendorForms.newVendor d in
  let quote := parseFloat (VendorForms.f_baseQuote fields) in
  let d' := snd (VendorForms.handleAddVendor addDoc_vendors parseFloat d) in
  let v :=
    {| VendorForms.new_name := VendorForms.f_name fields;
       VendorForms.new_email := VendorForms.f_email fields;
       VendorForms.new_phone := VendorForms.f_phone fields;
       VendorForms.new_specialities :=
         List.filter JS.truthy
           (map JS.trim (VendorForms.splitComma (VendorForms.f_specialities fields)));
       VendorForms.new_location := VendorForms.f_location fields;
       VendorForms.new_rating := 0%float;
       VendorForms.new_totalJobs := 0%float;
       VendorForms.new_baseQuote := quote;
       VendorForms.new_description := VendorForms.f_description fields;
       VendorForms.new_verified := false |} in
  fst (VendorForms.handleAddVendor addDoc_vendors parseFloat d) = Normal tt /\
  if JS.falsy (VendorForms.f_name fields) || JS.falsy (VendorForms.f_email fields) ||
     JS.falsy (VendorForms.f_phone fields) || JS.falsy (VendorForms.f_baseQuote fields) ||
     VendorForms.invalidQuote quote
  then
    VendorForms.requests d' = VendorForms.requests d /\
    VendorForms.store d' = VendorForms.store d /\
    VendorForms.newVendor d' = fields /\
    VendorForms.showAddVendor d' = VendorForms.showAddVendor d /\
    VendorForms.error d' <> ""
  else
    VendorForms.requests d' = (VendorForms.requests d ++ [VendorForms.AddVendor v])%list /\
    VendorForms.store d' = snd (addDoc_vendors v (VendorForms.store d)) /\
    VendorForms.new_name v <> "" /\
    VendorForms.new_email v <> "" /\
    VendorForms.new_phone v <> "" /\
    VendorForms.invalidQuote (VendorForms.new_baseQuote v) = false /\
    Forall VendorForms.tidy (VendorForms.new_specialities v) /\
    VendorForms.loading d' = false /\
    match fst (addDoc_vendors v (VendorForms.store d)) with
    | Normal _ =>
        VendorForms.newVendor d' = VendorForms.emptyFields /\
        VendorForms.showAddVendor d' = false /\
        VendorForms.error d' = ""
    | Abrupt _ =>
        VendorForms.newVendor d' = fields /\
        VendorForms.showAddVendor d' = VendorForms.showAddVendor d /\
        VendorForms.error d' = "Failed to add vendor. Please try again."
    end.
Proof.
  cbv zeta. unfold VendorForms.handleAddVendor, bind, gets. simpl.
  destruct (JS.falsy (VendorForms.f_name (VendorForms.newVendor d))) eqn:Hn;
    [simpl; repeat split; discriminate |].
  destruct (JS.falsy (VendorForms.f_email (VendorForms.newVendor d))) eqn:He;
    [simpl; repeat split; discriminate |].
  destruct (JS.falsy (VendorForms.f_phone (VendorForms.newVendor d))) eqn:Hp;
    [simpl; repeat split; discriminate |].
  destruct (JS.falsy (VendorForms.f_baseQuote (VendorForms.newVendor d))) eqn:Hq;
    [simpl; repeat split; discriminate |].
  simpl orb.
  destruct (VendorForms.invalidQuote _) eqn:Hv;
    [simpl; repeat split; discriminate |].
  unfold tryFinally, tryCatch, bind, VendorForms.addVendor, VendorForms.setLoading,
    VendorForms.setError, VendorForms.setShowAddVendor, VendorForms.setNewVendor,
    VendorForms.parseSpecialities, modify. simpl.
  destruct (addDoc_vendors _ (VendorForms.store d)) as [[docId | e] b'] eqn:Hadd; simpl.
  - split; [reflexivity |]. rewrite ?Hadd. simpl.
    repeat split; try reflexivity; try (now apply falsy_false); try exact Hv.
    apply (specialities_tidy (VendorForms.f_specialities (VendorForms.newVendor d))).
  - split; [reflexivity |]. rewrite ?Hadd. simpl.
    repeat split; try reflexivity; try (now apply falsy_false); try exact Hv.
    apply (specialities_tidy (VendorForms.f_specialities (VendorForms.newVendor d))).
Qed.

(** X23: opening the edit form for a vendor and saving it untouched
    sends one update that carries the vendor's own name, e-mail, phone,
    specialities, location, description and quote, for a vendor as the
    add form produces it (name, e-mail and phone not empty, tidy
    specialities, a valid quote) and for a [parseFloat] that reads back
    what [toString] writes for that quote. The edit form is closed when
    the store accepts, and stays open for this vendor when it rejects. *)
Theorem edit_then_save_unchanged (vendor : Vendor) (d : VendorForms.Dialog B) :
  vendor_name vendor <> "" ->
  vendor_email vendor <> "" ->
  vendor_phone vendor <> "" ->
  Forall VendorForms.tidy (specialities vendor) ->
  numberToString (baseQuote vendor) <> "" ->
  parseFloat (numberToString (baseQuote vendor)) = baseQuote vendor ->
  VendorForms.invalidQuote (baseQuote vendor) = false ->
  let d' :=
    snd (bind (VendorForms.handleEditVendor numberToString vendor)
              (fun _ => VendorForms.handleSaveEdit updateDoc_vendors parseFloat
                          (vendor_id vendor))
              d) in
  VendorForms.requests d' =
  (VendorForms.requests d ++
   [VendorForms.UpdateVendor (vendor_id vendor)
      {| VendorForms.upd_vendor_name := vendor_name vendor;
         VendorForms.upd_vendor_email := vendor_email vendor;
         VendorForms.upd_vendor_phone := vendor_phone vendor;
         VendorForms.upd_vendor_specialities := specialities vendor;
         VendorForms.upd_vendor_location := vendor_location vendor;
         VendorForms.upd_vendor_description := vendor_description vendor;
         VendorForms.upd_vendor_baseQuote := baseQuote vendor |}])%list /\
  VendorForms.editingVendor d' =
  match fst (updateDoc_vendors (vendor_id vendor)
      {| VendorForms.upd_vendor_name := vendor_name vendor;
         VendorForms.upd_vendor_email := vendor_email vendor;
         VendorForms.upd_vendor_phone := vendor_phone vendor;
         VendorForms.upd_vendor_specialities := specialities vendor;
         VendorForms.upd_vendor_location := vendor_location vendor;
         VendorForms.upd_vendor_description := vendor_description vendor;
         VendorForms.upd_vendor_baseQuote := baseQuote vendor |} (VendorForms.store d)) with
  | Normal _ => None
  | Abrupt _ => Some (vendor_id vendor)
  end.
Proof.
  intros Hn He Hp Hs Hq Hparse Hvalid. cbv zeta.
  apply falsy_false in Hn, He, Hp, Hq.
  unfold VendorForms.handleEditVendor, VendorForms.handleSaveEdit, bind, gets,
    VendorForms.setEditingVendor, VendorForms.setEditVendor, VendorForms.setError,
    modify. simpl.
  rewrite Hn, He, Hp, Hq, Hparse, Hvalid. simpl.
  assert (Hround : VendorForms.parseSpecialities
                     (VendorForms.showSpecialities (specialities vendor)) =
                   specialities vendor) by (now apply specialities_parse_show).
  rewrite Hround.
  unfold tryFinally, tryCatch, bind, VendorForms.updateVendor, VendorForms.setLoading,
    VendorForms.setError, VendorForms.setEditingVendor, modify. simpl.
  destruct (updateDoc_vendors _ _ (VendorForms.store d)) as [[[] | e] b']; simpl;
    split; reflexivity.
Qed.

End Specialities.

Lemma roadworks_tidy :
  Forall (VendorForms.tidy (js := JS.asciiEngine)) (specialities Samples.roadworks).
Proof.
  constructor; [| constructor].
  split; [discriminate | split; reflexivity].
Qed.

(** The edit form of the road works vendor, saved untouched. *)
Lemma edit_then_save_unchanged_witness :
  VendorForms.editingVendor
    (snd (bind (VendorForms.handleEditVendor MoreSamples.showQuote Samples.roadworks)
               (fun _ => VendorForms.handleSaveEdit (js := JS.asciiEngine)
                           MoreSamples.acceptUpdate MoreSamples.parseQuote "v3")
               MoreSamples.dialog)) = None.
Proof.
  refine (proj2 (edit_then_save_unchanged (js := JS.asciiEngine)
                   MoreSamples.acceptUpdate
                   MoreSamples.parseQuote MoreSamples.showQuote Samples.roadworks
                   MoreSamples.dialog _ _ _ roadworks_tidy _ eq_refl eq_refl));
    discriminate.
Defined.

(** ** The filter lists of the administrator's dashboard *)

Section DashboardListProperties.

Context {js : JS.Engine}.

Lemma unique_In (x : string) (l : list string) :
  In x (DashboardLists.unique l) <-> In x l.
Proof.
  induction l as [| y l IH]; simpl; [tauto |].
  rewrite filter_In, IH, negb_true_iff, String.eqb_neq.
  destruct (String.eqb_spec x y) as [-> | Hne]; [tauto |].
  split.
  - intros [E | [H _]]; [now left | now right].
  - intros [E | H]; [now left | right; now split].
Qed.

Lemma unique_NoDup (l : list string) : List.NoDup (DashboardLists.unique l).
Proof.
  induction l as [| y l IH]; simpl; constructor.
  - rewrite filter_In, negb_true_iff, String.eqb_neq. now intros [_ H].
  - now apply List.NoDup_filter.
Qed.

Lemma categories_In (c : string) (issues : list Issue) :
  In c (DashboardLists.categories issues) <->
  JS.trim c <> "" /\ exists issue, In issue issues /\ category issue = c.
Proof.
  unfold DashboardLists.categories.
  rewrite unique_In, filter_In, in_map_iff, andb_true_iff. split.
  - intros [[issue [<- Hin]] [_ Ht]]. split; [| now exists issue].
    intros E. rewrite E in Ht. discriminate.
  - intros [Ht [issue [Hin <-]]]. split; [now exists issue |]. split.
    + destruct (category issue); [| reflexivity].
      now rewrite trim_empty in Ht.
    + now destruct (JS.trim (category issue)).
Qed.

Lemma assignees_In (a : string) (issues : list Issue) :
  In a (DashboardLists.assignees issues) <->
  a <> "" /\ exists issue, In issue issues /\ assignedTo issue = Some a.
Proof.
  unfold DashboardLists.assignees. rewrite unique_In.
  induction issues as [| i issues IH]; simpl.
  - split; [intros [] | intros [_ [issue [[] _]]]].
  - destruct (assignedTo i) as [[| x s] |] eqn:Hi; simpl.
    + rewrite IH. split.
      * intros [Ha [issue [Hin E]]]. split; [exact Ha |]. exists issue. auto.
      * intros [Ha [issue [[<- | Hin] E]]].
        -- rewrite Hi in E. injection E as <-. now destruct Ha.
        -- split; [exact Ha | now exists issue].
    + split.
      * intros [<- | H]; [split; [discriminate | exists i; auto] |].
        apply IH in H. destruct H as [Ha [issue [Hin E]]].
        split; [exact Ha |]. exists issue. auto.
      * intros [Ha [issue [[<- | Hin] E]]].
        -- rewrite Hi in E. injection E as <-. now left.
        -- right. apply IH. split; [exact Ha | now exists issue].
    + rewrite IH. split.
      * intros [Ha [issue [Hin E]]]. split; [exact Ha |]. exists issue. auto.
      * intros [Ha [issue [[<- | Hin] E]]].
        -- rewrite Hi in E. discriminate.
        -- split; [exact Ha | now exists issue].
Qed.

Lemma filter_nonempty {A : Type} (p : A -> bool) (x : A) (l : list A) :
  In x l -> p x = true -> List.filter p l <> [].
Proof.
  intros Hin Hp E. assert (H : In x (List.filter p l)) by (apply filter_In; auto).
  rewrite E in H. destruct H.
Qed.

(** X24: the category select of the dashboard offers every category
    that some issue has and that is not blank, each once. Picking an
    offered category (other than one spelled 'all') with the other
    controls untouched shows exactly the issues of that category, and at
    least one. *)
Theorem category_select_items (issues : list Issue) :
  List.NoDup (DashboardLists.categories issues) /\
  (forall c, In c (DashboardLists.categories issues) <->
             JS.trim c <> "" /\ exists issue, In issue issues /\ category issue = c) /\
  (forall c, In c (DashboardLists.categories issues) -> c <> "all" ->
             AdminDashboard.filteredIssues (DashboardLists.selectCategory c) issues =
             List.filter (fun issue => String.eqb (category issue) c) issues /\
             AdminDashboard.filteredIssues (DashboardLists.selectCategory c) issues <> []).
Proof.
  split; [apply unique_NoDup |]. split; [intros c; apply categories_In |].
  intros c Hc Hall.
  assert (Hfilter : AdminDashboard.filteredIssues (DashboardLists.selectCategory c) issues =
                    List.filter (fun issue => String.eqb (category issue) c) issues).
  { unfold AdminDashboard.filteredIssues. apply filter_ext. intros issue.
    unfold AdminDashboard.matchesSearch, AdminDashboard.matchesStatus,
      AdminDashboard.matchesCategory, AdminDashboard.matchesAssignee. simpl.
    rewrite toLowerCase_empty, !includes_empty. simpl.
    apply String.eqb_neq in Hall. rewrite Hall. simpl. now rewrite andb_true_r. }
  split; [exact Hfilter |]. rewrite Hfilter.
  apply categories_In in Hc. destruct Hc as [_ [issue [Hin E]]].
  apply (filter_nonempty _ issue); [exact Hin |]. now apply String.eqb_eq.
Qed.

(** X25: the assignee select offers every non-empty assignee of some
    issue, each once. Picking an offered assignee (other than one spelled
    'all' or 'unassigned') shows exactly the issues assigned to it, and at
    least one. Picking 'Unassigned' shows as many issues as the
    'Unassigned' counter says, unless somebody called 'unassigned' is an
    assignee. *)
Theorem assignee_select_items (issues : list Issue) :
  List.NoDup (DashboardLists.assignees issues) /\
  (forall a, In a (DashboardLists.assignees issues) <->
             a <> "" /\ exists issue, In issue issues /\ assignedTo issue = Some a) /\
  (forall a, In a (DashboardLists.assignees issues) -> a <> "all" -> a <> "unassigned" ->
             AdminDashboard.filteredIssues (DashboardLists.selectAssignee a) issues =
             List.filter (fun issue => JS.opt_eqb (assignedTo issue) a) issues /\
             AdminDashboard.filteredIssues (DashboardLists.selectAssignee a) issues <> []) /\
  (~ In "unassigned" (DashboardLists.assignees issues) ->
   length (AdminDashboard.filteredIssues (DashboardLists.selectAssignee "unassigned") issues) =
   DashboardLists.unassignedIssues issues).
Proof.
  split; [apply unique_NoDup |]. split; [intros a; apply assignees_In |]. split.
  - intros a Ha Hall Hun.
    assert (Hfilter : AdminDashboard.filteredIssues (DashboardLists.selectAssignee a) issues =
                      List.filter (fun issue => JS.opt_eqb (assignedTo issue) a) issues).
    { unfold AdminDashboard.filteredIssues. apply filter_ext. intros issue.
      unfold AdminDashboard.matchesSearch, AdminDashboard.matchesStatus,
        AdminDashboard.matchesCategory, AdminDashboard.matchesAssignee. simpl.
      rewrite toLowerCase_empty, !includes_empty. simpl.
      apply String.eqb_neq in Hall, Hun. rewrite Hall, Hun. reflexivity. }
    split; [exact Hfilter |]. rewrite Hfilter.
    apply assignees_In in Ha. destruct Ha as [_ [issue [Hin E]]].
    apply (filter_nonempty _ issue); [exact Hin |]. rewrite E. simpl.
    now apply String.eqb_eq.
  - intros Hno. unfold DashboardLists.unassignedIssues. f_equal.
    unfold AdminDashboard.filteredIssues. apply filter_ext_in. intros issue Hin.
    unfold AdminDashboard.matchesSearch, AdminDashboard.matchesStatus,
      AdminDashboard.matchesCategory, AdminDashboard.matchesAssignee. simpl.
    rewrite toLowerCase_empty, !includes_empty. simpl.
    destruct (assignedTo issue) as [a |] eqn:Ha; simpl; [| reflexivity].
    destruct (String.eqb_spec a "unassigned") as [-> | Hne];
      [| now rewrite orb_false_r].
    exfalso. apply Hno. apply assignees_In. split; [discriminate |]. now exists issue.
Qed.

End DashboardListProperties.

(** ** The counters *)

Lemma status_count_split (issues : list Issue) :
  (DashboardLists.reportedIssues issues + DashboardLists.acknowledgedIssues issues +
   DashboardLists.inProgressIssues issues + DashboardLists.resolvedIssues issues +
   length (List.filter (fun i => negb (isIssueStatus (status i))) issues))%nat =
  DashboardLists.totalIssues issues.
Proof.
  unfold DashboardLists.reportedIssues, DashboardLists.acknowledgedIssues,
    DashboardLists.inProgressIssues, DashboardLists.resolvedIssues,
    DashboardLists.countStatus, DashboardLists.totalIssues.
  induction issues as [| i issues IH]; [reflexivity |].
  cbn [List.filter length]. unfold isIssueStatus at 1.
  remember (status i) as st eqn:Hst. clear Hst.
  destruct (String.eqb_spec st "reported") as [-> | H1]; [simpl; lia |].
  destruct (String.eqb_spec st "acknowledged") as [-> | H2]; [simpl; lia |].
  destruct (String.eqb_spec st "in-progress") as [-> | H3]; [simpl; lia |].
  destruct (String.eqb_spec st "resolved") as [-> | H4]; [simpl; lia |].
  simpl. lia.
Qed.

(** X26: the status counters of the analytics never count an issue
    twice: together they are at most the total; 'reported', 'active'
    (acknowledged and in progress) and 'resolved' add up to the total
    exactly when every issue has one of the four statuses. *)
Theorem status_counters_partition (issues : list Issue) :
  (DashboardLists.reportedIssues issues + DashboardLists.acknowledgedIssues issues +
   DashboardLists.inProgressIssues issues + DashboardLists.resolvedIssues issues <=
   DashboardLists.totalIssues issues)%nat /\
  ((DashboardLists.reportedIssues issues + DashboardLists.activeIssues issues +
    DashboardLists.resolvedIssues issues)%nat = DashboardLists.totalIssues issues <->
   Forall (fun issue => isIssueStatus (status issue) = true) issues).
Proof.
  pose proof (status_count_split issues) as Hsplit.
  unfold DashboardLists.activeIssues. split; [lia |].
  rewrite List.Forall_forall. split.
  - intros Hsum issue Hin.
    destruct (isIssueStatus (status issue)) eqn:Hs; [reflexivity | exfalso].
    assert (Hne : List.filter (fun i => negb (isIssueStatus (status i))) issues <> [])
      by (apply (filter_nonempty _ issue); [exact Hin | now rewrite Hs]).
    destruct (List.filter (fun i => negb (isIssueStatus (status i))) issues);
      [now apply Hne | simpl in Hsplit; lia].
  - intros Hall.
    assert (Hnone : List.filter (fun i => negb (isIssueStatus (status i))) issues = []).
    { destruct (List.filter (fun i => negb (isIssueStatus (status i))) issues)
        as [| bad rest] eqn:Hf; [reflexivity | exfalso].
      assert (Hbad : In bad (List.filter (fun i => negb (isIssueStatus (status i))) issues))
        by (rewrite Hf; now left).
      apply filter_In in Hbad. destruct Hbad as [Hin Hs].
      rewrite (Hall bad Hin) in Hs. discriminate. }
    rewrite Hnone in Hsplit. simpl in Hsplit. lia.
Qed.

(** ** The citizen's list *)

Section CitizenListProperties.

Context {js : JS.Engine}.



End CitizenListProperties.

(** ** Who may edit *)

Section EditProperties.

Context {B : Type} {sdk : FirebaseSdk B} {js : JS.Engine}.


Lemma updateIssue_offline (issueId : string) (updates : IssueUpdates) (w : World B) :
  isFirebaseAvailable w = false ->
  updateIssue issueId updates w = (Abrupt (Error "Firebase not available"), w).
Proof.
  intros Hav. unfold updateIssue, bind, gets, throw. simpl. now rewrite Hav.
Qed.

(** X29: without the backend no edit changes anything: the status,
    assignment and vendor handlers of the dashboard and the save of the
    details view return with the issues, the vendors, the settings view
    and the world exactly as they were; the save of the settings view
    keeps the issues, the citizen's reports and the open edit form, and
    shows an error. *)
Theorem offline_edits_change_nothing (s : App.System B) :
  isFirebaseAvailable (App.world s) = false ->
  (forall issueId newStatus, App.handleStatusUpdate issueId newStatus s = (Normal tt, s)) /\
  (forall issueId assignee, App.handleAssignmentUpdate issueId assignee s = (Normal tt, s)) /\
  (forall issueId vendorId, App.handleAssignVendor issueId vendorId s = (Normal tt, s)) /\
  (forall issue e, App.handleEditSave issue e s = (Normal tt, s)) /\
  (forall issueId,
     let s' := snd (App.handleSaveEdit issueId s) in
     App.world s' = App.world s /\ App.issues s' = App.issues s /\
     App.citizenIssues (App.settings s') = App.citizenIssues (App.settings s) /\
     App.editingIssue (App.settings s') = App.editingIssue (App.settings s) /\
     App.settingsError (App.settings s') <> "").
Proof.
  intros Hav.
  assert (Hup : forall issueId updates,
            updateIssue issueId updates (App.world s) =
            (Abrupt (Error "Firebase not available"), App.world s))
    by (intros; now apply updateIssue_offline).
  repeat split.
  - intros issueId newStatus. unfold App.handleStatusUpdate.
    rewrite update_then_notify, Hup. now destruct s.
  - intros issueId assignee. unfold App.handleAssignmentUpdate.
    rewrite update_then_notify, Hup. now destruct s.
  - intros issueId vendorId.
    destruct (handleAssignVendor_run issueId vendorId s) as [vendorName ->].
    rewrite Hup. now destruct s.
  - intros issue e. rewrite handleEditSave_run.
    destruct (_ || _ || _); [reflexivity |]. rewrite Hup. now destruct s.
  - pose proof (handleSaveEdit_run issueId s) as Hrun. cbv zeta in Hrun.
    rewrite Hrun. simpl. destruct (_ || _ || _); [reflexivity |].
    now rewrite Hup.
  - pose proof (handleSaveEdit_run issueId s) as Hrun. cbv zeta in Hrun.
    rewrite Hrun. simpl. destruct (_ || _ || _); reflexivity.
  - pose proof (handleSaveEdit_run issueId s) as Hrun. cbv zeta in Hrun.
    rewrite Hrun. simpl. destruct (_ || _ || _); [reflexivity |].
    now rewrite Hup.
  - pose proof (handleSaveEdit_run issueId s) as Hrun. cbv zeta in Hrun.
    rewrite Hrun. simpl. destruct (_ || _ || _); [reflexivity |].
    now rewrite Hup.
  - pose proof (handleSaveEdit_run issueId s) as Hrun. cbv zeta in Hrun.
    rewrite Hrun. simpl. destruct (_ || _ || _); [discriminate |].
    rewrite Hup. discriminate.
Qed.

(** ** The citizen search of the settings *)

Lemma insertByDate_perm (x : Issue) (l : list Issue) :
  Permutation (App.insertByDate x l) (x :: l).
Proof.
  induction l as [| y l IH]; simpl; [reflexivity |].
  destruct (reportedAt y <? reportedAt x)%N; [reflexivity |].
  rewrite IH. apply perm_swap.
Qed.

Lemma insertByDate_sorted (x : Issue) (l : list Issue) :
  StronglySorted newerFirst l -> StronglySorted newerFirst (App.insertByDate x l).
Proof.
  induction 1 as [| y l Hl IH Hy]; simpl.
  - constructor; constructor.
  - destruct (N.ltb_spec (reportedAt y) (reportedAt x)) as [Hlt | Hge].
    + constructor; [now constructor |]. constructor; [unfold newerFirst; lia |].
      eapply Forall_impl; [exact Hy |]. unfold newerFirst. intros z Hz. simpl in *. lia.
    + constructor; [exact IH |].
      apply List.Forall_forall. intros z Hz.
      apply insertByDate_In in Hz. destruct Hz as [-> | Hz]; [exact Hge |].
      rewrite List.Forall_forall in Hy. now apply Hy.
Qed.

Lemma sortByDate_spec (l : list Issue) :
  Permutation (App.sortByDate l) l /\ StronglySorted newerFirst (App.sortByDate l).
Proof.
  unfold App.sortByDate.
  assert (G : forall acc, StronglySorted newerFirst acc ->
            Permutation (fold_left (fun sorted x => App.insertByDate x sorted) l acc)
                        (acc ++ l)%list /\
            StronglySorted newerFirst
              (fold_left (fun sorted x => App.insertByDate x sorted) l acc)).
  { induction l as [| x l IH]; simpl; intros acc Hacc.
    - rewrite app_nil_r. now split.
    - destruct (IH _ (insertByDate_sorted x acc Hacc)) as [Hp Hs]. split; [| exact Hs].
      rewrite Hp, insertByDate_perm. simpl. apply Permutation_middle. }
  destruct (G [] (SSorted_nil _)) as [Hp Hs]. now split.
Qed.

(** X30: a citizen search for a text with an '@' leaves, of the list of
    issues that the settings view keeps for itself, the reports whose
    reporter and the text are the same in lower case: all of them, each as
    often as on that list, latest first; when the reporter and the text
    are ASCII these are the reports whose reporter is the text up to the
    case of the letters A to Z. An error is shown exactly when none is
    found, as it is when the view's list is empty; the search ends not
    loading and changes neither the view's list, nor the issues of the
    application, nor the world. *)
Theorem citizen_search_result (searchEmail : string) (s : App.System B) :
  JS.trim searchEmail <> "" ->
  JS.includes searchEmail "@" = true ->
  let s' := snd (App.handleSearchCitizen searchEmail s) in
  let found := App.citizenIssues (App.settings s') in
  Permutation found
    (List.filter (fun issue => String.eqb (JS.toLowerCase (reportedBy issue))
                                          (JS.toLowerCase searchEmail))
                 (App.allIssues (App.settings s))) /\
  (forall issue,
     JS.isAscii (reportedBy issue) = true -> JS.isAscii searchEmail = true ->
     (In issue found <->
      In issue (App.allIssues (App.settings s)) /\
      DashboardSpec.sameUpToCase (reportedBy issue) searchEmail)) /\
  StronglySorted newerFirst found /\
  (found = [] <-> App.settingsError (App.settings s') <> "") /\
  (App.allIssues (App.settings s) = [] ->
   found = [] /\
   App.settingsError (App.settings s') = "No reports found for this email address") /\
  App.settingsLoading (App.settings s') = false /\
  App.allIssues (App.settings s') = App.allIssues (App.settings s) /\
  App.issues s' = App.issues s /\ App.world s' = App.world s.
Proof.
  intros Ht Hat. cbv zeta.
  assert (Hascii : forall (l : list Issue) (issue : Issue),
            JS.isAscii (reportedBy issue) = true -> JS.isAscii searchEmail = true ->
            (In issue (List.filter
                         (fun issue => String.eqb (JS.toLowerCase (reportedBy issue))
                                                  (JS.toLowerCase searchEmail)) l) <->
             In issue l /\ DashboardSpec.sameUpToCase (reportedBy issue) searchEmail)).
  { intros l issue Hr He.
    rewrite filter_In, String.eqb_eq, (JS.toLowerCase_ascii _ Hr),
      (JS.toLowerCase_ascii _ He), asciiLowerCase_same. tauto. }
  unfold App.handleSearchCitizen.
  destruct (JS.trim searchEmail) as [| c r] eqn:Htrim; [now destruct Ht |].
  simpl JS.falsy. cbn iota. rewrite Hat. simpl negb. cbn iota.
  unfold bind, gets, App.setSettings, modify. simpl.
  specialize (Hascii (App.allIssues (App.settings s))).
  destruct (List.filter _ (App.allIssues (App.settings s))) as [| x found] eqn:Hf; simpl.
  - split; [constructor |]. split; [exact Hascii |].
    split; [constructor |]. split; [split; [discriminate | reflexivity] |].
    repeat split; reflexivity.
  - destruct (sortByDate_spec (x :: found)) as [Hp Hs].
    split; [exact Hp |]. split.
    { intros issue Hr He. rewrite <- (Hascii issue Hr He). split; intros Hin.
      - now rewrite <- Hp.
      - now rewrite Hp. }
    split; [exact Hs |]. split.
    { split.
      - intros E. rewrite E in Hp. apply Permutation_nil in Hp. discriminate.
      - intros H. now destruct H. }
    split.
    { intros E. rewrite E in Hf. discriminate. }
    repeat split; reflexivity.
Qed.

End EditProperties.

(** Without the backend a new status for the pothole changes nothing. *)
Lemma offline_edits_change_nothing_witness :
  App.handleStatusUpdate "i1" "resolved" MoreSamples.offlineApp =
  (Normal tt, MoreSamples.offlineApp).
Proof.
  exact (proj1 (offline_edits_change_nothing MoreSamples.offlineApp eq_refl)
           "i1" "resolved").
Defined.

(** The search for Asha's reports, typed in capitals, with the pothole on
    the list of the settings view. *)
Lemma citizen_search_result_witness :
  Permutation
    (App.citizenIssues
       (App.settings
          (snd (App.handleSearchCitizen (js := JS.asciiEngine) "ASHA@EXAMPLE.ORG"
                  MoreSamples.settingsOpen))))
    [Samples.pothole].
Proof.
  refine (proj1 (citizen_search_result (js := JS.asciiEngine) "ASHA@EXAMPLE.ORG"
                   MoreSamples.settingsOpen _ eq_refl)).
  vm_compute. discriminate.
Defined.

(** A report is submitted, a details view is opened on it, a vendor is
    assigned, and the edit typed into the view is saved: the stored report
    is in progress and carries the new title. *)
Example edit_after_assignment :
  let s := App.steps (js := JS.asciiEngine) App.documents
             [App.CitizenSubmits SubmitSamples.asha SubmitSamples.prompt
                (SubmitSamples.filled None);
              App.AdminAssignsVendor "0" "v3";
              App.CitizenSavesEdit MoreSamples.staleReport MoreSamples.retitled]
             (App.initial (SubmitSamples.online Memory.empty)) in
  option_map doc_status (App.store s !! "0") = Some "in-progress" /\
  option_map doc_title (App.store s !! "0") = Some "Crater".
Proof. vm_compute. split; reflexivity. Qed.
